(** * IGA user synchronisation: normalizer, risk scorer, transport and
      retrieval loop of [iga_user_sync.py], as a shallow embedding.

    The Python code works on decoded JSON, mutates the counters of one
    retriever object, sleeps, logs and raises.  The embedding keeps that
    shape: JSON values are an inductive type, the retriever is a record
    threaded through a state-and-exception monad, and the two things the
    program reads from outside (the HTTP server and the wall clock) are
    oracles indexed by the number of reads made so far. *)

From Stdlib Require Import ZArith List String Ascii Bool Lia QArith.
From Stdlib Require Import DecimalString.
Import ListNotations.
Local Open Scope string_scope.
Local Open Scope Z_scope.
Set Warnings "-register-all".

(** ** Python values *)

Module Py.

(** What [response.json()] can hand to the program.  A float is carried by
    the rational it denotes; a dict is its items in order, looked up by the
    first entry with the key. *)
Inductive json : Type :=
| JNull
| JBool (b : bool)
| JInt (z : Z)
| JFloat (q : Q)
| JStr (s : string)
| JList (l : list json)
| JDict (d : list (string * json)).

(** The exceptions the modelled code can meet.  The first six are the
    [requests] hierarchy under [RequestException]; the three [*Timeout]
    ones are what [except requests.exceptions.Timeout] catches. *)
Inductive exn : Type :=
| Timeout | ConnectTimeout | ReadTimeout
| ConnectionError | HTTPError | RequestException
| AttributeError | TypeError | ValueError | KeyError | ZeroDivisionError.

Definition is_Timeout (e : exn) : bool :=
  match e with
  | Timeout | ConnectTimeout | ReadTimeout => true
  | _ => false
  end.

Definition is_RequestException (e : exn) : bool :=
  match e with
  | Timeout | ConnectTimeout | ReadTimeout
  | ConnectionError | HTTPError | RequestException => true
  | _ => false
  end.

(** [bool(v)] *)
Definition truthy (v : json) : bool :=
  match v with
  | JNull => false
  | JBool b => b
  | JInt z => negb (z =? 0)
  | JFloat q => negb (Qeq_bool q 0)
  | JStr s => negb (s =? "")%string
  | JList l => match l with [] => false | _ => true end
  | JDict d => match d with [] => false | _ => true end
  end.

(** [a or b] *)
Definition or_ (a b : json) : json := if truthy a then a else b.

Fixpoint lookup (k : string) (d : list (string * json)) : option json :=
  match d with
  | [] => None
  | (k', v) :: d' => if (k' =? k)%string then Some v else lookup k d'
  end.

(** [d.get(k, default)]; [d.get(k)] is [get k JNull d]. *)
Definition get (k : string) (default : json) (d : list (string * json)) : json :=
  match lookup k d with
  | Some v => v
  | None => default
  end.

(** [k in d] for a dict *)
Definition has_key (k : string) (d : list (string * json)) : bool :=
  match lookup k d with Some _ => true | None => false end.

(** *** Strings.  A string is the UTF-8 encoding of the text, one [ascii]
    per byte.  Case mapping is the ASCII one; white space and the
    characters of a string are Unicode's, read off the encoding. *)

Definition lower_ascii (c : ascii) : ascii :=
  let n := nat_of_ascii c in
  if andb (65 <=? n)%nat (n <=? 90)%nat then ascii_of_nat (n + 32) else c.

Definition upper_ascii (c : ascii) : ascii :=
  let n := nat_of_ascii c in
  if andb (97 <=? n)%nat (n <=? 122)%nat then ascii_of_nat (n - 32) else c.

Fixpoint map_string (f : ascii -> ascii) (s : string) : string :=
  match s with
  | EmptyString => EmptyString
  | String c s' => String (f c) (map_string f s')
  end.

Definition lower : string -> string := map_string lower_ascii.
Definition upper : string -> string := map_string upper_ascii.

Fixpoint starts_with (p s : string) : bool :=
  match p, s with
  | EmptyString, _ => true
  | String a p', String b s' => if Ascii.eqb a b then starts_with p' s' else false
  | String _ _, EmptyString => false
  end.

(** [p in s] for two strings *)
Fixpoint contains (p s : string) : bool :=
  if starts_with p s then true
  else match s with
       | EmptyString => false
       | String _ s' => contains p s'
       end.

(** [s.replace(c, r)] for a one-character [c] *)
Fixpoint replace_char (c : ascii) (r : string) (s : string) : string :=
  match s with
  | EmptyString => EmptyString
  | String a s' =>
      if Ascii.eqb a c then (r ++ replace_char c r s')%string
      else String a (replace_char c r s')
  end.

Definition utf8 (bytes : list nat) : string :=
  fold_right (fun n s => String (ascii_of_nat n) s) EmptyString bytes.

(** The characters [str.strip()] removes, each by its encoding: U+0009 to
    U+000D, U+001C to U+0020, U+0085, U+00A0, U+1680, U+2000 to U+200A,
    U+2028, U+2029, U+202F, U+205F and U+3000. *)
Definition white_space : list string :=
  map utf8
    [[9]; [10]; [11]; [12]; [13]; [28]; [29]; [30]; [31]; [32];
     [194; 133]; [194; 160]; [225; 154; 128];
     [226; 128; 128]; [226; 128; 129]; [226; 128; 130]; [226; 128; 131];
     [226; 128; 132]; [226; 128; 133]; [226; 128; 134]; [226; 128; 135];
     [226; 128; 136]; [226; 128; 137]; [226; 128; 138];
     [226; 128; 168]; [226; 128; 169]; [226; 128; 175];
     [226; 129; 159]; [227; 128; 128]]%nat.

(** [s] without the prefix [p], when it has it. *)
Fixpoint remove_prefix (p s : string) : option string :=
  match p, s with
  | EmptyString, _ => Some s
  | String a p', String b s' =>
      if Ascii.eqb a b then remove_prefix p' s' else None
  | String _ _, EmptyString => None
  end.

Fixpoint remove_first (ps : list string) (s : string) : option string :=
  match ps with
  | [] => None
  | p :: ps' =>
      match remove_prefix p s with
      | Some rest => Some rest
      | None => remove_first ps' s
      end
  end.

(** [s] without its leading run of the texts [ps]; [n] bounds the number
    of texts taken off, and the length of [s] is enough. *)
Fixpoint remove_leading (ps : list string) (n : nat) (s : string) : string :=
  match n with
  | O => s
  | S n' =>
      match remove_first ps s with
      | Some rest => remove_leading ps n' rest
      | None => s
      end
  end.

Fixpoint reverse (s : string) : string :=
  match s with
  | EmptyString => EmptyString
  | String c s' => (reverse s' ++ String c EmptyString)%string
  end.

Definition lstrip (s : string) : string :=
  remove_leading white_space (String.length s) s.

Definition rstrip (s : string) : string :=
  reverse (remove_leading (map reverse white_space) (String.length s)
             (reverse s)).

Definition strip (s : string) : string := lstrip (rstrip s).

(** A byte [10xxxxxx] goes on with the character begun before it. *)
Definition is_continuation (c : ascii) : bool :=
  let n := nat_of_ascii c in
  andb (128 <=? n)%nat (n <=? 191)%nat.

Fixpoint characters (s : string) : list string :=
  match s with
  | EmptyString => []
  | String c s' =>
      match characters s' with
      | first :: rest =>
          if match s' with
             | String d _ => is_continuation d
             | EmptyString => false
             end
          then String c first :: rest
          else String c EmptyString :: first :: rest
      | [] => [String c EmptyString]
      end
  end.

(** The characters of a string, as [for c in s] yields them. *)
Definition chars (s : string) : list json := map JStr (characters s).

Definition str_of_Z (z : Z) : string := NilZero.string_of_int (Z.to_int z).

End Py.
Import Py.

(** A call either returns or raises. *)
Inductive result (A : Type) : Type :=
| Ok (a : A)
| Raise (e : exn).
Arguments Ok {A} a.
Arguments Raise {A} e.

Definition rbind {A B : Type} (r : result A) (k : A -> result B) : result B :=
  match r with
  | Ok a => k a
  | Raise e => Raise e
  end.

Declare Scope result_scope.
Delimit Scope result_scope with result.
Notation "'try!' x := r 'in' k" := (rbind r (fun x => k))
  (at level 10, x name, r at level 100, k at level 200) : result_scope.
Local Open Scope result_scope.

(** ** Data model *)

Inductive UserStatus : Type :=
| ACTIVE | SUSPENDED | PROVISIONED | STAGED | DEPROVISIONED | EXIT.

Definition value (s : UserStatus) : string :=
  match s with
  | ACTIVE => "ACTIVE"
  | SUSPENDED => "SUSPENDED"
  | PROVISIONED => "PROVISIONED"
  | STAGED => "STAGED"
  | DEPROVISIONED => "DEPROVISIONED"
  | EXIT => "EXIT"
  end.

(** The dataclass.  The annotations say [str]; the normalizer stores
    whatever the raw record holds, so the fields are JSON values.  Only
    [status] is always built as a string and [risk_score] as an int. *)
Record IGAUser : Type := mkIGAUser {
  id : json;
  email : json;
  username : json;
  first_name : json;
  last_name : json;
  display_name : json;
  status : string;
  department : json;
  job_title : json;
  manager_id : json;
  manager_email : json;
  phone_number : json;
  employee_id : json;
  created_date : json;
  last_login : json;
  last_updated : json;
  groups : list json;
  attributes : json;
  risk_score : Z
}.

(** What [datetime.fromisoformat] builds: the wall-clock fields as
    microseconds on the naive time line, and the UTC offset if the text
    had one. *)
Record datetime : Type := mkDatetime {
  naive : Z;
  tzinfo : option Z
}.

(** [dt.replace(tzinfo=None)]: the offset is dropped, the fields stay. *)
Definition replace_tzinfo_None (dt : datetime) : datetime :=
  {| naive := naive dt; tzinfo := None |}.

Definition microseconds_per_day : Z := 86400 * 1000000.

(** [(a - b).days] for two naive datetimes: timedelta keeps
    [0 <= seconds < 86400], so [days] is the floor. *)
Definition days_between (a b : datetime) : Z :=
  (naive a - naive b) / microseconds_per_day.

(** ** Record normalizer and risk scorer *)

Section Normalizer.

(** Two library functions are taken as they are: [datetime.fromisoformat]
    ([None] is its [ValueError]) and [repr] of a float, list or dict, which
    [str] falls back on. *)
Variable fromisoformat : string -> option datetime.
Variable repr : json -> string.

(** [str(v)], also what an f-string [{v}] prints. *)
Definition str (v : json) : string :=
  match v with
  | JNull => "None"
  | JBool true => "True"
  | JBool false => "False"
  | JInt z => str_of_Z z
  | JStr s => s
  | JFloat _ | JList _ | JDict _ => repr v
  end.

Definition risk_admin_keywords : list string :=
  ["admin"; "administrator"; "root"; "superuser"; "privileged"].

(** [any(keyword in g.lower() for keyword in keywords)]: the generator
    calls [g.lower()] as soon as there is a keyword to try, and only a
    string has that method. *)
Definition any_keyword_in (keywords : list string) (g : json) : result bool :=
  match keywords with
  | [] => Ok false
  | _ :: _ =>
      match g with
      | JStr s => Ok (existsb (fun keyword => contains keyword (lower s)) keywords)
      | _ => Raise AttributeError
      end
  end.

(** [[g for g in groups if any(...)]] *)
Fixpoint admin_groups (keywords : list string) (groups : list json)
  : result (list json) :=
  match groups with
  | [] => Ok []
  | g :: rest =>
      try! hit := any_keyword_in keywords g in
      try! tail := admin_groups keywords rest in
      Ok (if hit then g :: tail else tail)
  end.

(** [_calculate_risk_score].  [now] is what [datetime.now()] returns when
    the function asks; [user_data] is received and not read. *)
Definition _calculate_risk_score (now : datetime) (user_data : json)
  (status : string) (last_login : json) (groups : list json) : result Z :=
  let risk_score := 0 in
  (* Status-based risk *)
  let risk_score :=
    if (status =? value SUSPENDED)%string then risk_score + 20
    else if (status =? value DEPROVISIONED)%string then risk_score + 50
    else risk_score in
  (* Last login based risk *)
  let risk_score :=
    if truthy last_login then
      match last_login with
      | JStr s =>
          match fromisoformat (replace_char "Z" "+00:00" s) with
          | Some login_date =>
              let days_since_login :=
                days_between now (replace_tzinfo_None login_date) in
              if days_since_login >? 90 then risk_score + 30
              else if days_since_login >? 30 then risk_score + 15
              else if days_since_login >? 7 then risk_score + 5
              else risk_score
          | None => risk_score + 10          (* ValueError *)
          end
      | _ => risk_score + 10                 (* AttributeError: no .replace *)
      end
    else risk_score + 25 in
  (* Group-based risk (admin groups) *)
  try! admin := admin_groups risk_admin_keywords groups in
  let risk_score := risk_score + Z.of_nat (List.length admin) * 10 in
  (* Cap at 100 *)
  Ok (Z.min risk_score 100).

(** Whether [_calculate_risk_score] gets to its call of [datetime.now()]:
    that call sits in the [try] of the last-login branch, after
    [fromisoformat], so it is made exactly for a truthy last login that has
    [.replace] and parses. *)
Definition reaches_now (last_login : json) : bool :=
  if truthy last_login then
    match last_login with
    | JStr s =>
        match fromisoformat (replace_char "Z" "+00:00" s) with
        | Some _ => true
        | None => false
        end
    | _ => false
    end
  else false.

(** The dataclass hook run by the constructor.  [groups] and [attributes]
    are never [None] when the normalizer builds the object, so only the
    display-name default can fire. *)
Definition __post_init__ (u : IGAUser) : IGAUser :=
  if negb (truthy (display_name u)) then
    {| id := id u; email := email u; username := username u;
       first_name := first_name u; last_name := last_name u;
       display_name :=
         JStr (strip (str (first_name u) ++ " " ++ str (last_name u))%string);
       status := status u; department := department u;
       job_title := job_title u; manager_id := manager_id u;
       manager_email := manager_email u; phone_number := phone_number u;
       employee_id := employee_id u; created_date := created_date u;
       last_login := last_login u; last_updated := last_updated u;
       groups := groups u; attributes := attributes u;
       risk_score := risk_score u |}
  else u.

(** One element of the raw [groups] list, as the comprehension maps it:
    [g.get('name', g) if isinstance(g, dict) else str(g)]. *)
Definition group_name (g : json) : json :=
  match g with
  | JDict d => get "name" g d
  | _ => JStr (str g)
  end.

(** The body of the [try] in [_parse_user_data].  Every [.get] is a method
    of dict: any other raw record raises [AttributeError] on the first. *)
Definition parse_body (now : datetime) (user_data : json) : result IGAUser :=
  match user_data with
  | JDict d =>
      let user_id := or_ (or_ (get "_id" JNull d) (get "id" JNull d))
                         (get "userId" (JStr "") d) in
      let email := get "email" (JStr "") d in
      let username := or_ (or_ (get "username" JNull d) (get "login" JNull d))
                          email in
      let first_name :=
        or_ (or_ (get "firstname" JNull d) (get "firstName" JNull d))
            (get "given_name" (JStr "") d) in
      let last_name :=
        or_ (or_ (get "lastname" JNull d) (get "lastName" JNull d))
            (get "family_name" (JStr "") d) in
      let display_name :=
        or_ (or_ (get "displayname" JNull d) (get "displayName" JNull d))
            (JStr (strip (str first_name ++ " " ++ str last_name)%string)) in
      let status_raw :=
        get "activated"
            (get "suspended" (get "status" (JStr "UNKNOWN") d) d) d in
      let status :=
        match status_raw with
        | JBool b => if b then value ACTIVE else value SUSPENDED
        | _ => upper (str status_raw)
        end in
      let department :=
        or_ (get "department" JNull d) (get "organization" (JStr "") d) in
      let job_title := or_ (get "jobTitle" JNull d) (get "title" (JStr "") d) in
      let employee_id :=
        or_ (get "employeeIdentifier" JNull d)
            (get "employeeNumber" (JStr "") d) in
      let phone :=
        or_ (get "phoneNumber" JNull d) (get "mobilePhone" (JStr "") d) in
      let created_date := or_ (get "created" JNull d) (get "createdAt" JNull d) in
      let last_login := or_ (get "lastLogin" JNull d) (get "lastSignIn" JNull d) in
      let last_updated :=
        or_ (get "updated" JNull d) (get "lastUpdated" JNull d) in
      let groups :=
        match lookup "groups" d with
        | Some (JList l) => map group_name l
        | _ => []
        end in
      try! risk_score :=
        _calculate_risk_score now user_data status last_login groups in
      Ok (__post_init__
            {| id := user_id; email := email; username := username;
               first_name := first_name; last_name := last_name;
               display_name := display_name; status := status;
               department := department; job_title := job_title;
               manager_id := JNull; manager_email := JNull;
               phone_number := phone; employee_id := employee_id;
               created_date := created_date; last_login := last_login;
               last_updated := last_updated; groups := groups;
               attributes := user_data; risk_score := risk_score |})
  | _ => Raise AttributeError
  end.

(** Whether normalizing [user_data] reads the clock: a raw record that is
    no dict raises before the scorer is called, and for a dict the scorer
    decides on the resolved last login, before it looks at the groups. *)
Definition reads_clock (user_data : json) : bool :=
  match user_data with
  | JDict d =>
      reaches_now (or_ (get "lastLogin" JNull d) (get "lastSignIn" JNull d))
  | _ => false
  end.

End Normalizer.

(** ** The retriever object and its surroundings *)

Record IGAConfig : Type := mkConfig {
  BASE_URL : string;
  API_KEY : string;
  ORG_ID : string;
  TIMEOUT : Z;
  MAX_RETRIES : Z;
  RETRY_DELAY : Z;
  PAGE_SIZE : Z;
  RATE_LIMIT_DELAY : Q
}.

(** The [sync_stats] dict. *)
Record SyncStats : Type := mkStats {
  start_time : option datetime;
  end_time : option datetime;
  total_users : Z;
  active_users : Z;
  suspended_users : Z;
  api_calls : Z;
  errors : Z;
  rate_limited : Z
}.

Definition initial_stats : SyncStats :=
  {| start_time := None; end_time := None; total_users := 0;
     active_users := 0; suspended_users := 0; api_calls := 0;
     errors := 0; rate_limited := 0 |}.

(** What reaches the log handlers (level INFO and above), one constructor
    per call site. *)
Inductive log_record : Type :=
| Info_starting
| Info_fetching_page (page_count : Z)
| Info_processed (page_user_count page_count : Z)
| Warning_rate_limited (retry_after : Z)
| Error_timeout (attempt : Z)
| Error_request_failed (e : exn) (attempt : Z)
| Error_parse_failed (e : exn)
| Error_process_failed (e : exn)
| Error_retrieve_failed (e : exn)
| Info_rule
| Info_sync_complete
| Info_total_users (n : Z)
| Info_active_users (n : Z)
| Info_suspended_users (n : Z)
| Info_api_calls (n : Z)
| Info_rate_limited (n : Z)
| Info_errors (n : Z)
| Info_duration (microseconds : Z)
| Info_average (total microseconds : Z).

(** One [IGAUserRetriever] together with the traces of what it did to the
    outside: log records and sleeps (newest first), and how many times it
    asked the server and the clock. *)
Record retriever : Type := mkRetriever {
  users : list IGAUser;
  sync_stats : SyncStats;
  log : list log_record;
  slept : list Q;
  requests_sent : nat;
  clock_reads : nat
}.

Definition initial_retriever : retriever :=
  {| users := []; sync_stats := initial_stats; log := []; slept := [];
     requests_sent := 0; clock_reads := 0 |}.

Definition with_users (f : list IGAUser -> list IGAUser) (r : retriever) :=
  {| users := f (users r); sync_stats := sync_stats r; log := log r;
     slept := slept r; requests_sent := requests_sent r;
     clock_reads := clock_reads r |}.

Definition with_stats (f : SyncStats -> SyncStats) (r : retriever) :=
  {| users := users r; sync_stats := f (sync_stats r); log := log r;
     slept := slept r; requests_sent := requests_sent r;
     clock_reads := clock_reads r |}.

Definition with_log (f : list log_record -> list log_record) (r : retriever) :=
  {| users := users r; sync_stats := sync_stats r; log := f (log r);
     slept := slept r; requests_sent := requests_sent r;
     clock_reads := clock_reads r |}.

Definition with_slept (f : list Q -> list Q) (r : retriever) :=
  {| users := users r; sync_stats := sync_stats r; log := log r;
     slept := f (slept r); requests_sent := requests_sent r;
     clock_reads := clock_reads r |}.

Definition with_requests_sent (f : nat -> nat) (r : retriever) :=
  {| users := users r; sync_stats := sync_stats r; log := log r;
     slept := slept r; requests_sent := f (requests_sent r);
     clock_reads := clock_reads r |}.

Definition with_clock_reads (f : nat -> nat) (r : retriever) :=
  {| users := users r; sync_stats := sync_stats r; log := log r;
     slept := slept r; requests_sent := requests_sent r;
     clock_reads := f (clock_reads r) |}.

(** The clock after [user_data] has been normalized: read once more if
    the scorer asked. *)
Definition read_clock_for (fromisoformat : string -> option datetime)
  (user_data : json) (r : retriever) : retriever :=
  if reads_clock fromisoformat user_data then with_clock_reads S r else r.

Definition set_start_time (t : datetime) (s : SyncStats) :=
  {| start_time := Some t; end_time := end_time s;
     total_users := total_users s; active_users := active_users s;
     suspended_users := suspended_users s; api_calls := api_calls s;
     errors := errors s; rate_limited := rate_limited s |}.

Definition set_end_time (t : datetime) (s : SyncStats) :=
  {| start_time := start_time s; end_time := Some t;
     total_users := total_users s; active_users := active_users s;
     suspended_users := suspended_users s; api_calls := api_calls s;
     errors := errors s; rate_limited := rate_limited s |}.

Definition set_total_users (n : Z) (s : SyncStats) :=
  {| start_time := start_time s; end_time := end_time s;
     total_users := n; active_users := active_users s;
     suspended_users := suspended_users s; api_calls := api_calls s;
     errors := errors s; rate_limited := rate_limited s |}.

Definition incr_active_users (s : SyncStats) :=
  {| start_time := start_time s; end_time := end_time s;
     total_users := total_users s; active_users := active_users s + 1;
     suspended_users := suspended_users s; api_calls := api_calls s;
     errors := errors s; rate_limited := rate_limited s |}.

Definition incr_suspended_users (s : SyncStats) :=
  {| start_time := start_time s; end_time := end_time s;
     total_users := total_users s; active_users := active_users s;
     suspended_users := suspended_users s + 1; api_calls := api_calls s;
     errors := errors s; rate_limited := rate_limited s |}.

Definition incr_api_calls (s : SyncStats) :=
  {| start_time := start_time s; end_time := end_time s;
     total_users := total_users s; active_users := active_users s;
     suspended_users := suspended_users s; api_calls := api_calls s + 1;
     errors := errors s; rate_limited := rate_limited s |}.

Definition incr_errors (s : SyncStats) :=
  {| start_time := start_time s; end_time := end_time s;
     total_users := total_users s; active_users := active_users s;
     suspended_users := suspended_users s; api_calls := api_calls s;
     errors := errors s + 1; rate_limited := rate_limited s |}.

Definition incr_rate_limited (s : SyncStats) :=
  {| start_time := start_time s; end_time := end_time s;
     total_users := total_users s; active_users := active_users s;
     suspended_users := suspended_users s; api_calls := api_calls s;
     errors := errors s; rate_limited := rate_limited s + 1 |}.

(** *** Methods: state in, result and state out.  A raise keeps the
    mutations made before it, as in Python. *)

Definition M (A : Type) : Type := retriever -> result A * retriever.

Definition ret {A : Type} (a : A) : M A := fun r => (Ok a, r).

Definition raise {A : Type} (e : exn) : M A := fun r => (Raise e, r).

Definition bind {A B : Type} (m : M A) (k : A -> M B) : M B :=
  fun r =>
    match m r with
    | (Ok a, r') => k a r'
    | (Raise e, r') => (Raise e, r')
    end.

(** [try: m  except Exception as e: h e] *)
Definition catch {A : Type} (m : M A) (h : exn -> M A) : M A :=
  fun r =>
    match m r with
    | (Ok a, r') => (Ok a, r')
    | (Raise e, r') => h e r'
    end.

(** [try: m  finally: f]; an exception of [f] replaces the outcome of [m]. *)
Definition finally {A : Type} (m : M A) (f : M unit) : M A :=
  fun r =>
    match m r with
    | (res, r') =>
        match f r' with
        | (Ok _, r'') => (res, r'')
        | (Raise e, r'') => (Raise e, r'')
        end
    end.

Definition modify (f : retriever -> retriever) : M unit :=
  fun r => (Ok tt, f r).

Definition lift {A : Type} (x : result A) : M A := fun r => (x, r).

Declare Scope method_scope.
Delimit Scope method_scope with method.
Notation "x <- m ;; k" := (bind m (fun x => k))
  (at level 61, m at next level, right associativity) : method_scope.
Notation "m ;; k" := (bind m (fun _ => k))
  (at level 61, right associativity) : method_scope.
Local Open Scope method_scope.

Definition logger (l : log_record) : M unit := modify (with_log (cons l)).

Definition update_stats (f : SyncStats -> SyncStats) : M unit :=
  modify (with_stats f).

(** [time.sleep]: a negative length is a [ValueError]. *)
Definition sleep (seconds : Q) : M unit :=
  fun r =>
    if Qle_bool 0 seconds then (Ok tt, with_slept (cons seconds) r)
    else (Raise ValueError, r).

(** ** Transport and retrieval *)

(** The [Retry-After] header as [int(...)] reads it. *)
Inductive header_int : Type :=
| Absent
| NotAnInt
| IntValue (n : Z).

Record response : Type := mkResponse {
  status_code : Z;
  retry_after_header : header_int;
  json_body : result json          (* what [response.json()] does *)
}.

(** What one [session.get] does. *)
Inductive get_outcome : Type :=
| GetRaises (e : exn)
| GetReturns (resp : response).

Section Retriever.

Variable config : IGAConfig.
Variable fromisoformat : string -> option datetime.
Variable repr : json -> string.

(** The server: the outcome of the k-th GET this retriever sends, given the
    cursor parameter it carries. *)
Variable server : nat -> option json -> get_outcome.

(** The clock: the k-th value [datetime.now()] returns. *)
Variable clock : nat -> datetime.

Definition datetime_now : M datetime :=
  fun r => (Ok (clock (clock_reads r)), with_clock_reads S r).

Definition session_get (cursor : option json) : M response :=
  fun r =>
    let r' := with_requests_sent S r in
    match server (requests_sent r) cursor with
    | GetRaises e => (Raise e, r')
    | GetReturns resp => (Ok resp, r')
    end.

(** [response.raise_for_status()] *)
Definition raise_for_status (resp : response) : M unit :=
  if andb (400 <=? status_code resp) (status_code resp <? 600)
  then raise HTTPError else ret tt.

(** The [try] body of one turn of the [for attempt] loop: [Some data] when
    it reaches [return], [None] when it reaches [continue]. *)
Definition attempt_body (cursor : option json) : M (option json) :=
  update_stats incr_api_calls ;;
  resp <- session_get cursor ;;
  if status_code resp =? 429 then
    update_stats incr_rate_limited ;;
    retry_after <- match retry_after_header resp with
                   | Absent => ret (RETRY_DELAY config)
                   | NotAnInt => raise ValueError
                   | IntValue n => ret n
                   end ;;
    logger (Warning_rate_limited retry_after) ;;
    sleep (inject_Z retry_after) ;;
    ret None
  else
    raise_for_status resp ;;
    (if negb (Qle_bool (RATE_LIMIT_DELAY config) 0)
     then sleep (RATE_LIMIT_DELAY config) else ret tt) ;;
    data <- lift (json_body resp) ;;
    ret (Some data).

(** The two [except] clauses; any other exception passes through. *)
Definition attempt_handlers (attempt : Z) (e : exn) : M (option json) :=
  if is_Timeout e then
    logger (Error_timeout (attempt + 1)) ;;
    if attempt =? MAX_RETRIES config - 1 then
      update_stats incr_errors ;; raise e
    else
      sleep (inject_Z (RETRY_DELAY config * (attempt + 1))) ;; ret None
  else if is_RequestException e then
    logger (Error_request_failed e (attempt + 1)) ;;
    if attempt =? MAX_RETRIES config - 1 then
      update_stats incr_errors ;; raise e
    else
      sleep (inject_Z (RETRY_DELAY config * (attempt + 1))) ;; ret None
  else raise e.

(** [for attempt in range(MAX_RETRIES)], with [n] turns left, then the
    [raise] after the loop. *)
Fixpoint attempts (cursor : option json) (n : nat) (attempt : Z) : M json :=
  match n with
  | O => raise RequestException
  | S n' =>
      turn <- catch (attempt_body cursor) (attempt_handlers attempt) ;;
      match turn with
      | Some data => ret data
      | None => attempts cursor n' (attempt + 1)
      end
  end.

Definition _make_request (cursor : option json) : M json :=
  attempts cursor (Z.to_nat (MAX_RETRIES config)) 0.

(** [_parse_user_data]: the body, and the handler that logs and re-raises.
    The body is given the reading [datetime.now()] would return at this
    point, and the clock is advanced only when the scorer asks for it; a
    record that does not ask is scored without the reading. *)
Definition _parse_user_data (user_data : json) : M IGAUser :=
  fun r =>
    let now := clock (clock_reads r) in
    catch (lift (parse_body fromisoformat repr now user_data))
          (fun e => logger (Error_parse_failed e) ;; raise e)
          (read_clock_for fromisoformat user_data r).

(** [k in response_data] *)
Definition in_ (k : string) (response_data : json) : result bool :=
  match response_data with
  | JDict d => Ok (has_key k d)
  | JList l =>
      Ok (existsb (fun x => match x with
                            | JStr s => (s =? k)%string
                            | _ => false
                            end) l)
  | JStr s => Ok (contains k s)
  | _ => Raise TypeError
  end.

(** [response_data[k]] for a string [k] *)
Definition getitem (k : string) (response_data : json) : result json :=
  match response_data with
  | JDict d => match lookup k d with
               | Some v => Ok v
               | None => Raise KeyError
               end
  | _ => Raise TypeError
  end.

(** [response_data.get(k)] *)
Definition get_method (k : string) (response_data : json) : result json :=
  match response_data with
  | JDict d => Ok (get k JNull d)
  | _ => Raise AttributeError
  end.

(** The three response shapes: [(users_data, next_cursor)]. *)
Definition extract_page (response_data : json) : result (json * json) :=
  try! has_results := in_ "results" response_data in
  if has_results then
    try! users_data := getitem "results" response_data in
    try! next_cursor := get_method "next_cursor" response_data in
    Ok (users_data, next_cursor)
  else
    try! has_data := in_ "data" response_data in
    if has_data then
      try! users_data := getitem "data" response_data in
      try! c1 := get_method "next_cursor" response_data in
      try! c2 := get_method "nextCursor" response_data in
      Ok (users_data, or_ c1 c2)
    else
      Ok (match response_data with
          | JList _ => response_data
          | _ => JList []
          end, JNull).

(** What [for user_data in users_data] iterates over. *)
Definition iter (users_data : json) : result (list json) :=
  match users_data with
  | JList l => Ok l
  | JDict d => Ok (map (fun kv => JStr (fst kv)) d)
  | JStr s => Ok (chars s)
  | _ => Raise TypeError
  end.

(** One turn of the [for user_data] loop, with its [try]/[except]. *)
Definition process_user (user_data : json) (page_user_count : Z) : M Z :=
  catch
    (user <- _parse_user_data user_data ;;
     modify (with_users (fun us => (us ++ [user])%list)) ;;
     (if (status user =? value ACTIVE)%string then
        update_stats incr_active_users
      else if orb (status user =? value SUSPENDED)%string
                  (status user =? value DEPROVISIONED)%string then
        update_stats incr_suspended_users
      else ret tt) ;;
     ret (page_user_count + 1))
    (fun e =>
       logger (Error_process_failed e) ;;
       update_stats incr_errors ;;
       ret page_user_count).

Fixpoint process_users (records : list json) (page_user_count : Z) : M Z :=
  match records with
  | [] => ret page_user_count
  | user_data :: rest =>
      n <- process_user user_data page_user_count ;;
      process_users rest n
  end.

(** One turn of [while True]: [Some next_cursor] to go round again, [None]
    at [break]. *)
Definition fetch_page (next_cursor : json) (page_count : Z) : M (option json) :=
  logger (Info_fetching_page page_count) ;;
  response_data <-
    _make_request (if truthy next_cursor then Some next_cursor else None) ;;
  page <- lift (extract_page response_data) ;;
  let '(users_data, next_cursor) := page in
  records <- lift (iter users_data) ;;
  page_user_count <- process_users records 0 ;;
  logger (Info_processed page_user_count page_count) ;;
  if orb (negb (truthy next_cursor)) (negb (truthy users_data))
  then ret None else ret (Some next_cursor).

(** The [while True] loop.  [fuel] bounds the turns; [None] is a loop that
    is still running when the fuel is gone.  The value returned is the last
    [page_count]. *)
Fixpoint retrieve_loop (fuel : nat) (next_cursor : json) (page_count : Z)
  (r : retriever) : option (result Z * retriever) :=
  match fuel with
  | O => None
  | S fuel' =>
      let page_count := page_count + 1 in
      match fetch_page next_cursor page_count r with
      | (Raise e, r') => Some (Raise e, r')
      | (Ok None, r') => Some (Ok page_count, r')
      | (Ok (Some next_cursor'), r') =>
          retrieve_loop fuel' next_cursor' page_count r'
      end
  end.

Definition duration_microseconds (s e : datetime) : Z := naive e - naive s.

Definition _log_sync_summary : M unit :=
  fun r =>
    let stats := sync_stats r in
    match end_time stats, start_time stats with
    | Some e, Some s =>
        let duration := duration_microseconds s e in
        (logger Info_rule ;;
         logger Info_sync_complete ;;
         logger Info_rule ;;
         logger (Info_total_users (total_users stats)) ;;
         logger (Info_active_users (active_users stats)) ;;
         logger (Info_suspended_users (suspended_users stats)) ;;
         logger (Info_api_calls (api_calls stats)) ;;
         logger (Info_rate_limited (rate_limited stats)) ;;
         logger (Info_errors (errors stats)) ;;
         logger (Info_duration duration) ;;
         (if duration =? 0 then raise ZeroDivisionError
          else logger (Info_average (total_users stats) duration)) ;;
         logger Info_rule) r
    | _, _ => (Raise TypeError, r)
    end.

(** The [finally] block of [retrieve_all_users]. *)
Definition finalize : M unit :=
  now <- datetime_now ;;
  update_stats (set_end_time now) ;;
  (fun r => update_stats
              (set_total_users (Z.of_nat (List.length (users r)))) r) ;;
  _log_sync_summary.

(** What follows the loop once it has stopped with outcome [looped]: the
    [except] clause, the [finally] block, then [return self.users]. *)
Definition after_loop (looped : result Z) : M (list IGAUser) :=
  finally
    (catch (lift looped)
           (fun e => logger (Error_retrieve_failed e) ;; raise e))
    finalize ;;
  (fun r => (Ok (users r), r)).

Definition retrieve_all_users (fuel : nat) (r : retriever)
  : option (result (list IGAUser) * retriever) :=
  let prologue :=
    now <- datetime_now ;;
    update_stats (set_start_time now) ;;
    logger Info_starting in
  match prologue r with
  | (Raise e, r0) => Some (Raise e, r0)
  | (Ok _, r0) =>
      match retrieve_loop fuel JNull 0 r0 with
      | None => None
      | Some (looped, r1) => Some (after_loop looped r1)
      end
  end.

(** ** Query helpers *)

Definition query_admin_keywords : list string :=
  ["admin"; "administrator"; "root"; "superuser"; "privileged"; "sudo"].

(** The inner [for group in user.groups] of [get_privileged_users]:
    [true] when it leaves by [break]. *)
Fixpoint has_admin_group (user_groups : list json) : result bool :=
  match user_groups with
  | [] => Ok false
  | group :: rest =>
      try! hit := any_keyword_in query_admin_keywords group in
      if hit then Ok true else has_admin_group rest
  end.

(** The outer loop, with the list built so far. *)
Fixpoint privileged_loop (us privileged_users : list IGAUser)
  : result (list IGAUser) :=
  match us with
  | [] => Ok privileged_users
  | user :: rest =>
      try! hit := has_admin_group (groups user) in
      privileged_loop rest
        (if hit then (privileged_users ++ [user])%list else privileged_users)
  end.

Definition get_privileged_users (r : retriever) : result (list IGAUser) :=
  privileged_loop (users r) [].

Definition get_high_risk_users (risk_threshold : Z) (r : retriever)
  : list IGAUser :=
  filter (fun user => risk_score user >=? risk_threshold) (users r).

End Retriever.

(** ** A concrete library, to run the model

    [fromisoformat] for the texts [YYYY-MM-DD] and [YYYY-MM-DD?HH:MM:SS],
    the second with an optional [+HH:MM] or [-HH:MM] offset; every other
    text is refused.  The theorems below hold for any parser; this one
    evaluates the model on concrete records. *)

Module Sample.

Definition digit (c : ascii) : option Z :=
  let n := nat_of_ascii c in
  if andb (48 <=? n)%nat (n <=? 57)%nat then Some (Z.of_nat (n - 48)) else None.

(** Exactly [n] decimal digits. *)
Fixpoint digits (n : nat) (acc : Z) (s : string) : option (Z * string) :=
  match n with
  | O => Some (acc, s)
  | S n' =>
      match s with
      | String c s' =>
          match digit c with
          | Some d => digits n' (10 * acc + d) s'
          | None => None
          end
      | EmptyString => None
      end
  end.

Definition expect (c : ascii) (s : string) : option string :=
  match s with
  | String a s' => if Ascii.eqb a c then Some s' else None
  | EmptyString => None
  end.

Definition is_leap (y : Z) : bool :=
  andb (y mod 4 =? 0) (orb (negb (y mod 100 =? 0)) (y mod 400 =? 0)).

Definition days_in_month (y m : Z) : Z :=
  if m =? 2 then (if is_leap y then 29 else 28)
  else if orb (orb (m =? 4) (m =? 6)) (orb (m =? 9) (m =? 11)) then 30
  else 31.

(** Days from 1970-01-01 to the given proleptic Gregorian date. *)
Definition days_from_civil (y m d : Z) : Z :=
  let y' := if m <=? 2 then y - 1 else y in
  let era := y' / 400 in
  let yoe := y' - era * 400 in
  let mp := (m + 9) mod 12 in
  let doy := (153 * mp + 2) / 5 + d - 1 in
  let doe := yoe * 365 + yoe / 4 - yoe / 100 + doy in
  era * 146097 + doe - 719468.

Definition obind {A B : Type} (o : option A) (k : A -> option B) : option B :=
  match o with
  | Some a => k a
  | None => None
  end.

Definition parse_date (s : string) : option (Z * string) :=
  obind (digits 4 0 s) (fun '(y, s) =>
  obind (expect "-" s) (fun s =>
  obind (digits 2 0 s) (fun '(m, s) =>
  obind (expect "-" s) (fun s =>
  obind (digits 2 0 s) (fun '(d, s) =>
  if andb (andb (1 <=? y) (andb (1 <=? m) (m <=? 12)))
          (andb (1 <=? d) (d <=? days_in_month y m))
  then Some (days_from_civil y m d, s) else None))))).

Definition parse_hms (s : string) : option (Z * string) :=
  obind (digits 2 0 s) (fun '(h, s) =>
  obind (expect ":" s) (fun s =>
  obind (digits 2 0 s) (fun '(mi, s) =>
  obind (expect ":" s) (fun s =>
  obind (digits 2 0 s) (fun '(sec, s) =>
  if andb (h <=? 23) (andb (mi <=? 59) (sec <=? 59))
  then Some ((h * 3600 + mi * 60 + sec) * 1000000, s) else None))))).

Definition parse_offset (s : string) : option (option Z) :=
  match s with
  | EmptyString => Some None
  | String c s' =>
      let sign := if Ascii.eqb c "+" then Some 1
                  else if Ascii.eqb c "-" then Some (-1) else None in
      obind sign (fun sg =>
      obind (digits 2 0 s') (fun '(h, s) =>
      obind (expect ":" s) (fun s =>
      obind (digits 2 0 s) (fun '(mi, s) =>
      match s with
      | EmptyString =>
          if andb (h <=? 23) (mi <=? 59)
          then Some (Some (sg * (h * 3600 + mi * 60) * 1000000)) else None
      | _ => None
      end))))
  end.

Definition fromisoformat (s : string) : option datetime :=
  obind (parse_date s) (fun '(days, s) =>
  match s with
  | EmptyString =>
      Some {| naive := days * microseconds_per_day; tzinfo := None |}
  | String _ s' =>
      obind (parse_hms s') (fun '(us, s) =>
      obind (parse_offset s) (fun tz =>
      Some {| naive := days * microseconds_per_day + us; tzinfo := tz |}))
  end).

(** [repr] is asked only for a float, list or dict; the records evaluated
    below have none where a text is needed, so a marker stands for it. *)
Definition repr (v : json) : string := "<repr>".

(** A naive local time, for the clock. *)
Definition at_ (y m d h mi sec : Z) : datetime :=
  {| naive := days_from_civil y m d * microseconds_per_day
              + (h * 3600 + mi * 60 + sec) * 1000000;
     tzinfo := None |}.

End Sample.

(** ** Vocabulary of the statements *)

(** [isinstance(v, str)] *)
Definition is_str (v : json) : bool :=
  match v with
  | JStr _ => true
  | _ => false
  end.

(** The three inputs of the scorer, as the normalizer resolves them from a
    raw dict. *)
Definition raw_status (repr : json -> string) (d : list (string * json))
  : string :=
  let status_raw :=
    get "activated" (get "suspended" (get "status" (JStr "UNKNOWN") d) d) d in
  match status_raw with
  | JBool b => if b then value ACTIVE else value SUSPENDED
  | _ => upper (str repr status_raw)
  end.

Definition raw_last_login (d : list (string * json)) : json :=
  or_ (get "lastLogin" JNull d) (get "lastSignIn" JNull d).

Definition raw_groups (repr : json -> string) (d : list (string * json))
  : list json :=
  match lookup "groups" d with
  | Some (JList l) => map (group_name repr) l
  | _ => []
  end.

Definition set_risk_score (z : Z) (u : IGAUser) : IGAUser :=
  {| id := id u; email := email u; username := username u;
     first_name := first_name u; last_name := last_name u;
     display_name := display_name u; status := status u;
     department := department u; job_title := job_title u;
     manager_id := manager_id u; manager_email := manager_email u;
     phone_number := phone_number u; employee_id := employee_id u;
     created_date := created_date u; last_login := last_login u;
     last_updated := last_updated u; groups := groups u;
     attributes := attributes u; risk_score := z |}.

(** Scenario B of the specification: [suspended: true], no [activated]
    key, one admin-like group, last login on 2024-01-01.  [scenario_B_now]
    is 100 days later. *)
Definition scenario_B : json :=
  JDict [("id", JStr "1"); ("email", JStr "a@x.com");
         ("firstname", JStr "A"); ("lastname", JStr "B");
         ("suspended", JBool true);
         ("lastLogin", JStr "2024-01-01T00:00:00Z");
         ("groups", JList [JStr "Org-Admins"])].

Definition scenario_B_now : datetime := Sample.at_ 2024 4 10 0 0 0.

Definition risk_score_of (x : result IGAUser) : option Z :=
  match x with
  | Ok u => Some (risk_score u)
  | Raise _ => None
  end.

Definition status_of (x : result IGAUser) : option string :=
  match x with
  | Ok u => Some (status u)
  | Raise _ => None
  end.

(** A clock that stands still, for runs where one reading matters. *)
Definition clock_at (t : datetime) : nat -> datetime := fun _ => t.

(** How long a 429 response makes the caller sleep, when [int(...)] accepts
    the header. *)
Definition retry_after_seconds (config : IGAConfig) (resp : response)
  : option Z :=
  match retry_after_header resp with
  | Absent => Some (RETRY_DELAY config)
  | NotAnInt => None
  | IntValue n => Some n
  end.

(** A 429 answer with a [Retry-After] the code can sleep on. *)
Definition is_rate_limit (config : IGAConfig) (o : get_outcome) : bool :=
  match o with
  | GetReturns resp =>
      andb (status_code resp =? 429)
           match retry_after_seconds config resp with
           | Some s => 0 <=? s
           | None => false
           end
  | GetRaises _ => false
  end.

(** The seconds a 429 answer makes the caller sleep, as [time.sleep] gets
    them. *)
Definition pause_of (config : IGAConfig) (o : get_outcome) : Q :=
  match o with
  | GetReturns resp =>
      match retry_after_seconds config resp with
      | Some s => inject_Z s
      | None => 0
      end
  | GetRaises _ => 0
  end.

(** The pauses after the answers to the [k] requests from number [first]
    on, newest first as [slept] keeps them. *)
Fixpoint rate_limit_pauses (config : IGAConfig)
  (server : nat -> option json -> get_outcome) (cursor : option json)
  (first k : nat) : list Q :=
  match k with
  | O => []
  | S k' =>
      pause_of config (server (first + k')%nat cursor)
      :: rate_limit_pauses config server cursor first k'
  end.

(** An attempt that ends in an exception of the [requests] hierarchy. *)
Definition is_transport_failure (o : get_outcome) : bool :=
  match o with
  | GetRaises e => is_RequestException e
  | GetReturns _ => false
  end.

Definition too_many_requests (retry_after : Z) : get_outcome :=
  GetReturns {| status_code := 429;
                retry_after_header := IntValue retry_after;
                json_body := Raise ValueError |}.

Definition default_config : IGAConfig :=
  {| BASE_URL := "https://console.jumpcloud.com/api";
     API_KEY := "key"; ORG_ID := "";
     TIMEOUT := 30; MAX_RETRIES := 3; RETRY_DELAY := 2; PAGE_SIZE := 100;
     RATE_LIMIT_DELAY := 1 # 2 |}.

(** The number of clock readings made once [records] have been normalized
    in order, [k0] having been made before: one more for each record that
    reads the clock. *)
Fixpoint clock_reads_after (fromisoformat : string -> option datetime)
  (k0 : nat) (records : list json) : nat :=
  match records with
  | [] => k0
  | user_data :: rest =>
      clock_reads_after fromisoformat
        (if reads_clock fromisoformat user_data then S k0 else k0) rest
  end.

(** What the normalizer makes of [records], taken in order from the
    [k0]-th reading of the clock: each record is scored at the reading that
    is next when its turn comes. *)
Fixpoint normalized (fromisoformat : string -> option datetime)
  (repr : json -> string) (clock : nat -> datetime) (k0 : nat)
  (records : list json) : list (result IGAUser) :=
  match records with
  | [] => []
  | user_data :: rest =>
      parse_body fromisoformat repr (clock k0) user_data
      :: normalized fromisoformat repr clock
           (if reads_clock fromisoformat user_data then S k0 else k0) rest
  end.

Definition accepted (l : list (result IGAUser)) : list IGAUser :=
  flat_map (fun x => match x with Ok u => [u] | Raise _ => [] end) l.

Definition rejected (l : list (result IGAUser)) : list exn :=
  flat_map (fun x => match x with Ok _ => [] | Raise e => [e] end) l.

(** A method keeps an observation [f] of the retriever when no run of it
    changes [f], whether it returns or raises. *)
Definition keeps {A X : Type} (f : retriever -> X) (m : M A) : Prop :=
  forall r, f (snd (m r)) = f r.

Definition started (r : retriever) : option datetime :=
  start_time (sync_stats r).

(** The lines of the run summary that come before the average is
    computed, newest first, as [_log_sync_summary] writes them. *)
Definition summary_counts (stats : SyncStats) (duration : Z)
  : list log_record :=
  [Info_duration duration;
   Info_errors (errors stats);
   Info_rate_limited (rate_limited stats);
   Info_api_calls (api_calls stats);
   Info_suspended_users (suspended_users stats);
   Info_active_users (active_users stats);
   Info_total_users (total_users stats);
   Info_rule; Info_sync_complete; Info_rule].

(** The two lines after it. *)
Definition summary_average (stats : SyncStats) (duration : Z)
  : list log_record :=
  [Info_rule; Info_average (total_users stats) duration].

(** A page is a decoded response body.  It is readable when the loop can
    take it apart and iterate over its records; it has records, and a
    cursor, when what the loop extracts is truthy; the loop goes on after
    it when it has both. *)
Definition readable (page : json) : bool :=
  match extract_page page with
  | Ok (users_data, _) =>
      match iter users_data with Ok _ => true | Raise _ => false end
  | Raise _ => false
  end.

Definition has_records (page : json) : bool :=
  match extract_page page with
  | Ok (users_data, _) => truthy users_data
  | Raise _ => false
  end.

Definition has_cursor (page : json) : bool :=
  match extract_page page with
  | Ok (_, next_cursor) => truthy next_cursor
  | Raise _ => false
  end.

Definition goes_on (page : json) : bool :=
  andb (has_cursor page) (has_records page).

(** The records the loop iterates over on a page. *)
Definition page_records (page : json) : list json :=
  match extract_page page with
  | Ok (users_data, _) =>
      match iter users_data with Ok records => records | Raise _ => [] end
  | Raise _ => []
  end.

Definition ok_response (page : json) : response :=
  {| status_code := 200; retry_after_header := Absent; json_body := Ok page |}.

(** The server answers the requests from number [first] on with [pages],
    one page per request, whatever cursor the request carries. *)
Definition serves (server : nat -> option json -> get_outcome) (first : nat)
  (pages : list json) : Prop :=
  forall i page cursor,
    nth_error pages i = Some page ->
    server (first + i)%nat cursor = GetReturns (ok_response page).

(** A group name that matches the keyword set of the query helper. *)
Definition is_admin_name (g : json) : bool :=
  match g with
  | JStr s =>
      existsb (fun keyword => contains keyword (lower s)) query_admin_keywords
  | _ => false
  end.

Definition is_privileged (u : IGAUser) : bool :=
  existsb is_admin_name (groups u).

(** *** Concrete inputs *)

Definition user_with_groups (name : string) (gs : list string) : IGAUser :=
  {| id := JStr name; email := JStr (name ++ "@x.com")%string;
     username := JStr name; first_name := JStr name; last_name := JStr "";
     display_name := JStr name; status := value ACTIVE;
     department := JStr ""; job_title := JStr ""; manager_id := JNull;
     manager_email := JNull; phone_number := JStr "";
     employee_id := JStr ""; created_date := JNull; last_login := JNull;
     last_updated := JNull; groups := map JStr gs; attributes := JDict [];
     risk_score := 25 |}.

Definition root_user : IGAUser :=
  user_with_groups "ann" ["Domain-Admins"; "root-ops"; "sudoers"].

Definition plain_user : IGAUser := user_with_groups "bob" ["staff"].

Definition two_users : retriever :=
  with_users (fun _ => [root_user; plain_user]) initial_retriever.

(** A record whose groups are a dict with a name, a string and a number. *)
Definition mixed_groups_fields : list (string * json) :=
  [("id", JStr "2"); ("email", JStr "c@x.com");
   ("activated", JBool true);
   ("groups", JList [JDict [("name", JStr "Org-Admins")]; JStr "staff";
                     JInt 7])].

Definition mixed_groups : json := JDict mixed_groups_fields.

Definition mixed_groups_user : IGAUser :=
  Eval vm_compute in
    match parse_body Sample.fromisoformat Sample.repr scenario_B_now
            mixed_groups with
    | Ok u => u
    | Raise _ => user_with_groups "" []
    end.

Definition scenario_B_user : IGAUser :=
  Eval vm_compute in
    match parse_body Sample.fromisoformat Sample.repr scenario_B_now
            scenario_B with
    | Ok u => u
    | Raise _ => user_with_groups "" []
    end.

(** A clock that gains one second per reading, from 2024-04-10. *)
Definition ticking_clock (k : nat) : datetime :=
  {| naive := naive scenario_B_now + Z.of_nat k * 1000000; tzinfo := None |}.

(** Servers: one that answers 429 forever, one that times out forever, one
    that hands out a fixed list of pages and then refuses connections. *)
Definition always_rate_limited : nat -> option json -> get_outcome :=
  fun _ _ => too_many_requests 1.

Definition always_timeout : nat -> option json -> get_outcome :=
  fun _ _ => GetRaises ConnectTimeout.

Definition serve_pages (pages : list json) : nat -> option json -> get_outcome :=
  fun k _ =>
    match nth_error pages k with
    | Some page => GetReturns (ok_response page)
    | None => GetRaises ConnectionError
    end.

(** A first page with one record and a cursor, and a last page with a
    cursor and no records. *)
Definition first_page : json :=
  JDict [("results", JList [scenario_B]); ("next_cursor", JStr "c1")].

Definition empty_last_page : json :=
  JDict [("results", JList []); ("next_cursor", JStr "c2")].

(** A last page with a good record, a record that is no dict, and a record
    whose group has no name. *)
Definition page_with_bad_records : json :=
  JDict [("results",
          JList [scenario_B; JStr "oops";
                 JDict [("id", JStr "3"); ("groups", JList [JDict []])];
                 mixed_groups]);
         ("next_cursor", JNull)].

Definition timed_out_run : option (result (list IGAUser) * retriever) :=
  Eval vm_compute in
    retrieve_all_users default_config Sample.fromisoformat Sample.repr
      always_timeout ticking_clock 1 initial_retriever.

Definition timed_out_result : result (list IGAUser) :=
  match timed_out_run with
  | Some (res, _) => res
  | None => Ok []
  end.

Definition timed_out_retriever : retriever :=
  match timed_out_run with
  | Some (_, r) => r
  | None => initial_retriever
  end.

(** ** The rest of the program *)

(** *** [get_inactive_users] *)

(** The range of [datetime]: 0001-01-01 00:00:00 to 9999-12-31
    23:59:59.999999 on the naive time line, and the largest number of days
    a [timedelta] holds. *)
Definition datetime_min : Z := -719162 * microseconds_per_day.
Definition datetime_max : Z := 2932897 * microseconds_per_day - 1.
Definition timedelta_max_days : Z := 999999999.

(** [timedelta(days=days)] in microseconds; [None] is its
    [OverflowError]. *)
Definition timedelta_days (days : Z) : option Z :=
  if Z.abs days <=? timedelta_max_days
  then Some (days * microseconds_per_day) else None.

(** [dt - delta]; [None] is the [OverflowError] of a date out of range. *)
Definition datetime_sub (dt : datetime) (delta : Z) : option datetime :=
  let n := naive dt - delta in
  if andb (datetime_min <=? n) (n <=? datetime_max)
  then Some {| naive := n; tzinfo := tzinfo dt |} else None.

(** The body of the loop of [get_inactive_users] for one user: whether the
    user is appended. *)
Definition is_inactive (fromisoformat : string -> option datetime)
  (cutoff_date : datetime) (user : IGAUser) : bool :=
  if negb (truthy (last_login user)) then true
  else
    match last_login user with
    | JStr s =>
        match fromisoformat (replace_char "Z" "+00:00" s) with
        | Some login_date =>
            naive (replace_tzinfo_None login_date) <? naive cutoff_date
        | None => true                       (* ValueError *)
        end
    | _ => true                              (* AttributeError *)
    end.

Fixpoint inactive_loop (fromisoformat : string -> option datetime)
  (cutoff_date : datetime) (us inactive_users : list IGAUser)
  : list IGAUser :=
  match us with
  | [] => inactive_users
  | user :: rest =>
      inactive_loop fromisoformat cutoff_date rest
        (if is_inactive fromisoformat cutoff_date user
         then (inactive_users ++ [user])%list else inactive_users)
  end.

(** [get_inactive_users(days)], called when [datetime.now()] is [now];
    [None] is an [OverflowError] from computing the cutoff. *)
Definition get_inactive_users (fromisoformat : string -> option datetime)
  (now : datetime) (days : Z) (r : retriever) : option (list IGAUser) :=
  match timedelta_days days with
  | None => None
  | Some delta =>
      match datetime_sub now delta with
      | None => None
      | Some cutoff_date =>
          Some (inactive_loop fromisoformat cutoff_date (users r) [])
      end
  end.

(** *** The request URL of [_make_request] *)

(** [s.lstrip(c)] and [s.rstrip(c)] for a one-character [c] *)
Fixpoint lstrip_char (c : ascii) (s : string) : string :=
  match s with
  | EmptyString => EmptyString
  | String a s' => if Ascii.eqb a c then lstrip_char c s' else s
  end.

Fixpoint rstrip_char (c : ascii) (s : string) : string :=
  match s with
  | EmptyString => EmptyString
  | String a s' =>
      match rstrip_char c s' with
      | EmptyString =>
          if Ascii.eqb a c then EmptyString else String a EmptyString
      | r => String a r
      end
  end.

Definition request_url (config : IGAConfig) (endpoint : string) : string :=
  (rstrip_char "/" (BASE_URL config) ++ "/" ++ lstrip_char "/" endpoint)%string.

(** *** [IGAConfig.__init__] *)

(** The environment is a partial map; [int] and [float] of a string are
    the library's ([None] is their [ValueError]). *)
Definition getenv (environ : string -> option string) (key default : string)
  : string :=
  match environ key with
  | Some v => v
  | None => default
  end.

Definition of_option {A : Type} (e : exn) (o : option A) : result A :=
  match o with
  | Some a => Ok a
  | None => Raise e
  end.

Definition IGAConfig_init (int_ : string -> option Z)
  (float_ : string -> option Q) (environ : string -> option string)
  : result IGAConfig :=
  let base_url :=
    getenv environ "IGA_API_URL" "https://console.jumpcloud.com/api" in
  let api_key := getenv environ "IGA_API_KEY" "" in
  let org_id := getenv environ "IGA_ORG_ID" "" in
  try! timeout := of_option ValueError (int_ (getenv environ "IGA_TIMEOUT" "30")) in
  try! max_retries :=
    of_option ValueError (int_ (getenv environ "IGA_MAX_RETRIES" "3")) in
  try! retry_delay :=
    of_option ValueError (int_ (getenv environ "IGA_RETRY_DELAY" "2")) in
  try! page_size :=
    of_option ValueError (int_ (getenv environ "IGA_PAGE_SIZE" "100")) in
  try! rate_limit_delay :=
    of_option ValueError
      (float_ (getenv environ "IGA_RATE_LIMIT_DELAY" "0.5")) in
  if (api_key =? "")%string then Raise ValueError
  else if (base_url =? "")%string then Raise ValueError
  else Ok {| BASE_URL := base_url; API_KEY := api_key; ORG_ID := org_id;
             TIMEOUT := timeout; MAX_RETRIES := max_retries;
             RETRY_DELAY := retry_delay; PAGE_SIZE := page_size;
             RATE_LIMIT_DELAY := rate_limit_delay |}.

(** *** The risk distribution of [example_security_analysis] *)

(** The three list comprehensions of the security report:
    [(high_risk, medium_risk, low_risk)]. *)
Definition risk_distribution (us : list IGAUser) : Z * Z * Z :=
  (Z.of_nat (List.length (filter (fun u => risk_score u >=? 70) us)),
   Z.of_nat (List.length
               (filter (fun u => andb (40 <=? risk_score u)
                                      (risk_score u <? 70)) us)),
   Z.of_nat (List.length (filter (fun u => risk_score u <? 40) us))).

(** *** More vocabulary *)

(** A group name that matches the keyword list of the scorer. *)
Definition is_risk_admin_name (g : json) : bool :=
  match g with
  | JStr s =>
      existsb (fun keyword => contains keyword (lower s)) risk_admin_keywords
  | _ => false
  end.

(** An entity the normalizer can return. *)
Definition normalizer_output (fromisoformat : string -> option datetime)
  (repr : json -> string) (u : IGAUser) : Prop :=
  exists now user_data, parse_body fromisoformat repr now user_data = Ok u.

(** A method steps along a relation [R] on retrievers when every run of it,
    returning or raising, leaves a retriever related to the one it
    started from. *)
Definition steps {A : Type} (R : retriever -> retriever -> Prop) (m : M A)
  : Prop :=
  forall r, R r (snd (m r)).

(** The accumulated users only grow, and only by users that satisfy [P]. *)
Definition grows (P : IGAUser -> Prop) (r r' : retriever) : Prop :=
  exists new, users r' = (users r ++ new)%list /\ Forall P new.

Definition has_status (st : string) (u : IGAUser) : bool :=
  (status u =? st)%string.

(** The counters of active and suspended users, less what the accumulated
    list accounts for. *)
Definition tally (r : retriever) : Z * Z :=
  (active_users (sync_stats r)
   - Z.of_nat (List.length (filter (has_status (value ACTIVE)) (users r))),
   suspended_users (sync_stats r)
   - Z.of_nat (List.length
                 (filter (fun u => orb (has_status (value SUSPENDED) u)
                                       (has_status (value DEPROVISIONED) u))
                         (users r)))).

(** Requests sent, API calls counted, errors counted. *)
Definition accounts (r : retriever) : nat * Z * Z :=
  (requests_sent r, api_calls (sync_stats r), errors (sync_stats r)).

(** API calls counted, less requests sent. *)
Definition uncounted_calls (r : retriever) : Z :=
  api_calls (sync_stats r) - Z.of_nat (requests_sent r).

Definition same_tally (r r' : retriever) : Prop := tally r' = tally r.

Definition same_uncounted (r r' : retriever) : Prop :=
  uncounted_calls r' = uncounted_calls r.

(** A byte that the encoding of no white-space character contains: any
    ASCII letter, digit or punctuation mark, and the bytes of most other
    characters.  A text with such a byte is not all white space. *)
Definition is_visible (c : ascii) : bool :=
  negb (existsb (fun p => existsb (Ascii.eqb c) (list_ascii_of_string p))
          white_space).

Definition has_visible (s : string) : bool :=
  existsb is_visible (list_ascii_of_string s).

(** A raw record whose first name is a no-break space and whose last name
    is in CJK characters between ideographic spaces. *)
Definition spaced_names : json :=
  JDict [("id", JStr "4");
         ("firstname", JStr (utf8 [194; 160]%nat));
         ("lastname",
          JStr (utf8 [227; 128; 128; 230; 157; 142; 227; 128; 128]%nat));
         ("activated", JBool true)].

Definition spaced_names_user : IGAUser :=
  Eval vm_compute in
    match parse_body Sample.fromisoformat Sample.repr scenario_B_now
            spaced_names with
    | Ok u => u
    | Raise _ => user_with_groups "" []
    end.

(** A response with an HTTP error status other than 429. *)
Definition is_http_error (resp : response) : bool :=
  andb (negb (status_code resp =? 429))
       (andb (400 <=? status_code resp) (status_code resp <? 600)).

Definition server_error : get_outcome :=
  GetReturns {| status_code := 503; retry_after_header := Absent;
                json_body := Raise RequestException |}.

Definition retry_after_date : get_outcome :=
  GetReturns {| status_code := 429; retry_after_header := NotAnInt;
                json_body := Raise ValueError |}.

(** *** More concrete inputs *)

(** A deprovisioned account, last seen on 2024-01-01, in one admin-like
    group. *)
Definition risky_record : json :=
  JDict [("id", JStr "9"); ("email", JStr "z@x.com");
         ("status", JStr "deprovisioned");
         ("lastLogin", JStr "2024-01-01T00:00:00Z");
         ("groups", JList [JStr "Org-Admins"])].

Definition risky_user : IGAUser :=
  Eval vm_compute in
    match parse_body Sample.fromisoformat Sample.repr scenario_B_now
            risky_record with
    | Ok u => u
    | Raise _ => user_with_groups "" []
    end.

Definition seen_and_unseen : retriever :=
  with_users (fun _ => [scenario_B_user; plain_user]) initial_retriever.

(** [int] and [float] for plain decimal numerals and for the default
    ["0.5"]. *)
Definition sample_int (s : string) : option Z :=
  match Sample.digits (String.length s) 0 s with
  | Some (z, EmptyString) =>
      match s with EmptyString => None | _ => Some z end
  | _ => None
  end.

Definition sample_float (s : string) : option Q :=
  if (s =? "0.5")%string then Some (1 # 2)
  else option_map inject_Z (sample_int s).

Definition key_only_environ (key : string) : option string :=
  if (key =? "IGA_API_KEY")%string then Some "secret" else None.

Definition no_environ (key : string) : option string := None.

Definition key_only_config : IGAConfig :=
  Eval vm_compute in
    match IGAConfig_init sample_int sample_float key_only_environ with
    | Ok c => c
    | Raise _ => default_config
    end.

Definition slash_config : IGAConfig :=
  {| BASE_URL := "https://console.jumpcloud.com/api/";
     API_KEY := "key"; ORG_ID := "";
     TIMEOUT := 30; MAX_RETRIES := 3; RETRY_DELAY := 2; PAGE_SIZE := 100;
     RATE_LIMIT_DELAY := 1 # 2 |}.

Definition no_retry_config : IGAConfig :=
  {| BASE_URL := "https://console.jumpcloud.com/api";
     API_KEY := "key"; ORG_ID := "";
     TIMEOUT := 30; MAX_RETRIES := 0; RETRY_DELAY := 2; PAGE_SIZE := 100;
     RATE_LIMIT_DELAY := 1 # 2 |}.

(** Servers that give one bad answer and then the page. *)
Definition rate_limited_once (page : json) : nat -> option json -> get_outcome :=
  fun k _ =>
    match k with
    | O => too_many_requests 5
    | _ => GetReturns (ok_response page)
    end.

Definition failing_once (page : json) : nat -> option json -> get_outcome :=
  fun k _ =>
    match k with
    | O => server_error
    | _ => GetReturns (ok_response page)
    end.

Definition always_retry_after_date : nat -> option json -> get_outcome :=
  fun _ _ => retry_after_date.

(** A run that is given no attempt and whose clock does not move between
    its two readings. *)
Definition stalled_run : option (result (list IGAUser) * retriever) :=
  Eval vm_compute in
    retrieve_all_users no_retry_config Sample.fromisoformat Sample.repr
      always_timeout (clock_at scenario_B_now) 1 initial_retriever.

Definition stalled_retriever : retriever :=
  match stalled_run with
  | Some (_, r) => r
  | None => initial_retriever
  end.

Definition bad_page_run : option (result (list IGAUser) * retriever) :=
  Eval vm_compute in
    retrieve_all_users default_config Sample.fromisoformat Sample.repr
      (serve_pages [page_with_bad_records]) ticking_clock 1 initial_retriever.

Definition bad_page_result : result (list IGAUser) :=
  match bad_page_run with
  | Some (res, _) => res
  | None => Ok []
  end.

Definition bad_page_retriever : retriever :=
  match bad_page_run with
  | Some (_, r) => r
  | None => initial_retriever
  end.

(** ** The normalizer and the scorer *)

Section NormalizerFacts.

Variable fromisoformat : string -> option datetime.
Variable repr : json -> string.

Lemma rbind_Ok {A B : Type} (x : result A) (k : A -> result B) (b : B) :
  rbind x k = Ok b -> exists a, x = Ok a /\ k a = Ok b.
Proof.
  destruct x as [a|e]; simpl; intros H; [eauto | discriminate].
Qed.

Lemma any_keyword_in_Ok (keywords : list string) (g : json) (b : bool) :
  keywords <> [] -> any_keyword_in keywords g = Ok b -> is_str g = true.
Proof.
  intros Hk H. destruct keywords as [|k ks]; [congruence|].
  destruct g; simpl in H; try discriminate. reflexivity.
Qed.

Lemma admin_groups_Ok (keywords : list string) (gs admin : list json) :
  keywords <> [] -> admin_groups keywords gs = Ok admin ->
  Forall (fun g => is_str g = true) gs.
Proof.
  intros Hk. revert admin.
  induction gs as [|g gs IH]; intros admin H; [constructor|].
  simpl in H.
  apply rbind_Ok in H as (hit & Hhit & H).
  apply rbind_Ok in H as (tail & Htail & _).
  constructor; [eapply any_keyword_in_Ok; eauto | eauto].
Qed.

Lemma admin_groups_of_strings (keywords : list string) (gs : list json) :
  Forall (fun g => is_str g = true) gs ->
  exists admin, admin_groups keywords gs = Ok admin.
Proof.
  induction 1 as [|g gs Hg _ (tail & IH)]; simpl; [eauto|].
  destruct g; try discriminate.
  destruct keywords as [|k ks]; simpl; rewrite IH; simpl; eauto.
Qed.

Lemma risk_keywords_nonempty : risk_admin_keywords <> [].
Proof. discriminate. Qed.

(** The scorer returns exactly when every group is a string. *)
Lemma _calculate_risk_score_Ok now user_data st ll gs z :
  _calculate_risk_score fromisoformat now user_data st ll gs = Ok z ->
  Forall (fun g => is_str g = true) gs.
Proof.
  unfold _calculate_risk_score. intros H.
  apply rbind_Ok in H as (admin & Hadmin & _).
  eapply admin_groups_Ok; [apply risk_keywords_nonempty | eassumption].
Qed.

Lemma _calculate_risk_score_of_strings now user_data st ll gs :
  Forall (fun g => is_str g = true) gs ->
  exists z, _calculate_risk_score fromisoformat now user_data st ll gs = Ok z.
Proof.
  intros H. unfold _calculate_risk_score.
  destruct (admin_groups_of_strings risk_admin_keywords gs H) as (a & ->).
  simpl. eauto.
Qed.

Lemma _calculate_risk_score_range now user_data st ll gs z :
  _calculate_risk_score fromisoformat now user_data st ll gs = Ok z ->
  0 <= z <= 100.
Proof.
  unfold _calculate_risk_score. intros H.
  apply rbind_Ok in H as (admin & _ & H).
  injection H as <-.
  pose proof (Nat2Z.is_nonneg (List.length admin)) as Hlen.
  cbv zeta.
  destruct (truthy ll); [destruct ll|];
    repeat match goal with
           | |- context [match fromisoformat ?x with _ => _ end] =>
               destruct (fromisoformat x)
           | |- context [if ?c then _ else _] => destruct c
           end; lia.
Qed.

(** [_calculate_risk_score] does not read the raw record it is handed. *)
Lemma _calculate_risk_score_ignores_user_data now ud1 ud2 st ll gs :
  _calculate_risk_score fromisoformat now ud1 st ll gs
  = _calculate_risk_score fromisoformat now ud2 st ll gs.
Proof. reflexivity. Qed.

Lemma __post_init___keeps (u : IGAUser) :
  status (__post_init__ repr u) = status u
  /\ last_login (__post_init__ repr u) = last_login u
  /\ groups (__post_init__ repr u) = groups u
  /\ risk_score (__post_init__ repr u) = risk_score u
  /\ attributes (__post_init__ repr u) = attributes u.
Proof.
  unfold __post_init__. destruct (negb (truthy (display_name u))); simpl; auto.
Qed.

Lemma __post_init___set_risk_score (z : Z) (u : IGAUser) :
  __post_init__ repr (set_risk_score z u)
  = set_risk_score z (__post_init__ repr u).
Proof.
  unfold __post_init__, set_risk_score; simpl.
  destruct (negb (truthy (display_name u))); reflexivity.
Qed.

(** How the entity depends on the raw dict: the three scorer inputs are
    the resolved fields, and the score is the scorer's answer on them. *)
Lemma parse_body_Ok now user_data u :
  parse_body fromisoformat repr now user_data = Ok u ->
  exists d,
    user_data = JDict d
    /\ status u = raw_status repr d
    /\ last_login u = raw_last_login d
    /\ groups u = raw_groups repr d
    /\ attributes u = user_data
    /\ _calculate_risk_score fromisoformat now user_data
         (raw_status repr d) (raw_last_login d) (raw_groups repr d)
       = Ok (risk_score u).
Proof.
  destruct user_data as [| | | | |l|d]; try discriminate.
  unfold parse_body. cbv zeta. intros H. exists d. split; [reflexivity|].
  apply rbind_Ok in H as (z & Hz & H).
  injection H as <-.
  match goal with
  | |- context [__post_init__ repr ?r] =>
      destruct (__post_init___keeps r) as (Hs & Hl & Hg & Hr & Ha)
  end.
  rewrite Hs, Hl, Hg, Hr, Ha. cbn [status last_login groups risk_score attributes].
  repeat split; try reflexivity. exact Hz.
Qed.

End NormalizerFacts.

Section NormalizerClaims.

Variable fromisoformat : string -> option datetime.
Variable repr : json -> string.
Variable clock : nat -> datetime.

(** [_parse_user_data] returns what its body returns, at the clock reading
    of the moment; a failure adds one log record and is raised again. *)
Lemma _parse_user_data_unfold (user_data : json) (r : retriever) :
  _parse_user_data fromisoformat repr clock user_data r
  = match parse_body fromisoformat repr (clock (clock_reads r)) user_data with
    | Ok u => (Ok u, read_clock_for fromisoformat user_data r)
    | Raise e =>
        (Raise e,
         with_log (cons (Error_parse_failed e))
           (read_clock_for fromisoformat user_data r))
    end.
Proof.
  unfold _parse_user_data, bind, catch, lift. cbv zeta.
  destruct (parse_body fromisoformat repr (clock (clock_reads r)) user_data);
    reflexivity.
Qed.

Lemma _parse_user_data_Ok (user_data : json) (r r' : retriever) (u : IGAUser) :
  _parse_user_data fromisoformat repr clock user_data r = (Ok u, r') ->
  parse_body fromisoformat repr (clock (clock_reads r)) user_data = Ok u.
Proof.
  rewrite _parse_user_data_unfold.
  destruct (parse_body fromisoformat repr (clock (clock_reads r)) user_data);
    intros H; inversion H; reflexivity.
Qed.



(** The normalizer returns an entity exactly for a dict whose group names
    all come out as strings. *)
Lemma parse_body_of_strings now (d : list (string * json)) :
  Forall (fun g => is_str g = true) (raw_groups repr d) ->
  exists u, parse_body fromisoformat repr now (JDict d) = Ok u.
Proof.
  intros H. unfold parse_body. cbv zeta.
  destruct (_calculate_risk_score_of_strings fromisoformat now (JDict d)
              (raw_status repr d) (raw_last_login d) _ H) as (z & Hz).
  unfold raw_status, raw_last_login, raw_groups in Hz. cbv zeta in Hz.
  rewrite Hz. simpl. eauto.
Qed.

(** C3. Whatever raw record the normalizer is given -- any status, a last
    login that is absent, unparseable or any date, any number of
    admin-like groups -- the entity it returns has a risk score between 0
    and 100. *)
Theorem risk_score_in_range (user_data : json) (r r' : retriever) (u : IGAUser) :
  _parse_user_data fromisoformat repr clock user_data r = (Ok u, r') ->
  0 <= risk_score u <= 100.
Proof.
  intros H. apply _parse_user_data_Ok in H.
  apply parse_body_Ok in H as (d & _ & _ & _ & _ & _ & Hscore).
  eapply _calculate_risk_score_range; eassumption.
Qed.

(** C9. When the raw [groups] is a list, the groups of the entity are its
    elements mapped one by one -- a dict gives its [name] entry, anything
    else its [str] -- and every one of them is a string. *)
Theorem groups_are_strings (d : list (string * json)) (l : list json)
  (r r' : retriever) (u : IGAUser) :
  lookup "groups" d = Some (JList l) ->
  _parse_user_data fromisoformat repr clock (JDict d) r = (Ok u, r') ->
  Forall2 (fun g name =>
             match g with
             | JDict gd => lookup "name" gd = Some name
             | _ => name = JStr (str repr g)
             end) l (groups u)
  /\ Forall (fun name => exists s, name = JStr s) (groups u).
Proof.
  intros Hl H. apply _parse_user_data_Ok in H.
  apply parse_body_Ok in H as (d' & Hd & _ & _ & Hg & _ & Hscore).
  injection Hd as <-.
  apply _calculate_risk_score_Ok in Hscore.
  rewrite Hg. unfold raw_groups in *. rewrite Hl in *.
  clear Hl Hg. split.
  - induction l as [|g l IH]; simpl; [constructor|].
    inversion Hscore as [|? ? Hname Hrest]; subst.
    constructor; [|exact (IH Hrest)].
    destruct g; try reflexivity.
    simpl in Hname |- *. unfold get in *.
    destruct (lookup "name" d0); [reflexivity | discriminate].
  - rewrite Forall_forall in *. intros name Hin.
    specialize (Hscore name Hin). destruct name; try discriminate. eauto.
Qed.

(** The amended C7. At one reading of the clock the entity is a function of
    the raw record; its score is the scorer's answer on the entity's own
    status, last login and groups and on that reading, whatever raw record
    the scorer is handed; and a run at another reading returns the same
    entity up to the score. *)
Theorem normalization_up_to_clock (user_data : json) (r1 r1' : retriever)
  (u1 : IGAUser) :
  _parse_user_data fromisoformat repr clock user_data r1 = (Ok u1, r1') ->
  (forall any_record,
     _calculate_risk_score fromisoformat (clock (clock_reads r1)) any_record
       (status u1) (last_login u1) (groups u1) = Ok (risk_score u1))
  /\ (forall r2, clock (clock_reads r2) = clock (clock_reads r1) ->
        fst (_parse_user_data fromisoformat repr clock user_data r2) = Ok u1)
  /\ (forall r2, exists z,
        fst (_parse_user_data fromisoformat repr clock user_data r2)
        = Ok (set_risk_score z u1)).
Proof.
  intros H. apply _parse_user_data_Ok in H. split; [|split].
  - intros any_record.
    apply parse_body_Ok in H as (d & _ & -> & -> & -> & _ & Hscore).
    exact Hscore.
  - intros r2 Hclock. rewrite _parse_user_data_unfold, Hclock, H. reflexivity.
  - intros r2. rewrite _parse_user_data_unfold.
    pose proof H as H'.
    apply parse_body_Ok in H' as (d & -> & _ & _ & Hg & _ & Hscore).
    apply _calculate_risk_score_Ok in Hscore.
    destruct (_calculate_risk_score_of_strings fromisoformat
                (clock (clock_reads r2)) (JDict d)
                (raw_status repr d) (raw_last_login d) _ Hscore) as (z & Hz).
    exists z. revert H. unfold parse_body. cbv zeta.
    unfold raw_status, raw_last_login, raw_groups in Hz. cbv zeta in Hz.
    rewrite Hz.
    destruct (_calculate_risk_score fromisoformat (clock (clock_reads r1)))
      as [z1|e]; simpl; [|discriminate].
    intros H; injection H as <-.
    rewrite <- __post_init___set_risk_score. reflexivity.
Qed.

End NormalizerClaims.

(** ** The transport client *)

Section TransportFacts.

Variable config : IGAConfig.
Variable server : nat -> option json -> get_outcome.

Lemma Qle_bool_inject_Z (z : Z) : Qle_bool 0 (inject_Z z) = (0 <=? z).
Proof. unfold Qle_bool, inject_Z. simpl. rewrite Z.mul_1_r. reflexivity. Qed.

Lemma sleep_inject_Z (z : Z) (r : retriever) :
  0 <= z ->
  sleep (inject_Z z) r = (Ok tt, with_slept (cons (inject_Z z)) r).
Proof.
  intros Hz. unfold sleep. rewrite Qle_bool_inject_Z.
  destruct (Z.leb_spec 0 z); [reflexivity | lia].
Qed.

(** One turn of the attempt loop that meets a transport failure before the
    last attempt: logged, slept on, and the loop goes on. *)
Lemma turn_failure_retry (cursor : option json) (attempt : Z) (r : retriever) :
  is_transport_failure (server (requests_sent r) cursor) = true ->
  (attempt =? MAX_RETRIES config - 1) = false ->
  0 <= RETRY_DELAY config * (attempt + 1) ->
  exists r',
    catch (attempt_body config server cursor)
          (attempt_handlers config attempt) r = (Ok None, r')
    /\ requests_sent r' = S (requests_sent r)
    /\ api_calls (sync_stats r') = api_calls (sync_stats r) + 1
    /\ errors (sync_stats r') = errors (sync_stats r)
    /\ rate_limited (sync_stats r') = rate_limited (sync_stats r).
Proof.
  intros Hf Hlast Hdelay.
  unfold catch, attempt_body, bind, update_stats, modify, session_get. simpl.
  destruct (server (requests_sent r) cursor) as [e|resp]; [|discriminate].
  simpl in Hf. unfold attempt_handlers.
  destruct (is_Timeout e).
  - unfold bind, logger, modify. rewrite Hlast.
    rewrite sleep_inject_Z by assumption. simpl.
    eexists; split; [reflexivity|]. simpl. auto.
  - rewrite Hf. unfold bind, logger, modify. rewrite Hlast.
    rewrite sleep_inject_Z by assumption. simpl.
    eexists; split; [reflexivity|]. simpl. auto.
Qed.

(** The same on the last attempt: counted as one error and raised. *)
Lemma turn_failure_last (cursor : option json) (attempt : Z) (r : retriever)
  (e : exn) :
  server (requests_sent r) cursor = GetRaises e ->
  is_RequestException e = true ->
  (attempt =? MAX_RETRIES config - 1) = true ->
  exists r',
    catch (attempt_body config server cursor)
          (attempt_handlers config attempt) r = (Raise e, r')
    /\ requests_sent r' = S (requests_sent r)
    /\ api_calls (sync_stats r') = api_calls (sync_stats r) + 1
    /\ errors (sync_stats r') = errors (sync_stats r) + 1
    /\ rate_limited (sync_stats r') = rate_limited (sync_stats r).
Proof.
  intros Hs Hf Hlast.
  unfold catch, attempt_body, bind, update_stats, modify, session_get. simpl.
  rewrite Hs. unfold attempt_handlers.
  destruct (is_Timeout e).
  - unfold bind, logger, modify, update_stats, modify, raise. rewrite Hlast.
    simpl. eexists; split; [reflexivity|]. simpl. auto.
  - rewrite Hf. unfold bind, logger, modify, update_stats, modify, raise.
    rewrite Hlast. simpl. eexists; split; [reflexivity|]. simpl. auto.
Qed.

(** One turn that meets a 429: counted as rate limited, slept on, and the
    loop goes on to its next attempt. *)
Lemma turn_rate_limited (cursor : option json) (attempt : Z) (r : retriever) :
  is_rate_limit config (server (requests_sent r) cursor) = true ->
  exists r',
    catch (attempt_body config server cursor)
          (attempt_handlers config attempt) r = (Ok None, r')
    /\ requests_sent r' = S (requests_sent r)
    /\ api_calls (sync_stats r') = api_calls (sync_stats r) + 1
    /\ errors (sync_stats r') = errors (sync_stats r)
    /\ rate_limited (sync_stats r') = rate_limited (sync_stats r) + 1
    /\ slept r'
       = pause_of config (server (requests_sent r) cursor) :: slept r.
Proof.
  intros H.
  unfold catch, attempt_body, bind, update_stats, modify, session_get. simpl.
  destruct (server (requests_sent r) cursor) as [e|resp]; [discriminate|].
  simpl in H. apply andb_prop in H as (H429 & Hs). rewrite H429.
  unfold pause_of, retry_after_seconds in *.
  destruct (retry_after_header resp) as [| |n]; try discriminate;
    apply Z.leb_le in Hs;
    unfold ret, logger, modify; simpl;
    rewrite sleep_inject_Z by assumption; simpl;
    (eexists; split; [reflexivity|]); simpl; auto 6.
Qed.

Lemma rate_limit_pauses_shift (cursor : option json) (first k : nat) :
  rate_limit_pauses config server cursor first (S k)
  = (rate_limit_pauses config server cursor (S first) k
     ++ [pause_of config (server first cursor)])%list.
Proof.
  induction k as [|k IH].
  - simpl. rewrite Nat.add_0_r. reflexivity.
  - change (rate_limit_pauses config server cursor first (S (S k)))
      with (pause_of config (server (first + S k)%nat cursor)
            :: rate_limit_pauses config server cursor first (S k)).
    rewrite IH. cbn [rate_limit_pauses app].
    replace (first + S k)%nat with (S first + k)%nat by lia. reflexivity.
Qed.

(** A run of failures that reaches the last attempt: the request raises the
    last exception, with one error counted and one API call per attempt. *)
Lemma attempts_all_fail (cursor : option json) (n : nat) :
  forall (attempt : Z) (r : retriever),
    MAX_RETRIES config = attempt + Z.of_nat (S n) ->
    0 <= attempt ->
    0 <= RETRY_DELAY config ->
    (forall i, (i < S n)%nat ->
       is_transport_failure (server (requests_sent r + i) cursor) = true) ->
    exists e r',
      attempts config server cursor (S n) attempt r = (Raise e, r')
      /\ server (requests_sent r + n) cursor = GetRaises e
      /\ api_calls (sync_stats r') = api_calls (sync_stats r) + Z.of_nat (S n)
      /\ errors (sync_stats r') = errors (sync_stats r) + 1
      /\ rate_limited (sync_stats r') = rate_limited (sync_stats r).
Proof.
  induction n as [|n IH]; intros attempt r Hmax Hatt Hdelay Hfail.
  - pose proof (Hfail 0%nat ltac:(lia)) as H0.
    rewrite Nat.add_0_r in *.
    destruct (server (requests_sent r) cursor) as [e|resp] eqn:Hs;
      [|discriminate].
    destruct (turn_failure_last cursor attempt r e Hs H0)
      as (r' & Hturn & _ & Hapi & Herr & Hrl).
    { apply Z.eqb_eq. lia. }
    exists e, r'. unfold attempts, bind. rewrite Hturn.
    repeat split; auto.
  - pose proof (Hfail 0%nat ltac:(lia)) as H0.
    rewrite Nat.add_0_r in H0.
    destruct (turn_failure_retry cursor attempt r H0)
      as (r1 & Hturn & Hsent & Hapi & Herr & Hrl).
    { apply Z.eqb_neq. lia. }
    { nia. }
    destruct (IH (attempt + 1) r1) as (e & r' & Hrun & He & Hapi' & Herr' & Hrl').
    { lia. }
    { lia. }
    { assumption. }
    { intros i Hi. rewrite Hsent.
      replace (S (requests_sent r) + i)%nat with (requests_sent r + S i)%nat
        by lia.
      apply Hfail. lia. }
    exists e, r'.
    change (attempts config server cursor (S (S n)) attempt r)
      with (bind (catch (attempt_body config server cursor)
                        (attempt_handlers config attempt))
                 (fun turn => match turn with
                              | Some data => ret data
                              | None => attempts config server cursor (S n)
                                          (attempt + 1)
                              end) r).
    unfold bind at 1. rewrite Hturn, Hrun.
    rewrite Hsent in He.
    replace (requests_sent r + S n)%nat with (S (requests_sent r) + n)%nat
      by lia.
    repeat split; auto; lia.
Qed.

(** A run of 429 answers uses up one turn of the loop each. *)
Lemma attempts_rate_limited (cursor : option json) (k : nat) :
  forall (n : nat) (attempt : Z) (r : retriever),
    (forall i, (i < k)%nat ->
       is_rate_limit config (server (requests_sent r + i) cursor) = true) ->
    exists r',
      attempts config server cursor (k + n) attempt r
      = attempts config server cursor n (attempt + Z.of_nat k) r'
      /\ requests_sent r' = (requests_sent r + k)%nat
      /\ api_calls (sync_stats r') = api_calls (sync_stats r) + Z.of_nat k
      /\ errors (sync_stats r') = errors (sync_stats r)
      /\ rate_limited (sync_stats r')
         = rate_limited (sync_stats r) + Z.of_nat k
      /\ slept r'
         = (rate_limit_pauses config server cursor (requests_sent r) k
            ++ slept r)%list.
Proof.
  induction k as [|k IH]; intros n attempt r Hrl.
  - exists r. rewrite Z.add_0_r, Nat.add_0_r. simpl.
    repeat split; try reflexivity; lia.
  - pose proof (Hrl 0%nat ltac:(lia)) as H0. rewrite Nat.add_0_r in H0.
    destruct (turn_rate_limited cursor attempt r H0)
      as (r1 & Hturn & Hsent & Hapi & Herr & Hlim & Hslept).
    destruct (IH n (attempt + 1) r1)
      as (r' & Hrun & Hsent' & Hapi' & Herr' & Hlim' & Hslept').
    { intros i Hi. rewrite Hsent.
      replace (S (requests_sent r) + i)%nat with (requests_sent r + S i)%nat
        by lia.
      apply Hrl. lia. }
    exists r'.
    change (attempts config server cursor (S k + n) attempt r)
      with (bind (catch (attempt_body config server cursor)
                        (attempt_handlers config attempt))
                 (fun turn => match turn with
                              | Some data => ret data
                              | None => attempts config server cursor (k + n)
                                          (attempt + 1)
                              end) r).
    unfold bind at 1. rewrite Hturn, Hrun.
    replace (attempt + 1 + Z.of_nat k) with (attempt + Z.of_nat (S k)) by lia.
    repeat split; auto; try lia.
    rewrite Hslept', Hslept, Hsent, rate_limit_pauses_shift, <- app_assoc.
    reflexivity.
Qed.

(** C6. With [MAX_RETRIES = 3], three attempts in a row that end in a
    timeout (or any other transport exception) make the call raise that
    exception; the error counter goes up by one and the API-call counter by
    three. *)
Theorem three_timeouts_raise (cursor : option json) (r : retriever) :
  MAX_RETRIES config = 3 ->
  0 <= RETRY_DELAY config ->
  (forall i, (i < 3)%nat ->
     is_transport_failure (server (requests_sent r + i) cursor) = true) ->
  exists e r',
    _make_request config server cursor r = (Raise e, r')
    /\ server (requests_sent r + 2) cursor = GetRaises e
    /\ errors (sync_stats r') = errors (sync_stats r) + 1
    /\ api_calls (sync_stats r') = api_calls (sync_stats r) + 3.
Proof.
  intros Hmax Hdelay Hfail. unfold _make_request. rewrite Hmax.
  change (Z.to_nat 3) with 3%nat.
  destruct (attempts_all_fail cursor 2 0 r) as (e & r' & Hrun & He & Hapi & Herr & _);
    try assumption; try lia.
  exists e, r'. repeat split; auto.
Qed.

(** The amended C2. Every 429 answer whose [Retry-After] is absent or a
    non-negative integer adds one to the rate-limited counter and to the
    API-call counter, is slept on for that many seconds ([RETRY_DELAY] when
    the header is absent), and uses up one of the [MAX_RETRIES] turns of
    the attempt loop: after [k] of them the loop has [MAX_RETRIES - k]
    turns left, one request and one pause having been made per answer and
    no error counted; and when all [MAX_RETRIES] turns are answered so, the
    request fails with a [RequestException]. *)
Theorem rate_limit_consumes_attempts (cursor : option json) (r : retriever)
  (k : nat) :
  (k <= Z.to_nat (MAX_RETRIES config))%nat ->
  (forall i, (i < k)%nat ->
     is_rate_limit config (server (requests_sent r + i) cursor) = true) ->
  exists r',
    _make_request config server cursor r
    = attempts config server cursor (Z.to_nat (MAX_RETRIES config) - k)
        (Z.of_nat k) r'
    /\ rate_limited (sync_stats r') = rate_limited (sync_stats r) + Z.of_nat k
    /\ api_calls (sync_stats r') = api_calls (sync_stats r) + Z.of_nat k
    /\ errors (sync_stats r') = errors (sync_stats r)
    /\ requests_sent r' = (requests_sent r + k)%nat
    /\ slept r'
       = (rate_limit_pauses config server cursor (requests_sent r) k
          ++ slept r)%list
    /\ (k = Z.to_nat (MAX_RETRIES config) ->
        _make_request config server cursor r = (Raise RequestException, r')).
Proof.
  intros Hk Hrl.
  destruct (attempts_rate_limited cursor k
              (Z.to_nat (MAX_RETRIES config) - k) 0 r Hrl)
    as (r' & Hrun & Hsent & Hapi & Herr & Hlim & Hslept).
  replace (k + (Z.to_nat (MAX_RETRIES config) - k))%nat
    with (Z.to_nat (MAX_RETRIES config)) in Hrun by lia.
  exists r'. unfold _make_request. rewrite Hrun. simpl.
  repeat split; auto.
  intros ->. rewrite Nat.sub_diag. reflexivity.
Qed.

End TransportFacts.

(** ** The retrieval orchestrator *)

Section RetrievalFacts.

Variable config : IGAConfig.
Variable fromisoformat : string -> option datetime.
Variable repr : json -> string.
Variable server : nat -> option json -> get_outcome.
Variable clock : nat -> datetime.

(** What one turn of the record loop does, by the outcome of the
    normalizer. *)
Lemma process_user_unfold (user_data : json) (n : Z) (r : retriever) :
  process_user fromisoformat repr clock user_data n r
  = match parse_body fromisoformat repr (clock (clock_reads r)) user_data with
    | Ok u =>
        (Ok (n + 1),
         (if (status u =? value ACTIVE)%string
          then with_stats incr_active_users
          else if orb (status u =? value SUSPENDED)%string
                      (status u =? value DEPROVISIONED)%string
               then with_stats incr_suspended_users
               else fun r => r)
           (with_users (fun us => (us ++ [u])%list)
              (read_clock_for fromisoformat user_data r)))
    | Raise e =>
        (Ok n,
         with_stats incr_errors
           (with_log (cons (Error_process_failed e))
              (with_log (cons (Error_parse_failed e))
                 (read_clock_for fromisoformat user_data r))))
    end.
Proof.
  unfold process_user, catch, bind. rewrite _parse_user_data_unfold.
  destruct (parse_body fromisoformat repr (clock (clock_reads r)) user_data)
    as [u|e]; [|reflexivity].
  unfold modify, update_stats, modify, ret. simpl.
  destruct (status u =? "ACTIVE")%string; [reflexivity|].
  destruct (orb (status u =? "SUSPENDED")%string
                (status u =? "DEPROVISIONED")%string); reflexivity.
Qed.

(** Reading the clock changes nothing else. *)
Lemma read_clock_for_spec (user_data : json) (r : retriever) :
  users (read_clock_for fromisoformat user_data r) = users r
  /\ sync_stats (read_clock_for fromisoformat user_data r) = sync_stats r
  /\ log (read_clock_for fromisoformat user_data r) = log r
  /\ slept (read_clock_for fromisoformat user_data r) = slept r
  /\ requests_sent (read_clock_for fromisoformat user_data r)
     = requests_sent r
  /\ clock_reads (read_clock_for fromisoformat user_data r)
     = (if reads_clock fromisoformat user_data
        then S (clock_reads r) else clock_reads r).
Proof.
  unfold read_clock_for.
  destruct (reads_clock fromisoformat user_data); repeat split; reflexivity.
Qed.

(** The record loop never raises; it appends the entities of the records
    that parse, counts one error per record that does not, reads the clock
    once for each record whose last login parses, and touches neither the
    transport nor the start time. *)
Lemma process_users_spec (records : list json) :
  forall (n : Z) (r : retriever),
  exists r',
    process_users fromisoformat repr clock records n r
    = (Ok (n + Z.of_nat (List.length
                           (accepted (normalized fromisoformat repr clock
                                        (clock_reads r) records)))), r')
    /\ users r'
       = (users r
          ++ accepted (normalized fromisoformat repr clock
                         (clock_reads r) records))%list
    /\ errors (sync_stats r')
       = errors (sync_stats r)
         + Z.of_nat (List.length
                       (rejected (normalized fromisoformat repr clock
                                    (clock_reads r) records)))
    /\ requests_sent r' = requests_sent r
    /\ start_time (sync_stats r') = start_time (sync_stats r)
    /\ clock_reads r'
       = clock_reads_after fromisoformat (clock_reads r) records.
Proof.
  induction records as [|user_data rest IH]; intros n r.
  - exists r. simpl. rewrite Z.add_0_r, app_nil_r. repeat split; lia.
  - cbn [process_users normalized clock_reads_after]. unfold bind.
    rewrite process_user_unfold.
    destruct (read_clock_for_spec user_data r)
      as (Hu0 & Hs0 & _ & _ & Hq0 & Hc0).
    destruct (parse_body fromisoformat repr (clock (clock_reads r)) user_data)
      as [u|e].
    + match goal with
      | |- context [process_users _ _ _ rest _ ?r1] =>
          destruct (IH (n + 1) r1)
            as (r' & Hrun & Hus & Herr & Hsent & Hst & Hclk);
          assert (Hr1 : clock_reads r1
                        = (if reads_clock fromisoformat user_data
                           then S (clock_reads r) else clock_reads r)
                        /\ users r1 = (users r ++ [u])%list
                        /\ errors (sync_stats r1) = errors (sync_stats r)
                        /\ requests_sent r1 = requests_sent r
                        /\ start_time (sync_stats r1)
                           = start_time (sync_stats r))
      end.
      { destruct (status u =? value ACTIVE)%string;
          [|destruct (orb (status u =? value SUSPENDED)%string
                          (status u =? value DEPROVISIONED)%string)];
          cbn [clock_reads users sync_stats requests_sent with_stats
               with_users errors start_time incr_active_users
               incr_suspended_users];
          rewrite Hu0, Hs0, Hq0, Hc0; auto. }
      destruct Hr1 as (Hc & Hu1 & He1 & Hs1 & Ht1).
      rewrite Hc in *. exists r'. rewrite Hrun.
      unfold accepted, rejected in *. cbn [flat_map].
      rewrite Hus, Herr, Hsent, Hst, Hu1, He1, Hs1, Ht1, Hclk.
      rewrite <- app_assoc. cbn [app List.length].
      repeat split; try reflexivity; try lia.
      f_equal; f_equal; lia.
    + match goal with
      | |- context [process_users _ _ _ rest _ ?r1] =>
          destruct (IH n r1) as (r' & Hrun & Hus & Herr & Hsent & Hst & Hclk)
      end.
      cbn [clock_reads users sync_stats requests_sent with_stats with_log
           errors start_time incr_errors] in Hrun, Hus, Herr, Hsent, Hst, Hclk.
      rewrite Hu0, Hs0, Hq0, Hc0 in *.
      exists r'. rewrite Hrun.
      unfold accepted, rejected in *. cbn [flat_map].
      rewrite Hus, Herr, Hsent, Hst, Hclk. cbn [app List.length].
      repeat split; try reflexivity; lia.
Qed.

Section Keeps.

Context {X : Type} (f : retriever -> X).

Lemma keeps_ret {A : Type} (a : A) : keeps f (ret a).
Proof. intros r. reflexivity. Qed.

Lemma keeps_raise {A : Type} (e : exn) : keeps f (@raise A e).
Proof. intros r. reflexivity. Qed.

Lemma keeps_lift {A : Type} (x : result A) : keeps f (lift x).
Proof. intros r. reflexivity. Qed.

Lemma keeps_bind {A B : Type} (m : M A) (k : A -> M B) :
  keeps f m -> (forall a, keeps f (k a)) -> keeps f (bind m k).
Proof.
  intros Hm Hk r. unfold bind. specialize (Hm r).
  destruct (m r) as [[a|e] r1]; simpl in *; [|assumption].
  rewrite Hk. assumption.
Qed.

Lemma keeps_catch {A : Type} (m : M A) (h : exn -> M A) :
  keeps f m -> (forall e, keeps f (h e)) -> keeps f (catch m h).
Proof.
  intros Hm Hh r. unfold catch. specialize (Hm r).
  destruct (m r) as [[a|e] r1]; simpl in *; [assumption|].
  rewrite Hh. assumption.
Qed.

Lemma keeps_modify (g : retriever -> retriever) :
  (forall r, f (g r) = f r) -> keeps f (modify g).
Proof. intros Hg r. apply Hg. Qed.

Lemma keeps_sleep (seconds : Q) :
  (forall r, f (with_slept (cons seconds) r) = f r) -> keeps f (sleep seconds).
Proof.
  intros Hs r. unfold sleep. destruct (Qle_bool 0 seconds); simpl; auto.
Qed.

End Keeps.

Ltac keeps_step :=
  first
    [ apply keeps_ret | apply keeps_raise | apply keeps_lift
    | apply keeps_bind; [|intros ?]
    | apply keeps_catch; [|intros ?]
    | apply keeps_modify; intros ?; reflexivity
    | apply keeps_sleep; intros ?; reflexivity
    | match goal with
      | |- keeps _ (if ?c then _ else _) => destruct c
      | |- keeps _ (match ?x with _ => _ end) => destruct x
      end ].

Lemma session_get_keeps_started (cursor : option json) :
  keeps started (session_get server cursor).
Proof.
  intros r. unfold session_get.
  destruct (server (requests_sent r) cursor); reflexivity.
Qed.

(** No turn of the attempt loop touches the start time. *)
Lemma turn_keeps_started (cursor : option json) (attempt : Z) :
  keeps started (catch (attempt_body config server cursor)
                       (attempt_handlers config attempt)).
Proof.
  unfold attempt_body, attempt_handlers, update_stats, logger,
    raise_for_status.
  repeat first [apply session_get_keeps_started | keeps_step].
Qed.

Lemma attempts_keep_started (cursor : option json) (n : nat) :
  forall attempt, keeps started (attempts config server cursor n attempt).
Proof.
  induction n as [|n IH]; intros attempt; cbn [attempts].
  - apply keeps_raise.
  - apply keeps_bind; [apply turn_keeps_started|].
    intros [data|]; [apply keeps_ret | apply IH].
Qed.

Lemma _make_request_keeps_started (cursor : option json) :
  keeps started (_make_request config server cursor).
Proof. apply attempts_keep_started. Qed.

Lemma process_users_keeps_started (records : list json) (n : Z) :
  keeps started (process_users fromisoformat repr clock records n).
Proof.
  intros r. destruct (process_users_spec records n r) as (r' & -> & _ & _ & _ & H & _).
  exact H.
Qed.

Lemma fetch_page_keeps_started (next_cursor : json) (page_count : Z) :
  keeps started
    (fetch_page config fromisoformat repr server clock next_cursor page_count).
Proof.
  unfold fetch_page, logger.
  repeat first [ apply _make_request_keeps_started
               | apply process_users_keeps_started
               | match goal with
                 | |- keeps _ (let '(_, _) := ?p in _) => destruct p
                 end
               | keeps_step ].
Qed.

Lemma retrieve_loop_keeps_started (fuel : nat) :
  forall (next_cursor : json) (page_count : Z) (r r' : retriever)
         (res : result Z),
    retrieve_loop config fromisoformat repr server clock fuel next_cursor
      page_count r = Some (res, r') ->
    started r' = started r.
Proof.
  induction fuel as [|fuel IH]; intros next_cursor page_count r r' res H;
    [discriminate|].
  cbn [retrieve_loop] in H.
  pose proof (fetch_page_keeps_started next_cursor (page_count + 1) r) as Hpage.
  destruct (fetch_page _ _ _ _ _ _ _ _) as [[[next|]|e] r1]; simpl in Hpage.
  - apply IH in H. congruence.
  - inversion H; subst. assumption.
  - inversion H; subst. assumption.
Qed.

(** The [finally] block, run on a retriever whose run has started: it
    stamps the end time, sets the total, writes the summary counts, and
    then either writes the average or, when the two stamps are equal,
    raises on the division. *)
Lemma finalize_spec (r : retriever) (s : datetime) :
  started r = Some s ->
  exists r',
    let e := clock (clock_reads r) in
    let d := duration_microseconds s e in
    finalize clock r
    = (if d =? 0 then Raise ZeroDivisionError else Ok tt, r')
    /\ users r' = users r
    /\ errors (sync_stats r') = errors (sync_stats r)
    /\ start_time (sync_stats r') = Some s
    /\ end_time (sync_stats r') = Some e
    /\ total_users (sync_stats r') = Z.of_nat (List.length (users r))
    /\ log r'
       = ((if d =? 0 then [] else summary_average (sync_stats r') d)
          ++ summary_counts (sync_stats r') d ++ log r)%list.
Proof.
  unfold started. intros Hs.
  unfold finalize, bind, datetime_now, update_stats, modify,
    _log_sync_summary.
  simpl. rewrite Hs.
  unfold bind, logger, modify. simpl.
  destruct (duration_microseconds s (clock (clock_reads r)) =? 0);
    simpl; (eexists; split; [reflexivity|]); simpl; repeat split; auto.
Qed.

(** What the [finally] block leaves behind on every exit path.  Whenever
    [retrieve_all_users] hands control back -- with the list of users or
    with an exception -- the statistics carry the end time and the number
    of accumulated users, and the log ends with the counts of the run
    summary; the average line follows them unless the start and end stamps
    coincide, in which case the division by the duration raises and
    [ZeroDivisionError] is what the run hands back. *)
Theorem run_is_finalized (fuel : nat) (r r' : retriever)
  (res : result (list IGAUser)) :
  retrieve_all_users config fromisoformat repr server clock fuel r
  = Some (res, r') ->
  exists s e older,
    start_time (sync_stats r') = Some s
    /\ end_time (sync_stats r') = Some e
    /\ total_users (sync_stats r') = Z.of_nat (List.length (users r'))
    /\ log r'
       = ((if duration_microseconds s e =? 0 then []
           else summary_average (sync_stats r') (duration_microseconds s e))
          ++ summary_counts (sync_stats r') (duration_microseconds s e)
          ++ older)%list
    /\ (duration_microseconds s e = 0 -> res = Raise ZeroDivisionError).
Proof.
  unfold retrieve_all_users.
  unfold bind at 1 2, datetime_now, update_stats, logger, modify. simpl.
  destruct (retrieve_loop _ _ _ _ _ _ _ _ _) as [[looped r1]|] eqn:Hloop;
    [|discriminate].
  apply retrieve_loop_keeps_started in Hloop. unfold started in Hloop at 2.
  simpl in Hloop.
  intros H. injection H as H.
  unfold after_loop, bind, finally, catch, lift in H.
  destruct looped as [n|ex].
  - destruct (finalize_spec r1 _ Hloop)
      as (r2 & Hfin & Hus & _ & Hst & Hen & Htot & Hlog).
    cbv zeta in Hfin, Hlog. rewrite Hfin in H.
    exists (clock (clock_reads r)), (clock (clock_reads r1)), (log r1).
    destruct (duration_microseconds _ _ =? 0) eqn:Hd;
      simpl in H; inversion H; subst; clear H;
      (split; [assumption|split; [assumption|split; [congruence|split]]]);
      try exact Hlog; intros Hz; try reflexivity;
      rewrite Hz in Hd; discriminate.
  - unfold logger, modify, raise in H. simpl in H.
    destruct (finalize_spec (with_log (cons (Error_retrieve_failed ex)) r1)
                (clock (clock_reads r)) Hloop)
      as (r2 & Hfin & Hus & _ & Hst & Hen & Htot & Hlog).
    cbv zeta in Hfin, Hlog. simpl in Hfin, Hlog, Hus, Htot.
    rewrite Hfin in H.
    exists (clock (clock_reads r)), (clock (clock_reads r1)),
           (Error_retrieve_failed ex :: log r1).
    destruct (duration_microseconds _ _ =? 0) eqn:Hd;
      simpl in H; inversion H; subst; clear H;
      (split; [assumption|split; [assumption|split; [congruence|split]]]);
      try exact Hlog; intros Hz; try reflexivity;
      rewrite Hz in Hd; discriminate.
Qed.

Lemma rate_limit_pause (r : retriever) :
  exists r',
    (if negb (Qle_bool (RATE_LIMIT_DELAY config) 0)
     then sleep (RATE_LIMIT_DELAY config) else ret tt) r = (Ok tt, r')
    /\ requests_sent r' = requests_sent r
    /\ users r' = users r
    /\ sync_stats r' = sync_stats r
    /\ clock_reads r' = clock_reads r.
Proof.
  destruct (Qle_bool (RATE_LIMIT_DELAY config) 0) eqn:Hd; simpl.
  - exists r. repeat split; reflexivity.
  - unfold sleep.
    assert (Hpos : Qle_bool 0 (RATE_LIMIT_DELAY config) = true).
    { apply Qle_bool_iff. apply Qlt_le_weak. apply Qnot_le_lt.
      intros Hle. apply Qle_bool_iff in Hle. congruence. }
    rewrite Hpos. eexists. repeat split; reflexivity.
Qed.

(** A request answered 200 with a JSON body returns it at the first
    attempt, for one API call. *)
Lemma _make_request_served (cursor : option json) (page : json)
  (r : retriever) :
  1 <= MAX_RETRIES config ->
  server (requests_sent r) cursor = GetReturns (ok_response page) ->
  exists r',
    _make_request config server cursor r = (Ok page, r')
    /\ requests_sent r' = S (requests_sent r)
    /\ users r' = users r
    /\ errors (sync_stats r') = errors (sync_stats r)
    /\ clock_reads r' = clock_reads r.
Proof.
  intros Hmax Hs. unfold _make_request.
  destruct (Z.to_nat (MAX_RETRIES config)) as [|n] eqn:Hn; [lia|].
  cbn [attempts].
  unfold bind at 1, catch, attempt_body.
  unfold bind at 1, update_stats, modify.
  unfold bind at 1, session_get. cbn [requests_sent with_stats].
  rewrite Hs. cbn [ok_response status_code Z.eqb Pos.eqb].
  unfold bind at 1, raise_for_status. cbn [status_code]. simpl (andb _ _).
  unfold ret at 1. unfold bind at 1.
  destruct (rate_limit_pause (with_requests_sent S (with_stats incr_api_calls r)))
    as (r' & Hpause & Hsent & Hus & Hstats & Hclk).
  rewrite Hpause. unfold bind, lift, ret. cbn [json_body].
  exists r'. split; [reflexivity|].
  rewrite Hsent, Hus, Hstats, Hclk. repeat split; reflexivity.
Qed.

(** One turn of the page loop on a readable page that the server hands
    over: it never raises, it goes on exactly when the page has both a
    cursor and records, and its records are handled as the record loop
    handles them. *)
Lemma fetch_page_served (next_cursor : json) (page_count : Z) (page : json)
  (r : retriever) :
  1 <= MAX_RETRIES config ->
  (forall cursor,
     server (requests_sent r) cursor = GetReturns (ok_response page)) ->
  readable page = true ->
  exists turn r',
    fetch_page config fromisoformat repr server clock next_cursor page_count r
    = (Ok turn, r')
    /\ (goes_on page = true <-> turn <> None)
    /\ requests_sent r' = S (requests_sent r)
    /\ users r'
       = (users r
          ++ accepted (normalized fromisoformat repr clock (clock_reads r)
                         (page_records page)))%list
    /\ errors (sync_stats r')
       = errors (sync_stats r)
         + Z.of_nat (List.length
                       (rejected (normalized fromisoformat repr clock
                                    (clock_reads r) (page_records page))))
    /\ clock_reads r'
       = clock_reads_after fromisoformat (clock_reads r) (page_records page).
Proof.
  intros Hmax Hs Hread. unfold fetch_page.
  unfold bind at 1, logger, modify.
  destruct (_make_request_served
              (if truthy next_cursor then Some next_cursor else None) page
              (with_log (cons (Info_fetching_page page_count)) r) Hmax
              (Hs _)) as (r1 & Hreq & Hsent1 & Hus1 & Herr1 & Hclk1).
  unfold bind at 1. rewrite Hreq.
  unfold goes_on, has_cursor, has_records, page_records.
  unfold readable in Hread.
  unfold bind at 1, lift.
  destruct (extract_page page) as [[users_data cursor]|e]; [|discriminate].
  unfold bind at 1.
  destruct (iter users_data) as [records|e]; [|discriminate].
  destruct (process_users_spec records 0 r1)
    as (r2 & Hrun & Hus2 & Herr2 & Hsent2 & _ & Hclk2).
  unfold bind at 1. rewrite Hrun. unfold bind, ret.
  simpl in Hsent1, Hus1, Herr1, Hclk1.
  rewrite Hclk1 in *.
  destruct (truthy cursor), (truthy users_data); simpl;
    (eexists; eexists; split; [reflexivity|]);
    (split; [split; intros H; first [discriminate | reflexivity | congruence]
            | simpl in *; repeat split; congruence]).
Qed.

(** The page loop on a served sequence of pages: it walks the pages that
    go on and stops after the first that does not, one turn per page. *)
Lemma retrieve_loop_walks (pages_before : list json) (final : json) :
  forall (fuel : nat) (next_cursor : json) (page_count : Z) (r : retriever),
    1 <= MAX_RETRIES config ->
    Forall (fun page => readable page = true /\ goes_on page = true)
           pages_before ->
    readable final = true ->
    goes_on final = false ->
    serves server (requests_sent r) (pages_before ++ [final]) ->
    (List.length pages_before < fuel)%nat ->
    exists r',
      retrieve_loop config fromisoformat repr server clock fuel next_cursor
        page_count r
      = Some (Ok (page_count + Z.of_nat (S (List.length pages_before))), r').
Proof.
  induction pages_before as [|page rest IH];
    intros fuel next_cursor page_count r Hmax Hbefore Hread Hstop Hserves Hfuel;
    (destruct fuel as [|fuel]; [simpl in Hfuel; lia|]);
    cbn [retrieve_loop].
  - destruct (fetch_page_served next_cursor (page_count + 1) final r Hmax)
      as (turn & r' & Hpage & Hgo & _); [|assumption|].
    { intros cursor. specialize (Hserves 0%nat final cursor eq_refl).
      rewrite Nat.add_0_r in Hserves. exact Hserves. }
    rewrite Hpage. destruct turn as [next|].
    + destruct Hgo as [_ Hgo]. rewrite Hgo in Hstop by discriminate.
      discriminate.
    + exists r'. simpl. reflexivity.
  - inversion Hbefore as [|? ? [Hreadp Hgop] Hrest]; subst.
    destruct (fetch_page_served next_cursor (page_count + 1) page r Hmax)
      as (turn & r1 & Hpage & Hgo & Hsent & _); [|assumption|].
    { intros cursor. specialize (Hserves 0%nat page cursor eq_refl).
      rewrite Nat.add_0_r in Hserves. exact Hserves. }
    rewrite Hpage. destruct turn as [next|].
    2: { destruct Hgo as [Hgo _]. specialize (Hgo Hgop). congruence. }
    destruct (IH fuel next (page_count + 1) r1 Hmax Hrest Hread Hstop)
      as (r' & Hrun).
    { intros i p cursor Hi. rewrite Hsent.
      replace (S (requests_sent r) + i)%nat with (requests_sent r + S i)%nat
        by lia.
      apply Hserves. exact Hi. }
    { simpl in Hfuel. lia. }
    exists r'. rewrite Hrun. do 3 f_equal. cbn [List.length]. lia.
Qed.

(** The amended C5. For a finite sequence of readable pages served in
    order, where every page before the last has a cursor and records and
    the last lacks a cursor or has no records, the loop stops after one
    turn per page: the number of pages with records, plus one when the last
    page has none. *)
Theorem pagination_terminates (pages_before : list json) (final : json)
  (fuel : nat) (r : retriever) :
  1 <= MAX_RETRIES config ->
  Forall (fun page => readable page = true /\ goes_on page = true)
         pages_before ->
  readable final = true ->
  goes_on final = false ->
  serves server (requests_sent r) (pages_before ++ [final]) ->
  (List.length pages_before < fuel)%nat ->
  exists r',
    retrieve_loop config fromisoformat repr server clock fuel JNull 0 r
    = Some (Ok (Z.of_nat (List.length (pages_before ++ [final]))), r')
    /\ List.length (pages_before ++ [final])
       = (List.length (filter has_records (pages_before ++ [final]))
          + (if has_records final then 0 else 1))%nat.
Proof.
  intros Hmax Hbefore Hread Hstop Hserves Hfuel.
  destruct (retrieve_loop_walks pages_before final fuel JNull 0 r
              Hmax Hbefore Hread Hstop Hserves Hfuel) as (r' & Hrun).
  exists r'. split.
  - rewrite Hrun. rewrite length_app. cbn [List.length].
    do 3 f_equal. lia.
  - rewrite filter_app, !length_app. cbn [filter List.length].
    assert (Hall : filter has_records pages_before = pages_before).
    { clear -Hbefore. induction Hbefore as [|p l [_ Hgo] _ IH]; simpl; auto.
      unfold goes_on in Hgo. apply andb_prop in Hgo as [_ ->].
      rewrite IH. reflexivity. }
    rewrite Hall. destruct (has_records final); simpl; lia.
Qed.

Lemma clock_reads_after_app (k0 : nat) (l1 l2 : list json) :
  clock_reads_after fromisoformat k0 (l1 ++ l2)
  = clock_reads_after fromisoformat (clock_reads_after fromisoformat k0 l1) l2.
Proof.
  revert k0. induction l1 as [|x l1 IH]; intros k0; simpl; [reflexivity|].
  apply IH.
Qed.

Lemma normalized_app (k0 : nat) (l1 l2 : list json) :
  normalized fromisoformat repr clock k0 (l1 ++ l2)
  = (normalized fromisoformat repr clock k0 l1
     ++ normalized fromisoformat repr clock
          (clock_reads_after fromisoformat k0 l1) l2)%list.
Proof.
  revert k0. induction l1 as [|x l1 IH]; intros k0; simpl; [reflexivity|].
  rewrite IH. reflexivity.
Qed.

(** The page loop on a served sequence of pages, with what it gathers: the
    records of all the pages are normalized in order, those that parse are
    appended, those that do not are counted, whatever page they are on. *)
Lemma retrieve_loop_collects (pages_before : list json) (final : json) :
  forall (fuel : nat) (next_cursor : json) (page_count : Z) (r : retriever),
    1 <= MAX_RETRIES config ->
    Forall (fun page => readable page = true /\ goes_on page = true)
           pages_before ->
    readable final = true ->
    goes_on final = false ->
    serves server (requests_sent r) (pages_before ++ [final]) ->
    (List.length pages_before < fuel)%nat ->
    exists r',
      retrieve_loop config fromisoformat repr server clock fuel next_cursor
        page_count r
      = Some (Ok (page_count + Z.of_nat (S (List.length pages_before))), r')
      /\ users r'
         = (users r
            ++ accepted (normalized fromisoformat repr clock (clock_reads r)
                           (flat_map page_records (pages_before ++ [final]))))
           %list
      /\ errors (sync_stats r')
         = errors (sync_stats r)
           + Z.of_nat
               (List.length
                  (rejected (normalized fromisoformat repr clock
                               (clock_reads r)
                               (flat_map page_records
                                  (pages_before ++ [final])))))
      /\ clock_reads r'
         = clock_reads_after fromisoformat (clock_reads r)
             (flat_map page_records (pages_before ++ [final])).
Proof.
  induction pages_before as [|page rest IH];
    intros fuel next_cursor page_count r Hmax Hbefore Hread Hstop Hserves Hfuel;
    (destruct fuel as [|fuel]; [simpl in Hfuel; lia|]);
    cbn [retrieve_loop].
  - destruct (fetch_page_served next_cursor (page_count + 1) final r Hmax)
      as (turn & r' & Hpage & Hgo & _ & Hus & Herr & Hclk); [|assumption|].
    { intros cursor. specialize (Hserves 0%nat final cursor eq_refl).
      rewrite Nat.add_0_r in Hserves. exact Hserves. }
    rewrite Hpage. destruct turn as [next|].
    + destruct Hgo as [_ Hgo]. rewrite Hgo in Hstop by discriminate.
      discriminate.
    + exists r'. cbn [app flat_map List.length]. rewrite app_nil_r.
      repeat split; assumption.
  - inversion Hbefore as [|? ? [Hreadp Hgop] Hrest]; subst.
    destruct (fetch_page_served next_cursor (page_count + 1) page r Hmax)
      as (turn & r1 & Hpage & Hgo & Hsent & Hus1 & Herr1 & Hclk1);
      [|assumption|].
    { intros cursor. specialize (Hserves 0%nat page cursor eq_refl).
      rewrite Nat.add_0_r in Hserves. exact Hserves. }
    rewrite Hpage. destruct turn as [next|].
    2: { destruct Hgo as [Hgo _]. specialize (Hgo Hgop). congruence. }
    destruct (IH fuel next (page_count + 1) r1 Hmax Hrest Hread Hstop)
      as (r' & Hrun & Hus & Herr & Hclk).
    { intros i p cursor Hi. rewrite Hsent.
      replace (S (requests_sent r) + i)%nat with (requests_sent r + S i)%nat
        by lia.
      apply Hserves. exact Hi. }
    { simpl in Hfuel. lia. }
    exists r'. rewrite Hrun.
    change ((page :: rest) ++ [final])%list with (page :: rest ++ [final])%list.
    cbn [flat_map].
    set (tail := flat_map page_records (rest ++ [final])) in *.
    rewrite normalized_app, clock_reads_after_app.
    unfold accepted, rejected in *. rewrite !flat_map_app, !length_app.
    rewrite Hus, Herr, Hclk, Hus1, Herr1, Hclk1, <- app_assoc.
    repeat split; try reflexivity; try lia.
    do 3 f_equal. cbn [List.length]. lia.
Qed.

(** A whole run over a served sequence of pages.  No record decides
    whether the run returns: it hands back the accumulated users unless
    the two time stamps coincide, the one case in which the summary
    raises. *)
Lemma served_run (pages_before : list json) (final : json) (fuel : nat)
  (r : retriever) :
  1 <= MAX_RETRIES config ->
  Forall (fun page => readable page = true /\ goes_on page = true)
         pages_before ->
  readable final = true ->
  goes_on final = false ->
  serves server (requests_sent r) (pages_before ++ [final]) ->
  (List.length pages_before < fuel)%nat ->
  exists r',
    retrieve_all_users config fromisoformat repr server clock fuel r
    = Some (if duration_microseconds
                 (clock (clock_reads r))
                 (clock (clock_reads_after fromisoformat (S (clock_reads r))
                           (flat_map page_records (pages_before ++ [final]))))
               =? 0
            then Raise ZeroDivisionError else Ok (users r'), r')
    /\ users r'
       = (users r
          ++ accepted (normalized fromisoformat repr clock
                         (S (clock_reads r))
                         (flat_map page_records (pages_before ++ [final]))))
         %list
    /\ errors (sync_stats r')
       = errors (sync_stats r)
         + Z.of_nat
             (List.length
                (rejected (normalized fromisoformat repr clock
                             (S (clock_reads r))
                             (flat_map page_records
                                (pages_before ++ [final]))))).
Proof.
  intros Hmax Hbefore Hread Hstop Hserves Hfuel.
  unfold retrieve_all_users.
  unfold bind at 1 2, datetime_now, update_stats, logger, modify.
  cbv beta iota.
  match goal with
  | |- context [retrieve_loop _ _ _ _ _ fuel JNull 0 ?r0] =>
      destruct (retrieve_loop_collects pages_before final fuel JNull 0 r0
                  Hmax Hbefore Hread Hstop Hserves Hfuel)
        as (r1 & Hloop & Hus & Herr & Hclk)
  end.
  rewrite Hloop.
  pose proof (retrieve_loop_keeps_started _ _ _ _ _ _ Hloop) as Hst.
  cbn [started sync_stats with_log with_stats with_clock_reads
       set_start_time start_time users errors clock_reads] in Hst, Hus, Herr, Hclk.
  destruct (finalize_spec r1 _ Hst) as (r2 & Hfin & Hus2 & Herr2 & _).
  cbv zeta in Hfin. rewrite Hclk in Hfin.
  unfold after_loop, bind, finally, catch, lift. rewrite Hfin.
  exists r2.
  split; [|rewrite Hus2, Hus, Herr2, Herr; split; reflexivity].
  destruct (duration_microseconds _ _ =? 0); reflexivity.
Qed.

(** X23. What a run over served pages hands back is decided by its two
    time stamps alone: the accumulated users when they differ,
    [ZeroDivisionError] from the summary when they coincide -- whatever the
    records on the pages, good or bad. *)
Theorem served_run_outcome (pages_before : list json) (final : json)
  (fuel : nat) (r : retriever) :
  1 <= MAX_RETRIES config ->
  Forall (fun page => readable page = true /\ goes_on page = true)
         pages_before ->
  readable final = true ->
  goes_on final = false ->
  serves server (requests_sent r) (pages_before ++ [final]) ->
  (List.length pages_before < fuel)%nat ->
  exists r',
    retrieve_all_users config fromisoformat repr server clock fuel r
    = Some (if duration_microseconds
                 (clock (clock_reads r))
                 (clock (clock_reads_after fromisoformat (S (clock_reads r))
                           (flat_map page_records (pages_before ++ [final]))))
               =? 0
            then Raise ZeroDivisionError else Ok (users r'), r')
    /\ users r'
       = (users r
          ++ accepted (normalized fromisoformat repr clock
                         (S (clock_reads r))
                         (flat_map page_records (pages_before ++ [final]))))
         %list.
Proof.
  intros Hmax Hbefore Hread Hstop Hserves Hfuel.
  destruct (served_run pages_before final fuel r Hmax Hbefore Hread Hstop
              Hserves Hfuel) as (r' & Hrun & Hus & _).
  exists r'. auto.
Qed.

(** C4. A record whose parsing raises is the only thing skipped.  The
    record loop, on any list of raw records and in any state, returns: the
    records that parse are appended in order, and the error counter goes up
    by one per record that does not.  And a whole run over pages the server
    hands over, with a clock that moves between its start and its end,
    returns the users of all the pages that parse, having counted the
    others: bad records, on whatever page, do not make it raise. *)
Theorem bad_records_are_skipped (pages_before : list json) (final : json)
  (fuel : nat) (r : retriever) :
  1 <= MAX_RETRIES config ->
  Forall (fun page => readable page = true /\ goes_on page = true)
         pages_before ->
  readable final = true ->
  goes_on final = false ->
  serves server (requests_sent r) (pages_before ++ [final]) ->
  (List.length pages_before < fuel)%nat ->
  duration_microseconds
    (clock (clock_reads r))
    (clock (clock_reads_after fromisoformat (S (clock_reads r))
              (flat_map page_records (pages_before ++ [final])))) <> 0 ->
  (forall records page_user_count r0,
     exists r1,
       process_users fromisoformat repr clock records page_user_count r0
       = (Ok (page_user_count
              + Z.of_nat (List.length
                            (accepted (normalized fromisoformat repr clock
                                         (clock_reads r0) records)))), r1)
       /\ users r1
          = (users r0
             ++ accepted (normalized fromisoformat repr clock
                            (clock_reads r0) records))%list
       /\ errors (sync_stats r1)
          = errors (sync_stats r0)
            + Z.of_nat (List.length
                          (rejected (normalized fromisoformat repr clock
                                       (clock_reads r0) records))))
  /\ (exists r',
        retrieve_all_users config fromisoformat repr server clock fuel r
        = Some (Ok (users r'), r')
        /\ users r'
           = (users r
              ++ accepted (normalized fromisoformat repr clock
                             (S (clock_reads r))
                             (flat_map page_records
                                (pages_before ++ [final]))))%list
        /\ errors (sync_stats r')
           = errors (sync_stats r)
             + Z.of_nat
                 (List.length
                    (rejected (normalized fromisoformat repr clock
                                 (S (clock_reads r))
                                 (flat_map page_records
                                    (pages_before ++ [final])))))).
Proof.
  intros Hmax Hbefore Hread Hstop Hserves Hfuel Hclock. split.
  - intros records n r0.
    destruct (process_users_spec records n r0)
      as (r1 & Hrun & Hus & Herr & _).
    exists r1. auto.
  - destruct (served_run pages_before final fuel r Hmax Hbefore Hread Hstop
                Hserves Hfuel) as (r' & Hrun & Hus & Herr).
    apply Z.eqb_neq in Hclock. rewrite Hclock in Hrun.
    exists r'. auto.
Qed.

End RetrievalFacts.

(** ** The query helper *)

Lemma has_admin_group_Ok (gs : list json) (hit : bool) :
  has_admin_group gs = Ok hit -> hit = existsb is_admin_name gs.
Proof.
  revert hit. induction gs as [|g gs IH]; intros hit H;
    cbn [has_admin_group] in H.
  - injection H as <-. reflexivity.
  - apply rbind_Ok in H as (b & Hb & H).
    destruct g; try (simpl in Hb; discriminate).
    change (any_keyword_in query_admin_keywords (JStr s))
      with (@Ok bool (is_admin_name (JStr s))) in Hb.
    cbn [existsb].
    destruct (is_admin_name (JStr s)); injection Hb as <-;
      cbv beta iota in H.
    + injection H as <-. reflexivity.
    + apply IH in H. exact H.
Qed.

Lemma privileged_loop_Ok (us : list IGAUser) :
  forall acc out,
    privileged_loop us acc = Ok out ->
    out = (acc ++ filter is_privileged us)%list.
Proof.
  induction us as [|u us IH]; intros acc out H; simpl in H.
  - injection H as <-. rewrite app_nil_r. reflexivity.
  - apply rbind_Ok in H as (hit & Hhit & H).
    apply has_admin_group_Ok in Hhit. apply IH in H.
    cbn [filter]. unfold is_privileged at 1. rewrite <- Hhit.
    destruct hit; [rewrite <- app_assoc in H|]; exact H.
Qed.

(** The helper returns whenever every group of every user is a string,
    which is what the normalizer stores. *)
Lemma get_privileged_users_total (r : retriever) :
  Forall (fun u => Forall (fun g => is_str g = true) (groups u)) (users r) ->
  exists out, get_privileged_users r = Ok out.
Proof.
  unfold get_privileged_users. generalize (@nil IGAUser).
  induction (users r) as [|u us IH]; intros acc H; simpl; [eauto|].
  inversion H as [|? ? Hu Hus]; subst.
  assert (Hg : exists hit, has_admin_group (groups u) = Ok hit).
  { clear -Hu. induction Hu as [|g gs Hg _ (hit & IH)]; simpl; [eauto|].
    destruct g; try discriminate. rewrite IH. simpl.
    match goal with
    | |- context [if ?c then _ else _] => destruct c
    end; eauto. }
  destruct Hg as (hit & ->). simpl. apply IH. exact Hus.
Qed.

(** C10. What [get_privileged_users] returns is the accumulated list with
    the users that have no admin-like group taken out: a user entry with
    several matching groups is kept once, at its place, and every user
    returned has a group that matches. *)
Theorem privileged_users_once (r : retriever) (out : list IGAUser) :
  get_privileged_users r = Ok out ->
  out = filter is_privileged (users r)
  /\ (forall before u after,
        users r = (before ++ u :: after)%list ->
        out = (filter is_privileged before
               ++ (if is_privileged u then [u] else [])
               ++ filter is_privileged after)%list)
  /\ Forall (fun u => exists g, In g (groups u) /\ is_admin_name g = true) out
  /\ (NoDup (users r) -> NoDup out).
Proof.
  unfold get_privileged_users. intros H.
  apply privileged_loop_Ok in H. simpl in H. subst out.
  split; [reflexivity|]. split; [|split].
  - intros before u after ->. rewrite filter_app. cbn [filter].
    destruct (is_privileged u); reflexivity.
  - apply Forall_forall. intros u Hu. apply filter_In in Hu as [_ Hu].
    unfold is_privileged in Hu. apply existsb_exists in Hu. exact Hu.
  - apply NoDup_filter.
Qed.

(** ** The scenarios of the specification, run on the model *)

(** C1. Scenario B on the code: the raw record has [suspended: true] and no
    [activated] key, the last login is 100 days before the clock reading
    and the one group is [Org-Admins].  The status comes out as ACTIVE --
    the boolean is read with the polarity of [activated] -- so the 20
    points for SUSPENDED are not given and the score is 30 + 10 = 40, not
    60. *)
Theorem scenario_B_scores_40 :
  let out :=
    fst (_parse_user_data Sample.fromisoformat Sample.repr
           (clock_at scenario_B_now) scenario_B initial_retriever) in
  days_between scenario_B_now (Sample.at_ 2024 1 1 0 0 0) = 100
  /\ status_of out = Some "ACTIVE"
  /\ risk_score_of out = Some 40.
Proof. vm_compute. repeat split; reflexivity. Qed.

(** C7 as stated fails: the same raw record, normalized at two readings of
    the clock, gets two different scores. *)
Lemma normalization_depends_on_clock :
  let run now :=
    fst (_parse_user_data Sample.fromisoformat Sample.repr (clock_at now)
           scenario_B initial_retriever) in
  risk_score_of (run (Sample.at_ 2024 1 2 0 0 0)) = Some 10
  /\ risk_score_of (run scenario_B_now) = Some 40
  /\ run (Sample.at_ 2024 1 2 0 0 0) <> run scenario_B_now.
Proof.
  cbv zeta. split; [vm_compute; reflexivity|].
  split; [vm_compute; reflexivity|].
  intros H. apply (f_equal risk_score_of) in H. vm_compute in H.
  discriminate.
Qed.

(** C2 as stated fails: with the default [MAX_RETRIES = 3], three 429
    answers in a row use up the three attempts and the request fails. *)
Lemma three_rate_limits_fail :
  let out := _make_request default_config always_rate_limited None
               initial_retriever in
  fst out = Raise RequestException
  /\ rate_limited (sync_stats (snd out)) = 3
  /\ api_calls (sync_stats (snd out)) = 3.
Proof. vm_compute. repeat split; reflexivity. Qed.

(** C5 as stated fails: two pages are served, the last one with a cursor
    and no records; the loop makes two turns, and one page has records. *)
Lemma empty_last_page_takes_a_turn :
  option_map fst
    (retrieve_loop default_config Sample.fromisoformat Sample.repr
       (serve_pages [first_page; empty_last_page]) ticking_clock 5 JNull 0
       initial_retriever)
  = Some (Ok 2)
  /\ has_records empty_last_page = false
  /\ List.length (filter has_records [first_page; empty_last_page]) = 1%nat.
Proof. vm_compute. repeat split; reflexivity. Qed.

(** C8 on the code: a run whose two time stamps coincide.  The request is
    given up without an attempt, the [finally] block stamps the end time
    and the total and starts the summary, and the division by the duration
    raises: the run hands back [ZeroDivisionError] in place of the transport
    error, and the summary stops after the duration line, with no average
    and no closing rule. *)
Theorem stalled_clock_cuts_summary :
  retrieve_all_users no_retry_config Sample.fromisoformat Sample.repr
    always_timeout (clock_at scenario_B_now) 1 initial_retriever
  = Some (Raise ZeroDivisionError, stalled_retriever)
  /\ start_time (sync_stats stalled_retriever) = Some scenario_B_now
  /\ end_time (sync_stats stalled_retriever) = Some scenario_B_now
  /\ total_users (sync_stats stalled_retriever) = 0
  /\ requests_sent stalled_retriever = 0%nat
  /\ slept stalled_retriever = []
  /\ log stalled_retriever
     = (summary_counts (sync_stats stalled_retriever) 0
        ++ [Error_retrieve_failed RequestException;
            Info_fetching_page 1; Info_starting])%list.
Proof. vm_compute. repeat split; reflexivity. Qed.

(** *** The theorems at concrete inputs *)

Lemma risk_score_in_range_witness :
  _parse_user_data Sample.fromisoformat Sample.repr (clock_at scenario_B_now)
    scenario_B initial_retriever
  = (Ok scenario_B_user, with_clock_reads S initial_retriever)
  /\ 0 <= risk_score scenario_B_user <= 100.
Proof.
  assert (H : _parse_user_data Sample.fromisoformat Sample.repr
                (clock_at scenario_B_now) scenario_B initial_retriever
              = (Ok scenario_B_user, with_clock_reads S initial_retriever))
    by (vm_compute; reflexivity).
  split; [exact H|].
  exact (risk_score_in_range Sample.fromisoformat Sample.repr
           (clock_at scenario_B_now) scenario_B initial_retriever
           (with_clock_reads S initial_retriever) scenario_B_user H).
Defined.

Lemma groups_are_strings_witness :
  groups mixed_groups_user = [JStr "Org-Admins"; JStr "staff"; JStr "7"]
  /\ Forall (fun name => exists s, name = JStr s) (groups mixed_groups_user).
Proof.
  split; [reflexivity|].
  refine (proj2 (groups_are_strings Sample.fromisoformat Sample.repr
                   (clock_at scenario_B_now) mixed_groups_fields
                   [JDict [("name", JStr "Org-Admins")]; JStr "staff"; JInt 7]
                   initial_retriever initial_retriever
                   mixed_groups_user _ _));
    vm_compute; reflexivity.
Defined.

Lemma normalization_up_to_clock_witness :
  _parse_user_data Sample.fromisoformat Sample.repr ticking_clock scenario_B
    initial_retriever
  = (Ok scenario_B_user, with_clock_reads S initial_retriever)
  /\ exists z,
       fst (_parse_user_data Sample.fromisoformat Sample.repr ticking_clock
              scenario_B (with_clock_reads S initial_retriever))
       = Ok (set_risk_score z scenario_B_user).
Proof.
  assert (H : _parse_user_data Sample.fromisoformat Sample.repr ticking_clock
                scenario_B initial_retriever
              = (Ok scenario_B_user, with_clock_reads S initial_retriever))
    by (vm_compute; reflexivity).
  split; [exact H|].
  exact (proj2 (proj2 (normalization_up_to_clock Sample.fromisoformat
                         Sample.repr ticking_clock scenario_B
                         initial_retriever
                         (with_clock_reads S initial_retriever)
                         scenario_B_user H))
           (with_clock_reads S initial_retriever)).
Defined.

Lemma three_timeouts_raise_witness :
  MAX_RETRIES default_config = 3
  /\ exists e r',
       _make_request default_config always_timeout None initial_retriever
       = (Raise e, r')
       /\ always_timeout (requests_sent initial_retriever + 2) None
          = GetRaises e
       /\ errors (sync_stats r') = errors (sync_stats initial_retriever) + 1
       /\ api_calls (sync_stats r')
          = api_calls (sync_stats initial_retriever) + 3.
Proof.
  split; [reflexivity|].
  apply (three_timeouts_raise default_config always_timeout None
           initial_retriever).
  - reflexivity.
  - simpl. lia.
  - intros i _. reflexivity.
Defined.

Lemma rate_limit_consumes_attempts_witness :
  exists r',
    _make_request default_config always_rate_limited None initial_retriever
    = attempts default_config always_rate_limited None
        (Z.to_nat (MAX_RETRIES default_config) - 3) (Z.of_nat 3) r'
    /\ rate_limited (sync_stats r')
       = rate_limited (sync_stats initial_retriever) + Z.of_nat 3
    /\ api_calls (sync_stats r')
       = api_calls (sync_stats initial_retriever) + Z.of_nat 3
    /\ errors (sync_stats r') = errors (sync_stats initial_retriever)
    /\ requests_sent r' = (requests_sent initial_retriever + 3)%nat
    /\ slept r'
       = ([inject_Z 1; inject_Z 1; inject_Z 1]
          ++ slept initial_retriever)%list
    /\ (3%nat = Z.to_nat (MAX_RETRIES default_config) ->
        _make_request default_config always_rate_limited None
          initial_retriever
        = (Raise RequestException, r')).
Proof.
  apply (rate_limit_consumes_attempts default_config always_rate_limited None
           initial_retriever 3).
  - simpl. lia.
  - intros i _. reflexivity.
Defined.

Lemma bad_records_are_skipped_witness :
  goes_on first_page = true
  /\ goes_on page_with_bad_records = false
  /\ rejected (normalized Sample.fromisoformat Sample.repr ticking_clock 1
                 (flat_map page_records
                    ([first_page] ++ [page_with_bad_records])))
     = [AttributeError; AttributeError]
  /\ clock_reads_after Sample.fromisoformat 1
       (flat_map page_records ([first_page] ++ [page_with_bad_records]))
     = 3%nat
  /\ duration_microseconds (ticking_clock 0) (ticking_clock 3) = 3000000
  /\ exists r',
       retrieve_all_users default_config Sample.fromisoformat Sample.repr
         (serve_pages [first_page; page_with_bad_records]) ticking_clock 5
         initial_retriever
       = Some (Ok (users r'), r')
       /\ users r'
          = (users initial_retriever
             ++ accepted (normalized Sample.fromisoformat Sample.repr
                            ticking_clock 1
                            (flat_map page_records
                               ([first_page] ++ [page_with_bad_records]))))
            %list
       /\ errors (sync_stats r')
          = errors (sync_stats initial_retriever)
            + Z.of_nat
                (List.length
                   (rejected (normalized Sample.fromisoformat Sample.repr
                                ticking_clock 1
                                (flat_map page_records
                                   ([first_page]
                                    ++ [page_with_bad_records]))))).
Proof.
  split; [reflexivity|]. split; [reflexivity|]. split; [reflexivity|].
  split; [reflexivity|]. split; [reflexivity|].
  refine (proj2 (bad_records_are_skipped default_config Sample.fromisoformat
                   Sample.repr
                   (serve_pages [first_page; page_with_bad_records])
                   ticking_clock [first_page] page_with_bad_records 5
                   initial_retriever _ _ _ _ _ _ _)).
  - simpl. lia.
  - constructor; [split; reflexivity | constructor].
  - reflexivity.
  - reflexivity.
  - intros i page cursor H. unfold serve_pages.
    change (requests_sent initial_retriever + i)%nat with i.
    change ([first_page] ++ [page_with_bad_records])%list
      with [first_page; page_with_bad_records] in H.
    rewrite H. reflexivity.
  - simpl. lia.
  - vm_compute. discriminate.
Defined.

Lemma served_run_outcome_witness :
  goes_on page_with_bad_records = false
  /\ exists r',
       retrieve_all_users default_config Sample.fromisoformat Sample.repr
         (serve_pages [page_with_bad_records]) (clock_at scenario_B_now) 1
         initial_retriever
       = Some (Raise ZeroDivisionError, r')
       /\ users r'
          = (users initial_retriever
             ++ accepted (normalized Sample.fromisoformat Sample.repr
                            (clock_at scenario_B_now) 1
                            (flat_map page_records
                               ([] ++ [page_with_bad_records]))))%list.
Proof.
  split; [reflexivity|].
  refine (served_run_outcome default_config Sample.fromisoformat Sample.repr
            (serve_pages [page_with_bad_records]) (clock_at scenario_B_now)
            [] page_with_bad_records 1 initial_retriever _ _ _ _ _ _).
  - simpl. lia.
  - constructor.
  - reflexivity.
  - reflexivity.
  - intros i page cursor H. unfold serve_pages.
    change (requests_sent initial_retriever + i)%nat with i.
    change ([] ++ [page_with_bad_records])%list
      with [page_with_bad_records] in H.
    rewrite H. reflexivity.
  - simpl. lia.
Defined.

Lemma pagination_terminates_witness :
  goes_on first_page = true
  /\ goes_on empty_last_page = false
  /\ exists r',
       retrieve_loop default_config Sample.fromisoformat Sample.repr
         (serve_pages [first_page; empty_last_page]) ticking_clock 5 JNull 0
         initial_retriever
       = Some (Ok (Z.of_nat (List.length ([first_page] ++ [empty_last_page]))),
               r')
       /\ List.length ([first_page] ++ [empty_last_page])
          = (List.length
               (filter has_records ([first_page] ++ [empty_last_page]))
             + (if has_records empty_last_page then 0 else 1))%nat.
Proof.
  split; [reflexivity|]. split; [reflexivity|].
  apply (pagination_terminates default_config Sample.fromisoformat Sample.repr
           (serve_pages [first_page; empty_last_page]) ticking_clock
           [first_page] empty_last_page 5 initial_retriever).
  - simpl. lia.
  - constructor; [split; reflexivity | constructor].
  - reflexivity.
  - reflexivity.
  - intros i page cursor H. unfold serve_pages.
    change (requests_sent initial_retriever + i)%nat with i.
    change ([first_page] ++ [empty_last_page])%list
      with [first_page; empty_last_page] in H.
    rewrite H. reflexivity.
  - simpl. lia.
Defined.

Lemma run_is_finalized_witness :
  timed_out_result = Raise ConnectTimeout
  /\ exists s e older,
       start_time (sync_stats timed_out_retriever) = Some s
       /\ end_time (sync_stats timed_out_retriever) = Some e
       /\ total_users (sync_stats timed_out_retriever)
          = Z.of_nat (List.length (users timed_out_retriever))
       /\ log timed_out_retriever
          = ((if duration_microseconds s e =? 0 then []
              else summary_average (sync_stats timed_out_retriever)
                     (duration_microseconds s e))
             ++ summary_counts (sync_stats timed_out_retriever)
                  (duration_microseconds s e)
             ++ older)%list
       /\ (duration_microseconds s e = 0 ->
           timed_out_result = Raise ZeroDivisionError).
Proof.
  split; [reflexivity|].
  apply (run_is_finalized default_config Sample.fromisoformat Sample.repr
           always_timeout ticking_clock 1 initial_retriever
           timed_out_retriever timed_out_result).
  vm_compute. reflexivity.
Defined.

Lemma privileged_users_once_witness :
  get_privileged_users two_users = Ok [root_user]
  /\ [root_user] = filter is_privileged (users two_users)
  /\ Forall (fun u => exists g, In g (groups u) /\ is_admin_name g = true)
            [root_user].
Proof.
  assert (H : get_privileged_users two_users = Ok [root_user])
    by reflexivity.
  split; [exact H|].
  destruct (privileged_users_once two_users [root_user] H)
    as (Hfilter & _ & Hgroups & _).
  split; [exact Hfilter | exact Hgroups].
Defined.

(** ** Further properties of the normalizer and the scorer *)

Section ScorerFacts.

Variable fromisoformat : string -> option datetime.
Variable repr : json -> string.

Lemma admin_groups_filter (gs admin : list json) :
  admin_groups risk_admin_keywords gs = Ok admin ->
  admin = filter is_risk_admin_name gs.
Proof.
  revert admin. induction gs as [|g gs IH]; intros admin H;
    cbn [admin_groups] in H.
  - injection H as <-. reflexivity.
  - apply rbind_Ok in H as (hit & Hhit & H).
    apply rbind_Ok in H as (tail & Htail & H).
    apply IH in Htail. subst tail.
    destruct g; try (simpl in Hhit; discriminate).
    change (any_keyword_in risk_admin_keywords (JStr s))
      with (@Ok bool (is_risk_admin_name (JStr s))) in Hhit.
    cbn [filter].
    destruct (is_risk_admin_name (JStr s)); injection Hhit as <-;
      injection H as <-; reflexivity.
Qed.

(** The scorer, split into what status and last login give and what the
    groups add. *)
Lemma _calculate_risk_score_split now user_data st ll gs z :
  _calculate_risk_score fromisoformat now user_data st ll gs = Ok z ->
  exists base,
    _calculate_risk_score fromisoformat now user_data st ll [] = Ok base
    /\ 0 <= base <= 80
    /\ z = Z.min (base + 10 * Z.of_nat (List.length
                                          (filter is_risk_admin_name gs))) 100.
Proof.
  unfold _calculate_risk_score. cbv zeta. cbn [admin_groups rbind List.length].
  match goal with
  | |- rbind _ (fun admin => Ok (Z.min (?t + _) 100)) = _ -> _ =>
      assert (Hx : 0 <= t <= 80);
      [|revert Hx; generalize t]
  end.
  { destruct (truthy ll); [destruct ll|];
      repeat match goal with
             | |- context [match fromisoformat ?x with _ => _ end] =>
                 destruct (fromisoformat x)
             | |- context [if ?c then _ else _] => destruct c
             end; lia. }
  intros X HX H.
  apply rbind_Ok in H as (admin & Hadmin & H).
  apply admin_groups_filter in Hadmin. subst admin.
  injection H as <-.
  exists X. split; [f_equal; lia|]. split; [lia|]. f_equal. lia.
Qed.

(** X1. The score of any record is the score the same status and last
    login get without groups -- at most 80 -- plus 10 for every group whose
    name matches a keyword of the scorer, capped at 100. *)
Theorem score_decomposition now user_data st ll gs z :
  _calculate_risk_score fromisoformat now user_data st ll gs = Ok z ->
  exists base,
    _calculate_risk_score fromisoformat now user_data st ll [] = Ok base
    /\ 0 <= base <= 80
    /\ z = Z.min (base + 10 * Z.of_nat (List.length
                                          (filter is_risk_admin_name gs))) 100.
Proof. apply _calculate_risk_score_split. Qed.

Lemma risk_name_is_admin_name (g : json) :
  is_risk_admin_name g = true -> is_admin_name g = true.
Proof.
  destruct g; try discriminate.
  unfold is_risk_admin_name, is_admin_name, risk_admin_keywords,
    query_admin_keywords.
  cbn [existsb]. intros H.
  repeat match type of H with
         | (?a || _)%bool = true =>
             destruct a; [repeat rewrite ?orb_true_r, ?orb_true_l; reflexivity|];
             cbn [orb] in H |- *
         end.
  discriminate.
Qed.

(** X2. An entity the normalizer returns with a score above 80 has a group
    that [get_privileged_users] matches: without an admin-like group the
    score stops at 80. *)
Theorem high_score_is_privileged (u : IGAUser) :
  normalizer_output fromisoformat repr u ->
  80 < risk_score u ->
  is_privileged u = true.
Proof.
  intros (now & user_data & H) Hhigh.
  apply parse_body_Ok in H as (d & _ & _ & _ & Hg & _ & Hscore).
  apply _calculate_risk_score_split in Hscore as (base & _ & Hbase & Hz).
  rewrite <- Hg in Hz.
  destruct (filter is_risk_admin_name (groups u)) as [|g rest] eqn:Hf.
  - cbn [List.length] in Hz. lia.
  - assert (Hin : In g (filter is_risk_admin_name (groups u)))
      by (rewrite Hf; left; reflexivity).
    apply filter_In in Hin as [Hin Hname].
    unfold is_privileged. apply existsb_exists. exists g.
    split; [exact Hin | apply risk_name_is_admin_name; exact Hname].
Qed.

(** X3. A boolean [activated] decides the status, whatever [suspended] and
    [status] say: ACTIVE for true, SUSPENDED for false. *)
Theorem activated_decides_status now (d : list (string * json)) (b : bool)
  (u : IGAUser) :
  lookup "activated" d = Some (JBool b) ->
  parse_body fromisoformat repr now (JDict d) = Ok u ->
  status u = value (if b then ACTIVE else SUSPENDED).
Proof.
  intros Hb H.
  apply parse_body_Ok in H as (d' & Hd & -> & _).
  injection Hd as <-.
  unfold raw_status. cbv zeta. unfold get at 1. rewrite Hb.
  destruct b; reflexivity.
Qed.

End ScorerFacts.

Section DisplayNameFacts.

Variable fromisoformat : string -> option datetime.
Variable repr : json -> string.

Lemma list_ascii_of_string_app (a b : string) :
  list_ascii_of_string (a ++ b)
  = (list_ascii_of_string a ++ list_ascii_of_string b)%list.
Proof.
  induction a as [|c a IH]; simpl; [reflexivity|]. rewrite IH. reflexivity.
Qed.

Lemma list_ascii_of_string_reverse (s : string) :
  list_ascii_of_string (reverse s) = rev (list_ascii_of_string s).
Proof.
  induction s as [|c s IH]; simpl; [reflexivity|].
  rewrite list_ascii_of_string_app, IH. reflexivity.
Qed.

Lemma remove_prefix_Some (p : string) :
  forall s rest, remove_prefix p s = Some rest -> s = (p ++ rest)%string.
Proof.
  induction p as [|a p IH]; intros s rest H; simpl in H.
  - injection H as ->. reflexivity.
  - destruct s as [|b s]; [discriminate|].
    destruct (Ascii.eqb_spec a b) as [->|]; [|discriminate].
    simpl. f_equal. apply IH. exact H.
Qed.

Lemma remove_first_Some (ps : list string) (s rest : string) :
  remove_first ps s = Some rest ->
  exists p, In p ps /\ s = (p ++ rest)%string.
Proof.
  induction ps as [|p ps IH]; simpl; [discriminate|].
  destruct (remove_prefix p s) as [rest'|] eqn:Hp.
  - intros H. injection H as ->. exists p. split; [left; reflexivity|].
    apply remove_prefix_Some. exact Hp.
  - intros H. destruct (IH H) as (q & Hq & Hs). exists q. auto.
Qed.

(** Taking leading texts off keeps every byte that none of them has. *)
Lemma remove_leading_keeps (c : ascii) (ps : list string) :
  (forall p, In p ps -> ~ In c (list_ascii_of_string p)) ->
  forall n s,
    In c (list_ascii_of_string s) ->
    In c (list_ascii_of_string (remove_leading ps n s)).
Proof.
  intros Hps. induction n as [|n IH]; intros s Hc; simpl; [exact Hc|].
  destruct (remove_first ps s) as [rest|] eqn:Hrest; [|exact Hc].
  apply remove_first_Some in Hrest as (p & Hp & ->).
  apply IH. rewrite list_ascii_of_string_app in Hc.
  apply in_app_or in Hc as [Hc|Hc]; [|exact Hc].
  destruct (Hps p Hp Hc).
Qed.

Lemma is_visible_spec (c : ascii) (p : string) :
  is_visible c = true -> In p white_space ->
  ~ In c (list_ascii_of_string p).
Proof.
  unfold is_visible. intros Hv Hp Hc.
  apply negb_true_iff in Hv.
  assert (Hex : existsb
                  (fun p => existsb (Ascii.eqb c) (list_ascii_of_string p))
                  white_space = true).
  { apply existsb_exists. exists p. split; [exact Hp|].
    apply existsb_exists. exists c. split; [exact Hc|].
    apply Ascii.eqb_refl. }
  congruence.
Qed.

(** Stripping keeps every visible byte. *)
Lemma strip_keeps_visible (c : ascii) (s : string) :
  is_visible c = true ->
  In c (list_ascii_of_string s) ->
  In c (list_ascii_of_string (strip s)).
Proof.
  intros Hv Hc. unfold strip, lstrip.
  apply remove_leading_keeps; [intros p; apply is_visible_spec; exact Hv|].
  unfold rstrip. rewrite list_ascii_of_string_reverse.
  apply -> in_rev.
  apply remove_leading_keeps.
  - intros p Hp Hin. apply in_map_iff in Hp as (q & <- & Hq).
    rewrite list_ascii_of_string_reverse in Hin. apply in_rev in Hin.
    exact (is_visible_spec c q Hv Hq Hin).
  - rewrite list_ascii_of_string_reverse. apply -> in_rev. exact Hc.
Qed.

(** Stripping leaves something of any text with a visible byte. *)
Lemma strip_visible (s : string) :
  has_visible s = true -> strip s <> EmptyString.
Proof.
  unfold has_visible. intros H.
  apply existsb_exists in H as (c & Hc & Hv).
  pose proof (strip_keeps_visible c s Hv Hc) as Hin.
  intros Hempty. rewrite Hempty in Hin. exact Hin.
Qed.

Lemma has_visible_app (a b : string) :
  has_visible (a ++ b) = orb (has_visible a) (has_visible b).
Proof.
  unfold has_visible. rewrite list_ascii_of_string_app. apply existsb_app.
Qed.

Lemma __post_init___names (u : IGAUser) :
  first_name (__post_init__ repr u) = first_name u
  /\ last_name (__post_init__ repr u) = last_name u
  /\ display_name (__post_init__ repr u)
     = (if truthy (display_name u) then display_name u
        else JStr (strip (str repr (first_name u) ++ " "
                          ++ str repr (last_name u)))).
Proof.
  unfold __post_init__. destruct (truthy (display_name u)); simpl; auto.
Qed.

(** The name fields of the entity, as resolved from the raw dict. *)
Lemma parse_body_names now (d : list (string * json)) (u : IGAUser) :
  parse_body fromisoformat repr now (JDict d) = Ok u ->
  let given :=
    or_ (or_ (get "firstname" JNull d) (get "firstName" JNull d))
        (get "given_name" (JStr "") d) in
  let family :=
    or_ (or_ (get "lastname" JNull d) (get "lastName" JNull d))
        (get "family_name" (JStr "") d) in
  let joined := JStr (strip (str repr given ++ " " ++ str repr family)) in
  let shown :=
    or_ (or_ (get "displayname" JNull d) (get "displayName" JNull d)) joined in
  first_name u = given
  /\ last_name u = family
  /\ display_name u = (if truthy shown then shown else joined).
Proof.
  unfold parse_body. cbv zeta. intros H.
  apply rbind_Ok in H as (z & _ & H). injection H as <-.
  match goal with
  | |- context [__post_init__ repr ?r] =>
      destruct (__post_init___names r) as (-> & -> & ->)
  end.
  repeat split; reflexivity.
Qed.

(** X4. The entity has a display name as soon as its first or last name
    prints with a visible byte, one that no white-space character has in
    its encoding: the raw display name if there is one, else the two names
    joined and stripped of white space, which leaves that byte in place. *)
Theorem display_name_known now (user_data : json) (u : IGAUser) :
  parse_body fromisoformat repr now user_data = Ok u ->
  has_visible (str repr (first_name u)) = true
  \/ has_visible (str repr (last_name u)) = true ->
  truthy (display_name u) = true.
Proof.
  intros H Hname.
  destruct (parse_body_Ok _ _ _ _ _ H) as (d & -> & _).
  apply parse_body_names in H. cbv zeta in H.
  destruct H as (Hf & Hl & Hd). rewrite Hd.
  rewrite Hf, Hl in Hname.
  match goal with
  | |- truthy (if truthy ?x then _ else _) = true =>
      destruct (truthy x) eqn:Hx; [exact Hx|]
  end.
  cbn [truthy]. apply negb_true_iff. apply String.eqb_neq.
  apply strip_visible. rewrite !has_visible_app.
  destruct Hname as [-> | ->]; [reflexivity|].
  rewrite !orb_true_r. reflexivity.
Qed.

End DisplayNameFacts.

(** ** The query helpers and the report *)

Section QueryFacts.

Variable fromisoformat : string -> option datetime.

Lemma inactive_loop_filter (cutoff_date : datetime) (us : list IGAUser) :
  forall acc,
    inactive_loop fromisoformat cutoff_date us acc
    = (acc ++ filter (is_inactive fromisoformat cutoff_date) us)%list.
Proof.
  induction us as [|u us IH]; intros acc; cbn [inactive_loop filter].
  - rewrite app_nil_r. reflexivity.
  - rewrite IH. destruct (is_inactive fromisoformat cutoff_date u);
      [rewrite <- app_assoc|]; reflexivity.
Qed.

(** What a returning call of [get_inactive_users] computed. *)
Lemma get_inactive_users_Some now days (r : retriever) (out : list IGAUser) :
  get_inactive_users fromisoformat now days r = Some out ->
  exists cutoff_date,
    naive cutoff_date = naive now - days * microseconds_per_day
    /\ out = filter (is_inactive fromisoformat cutoff_date) (users r).
Proof.
  unfold get_inactive_users, timedelta_days.
  destruct (Z.abs days <=? timedelta_max_days); [|discriminate].
  destruct (datetime_sub now (days * microseconds_per_day))
    as [cutoff_date|] eqn:Hsub; [|discriminate].
  intros H. injection H as <-. exists cutoff_date.
  rewrite inactive_loop_filter. split; [|reflexivity].
  unfold datetime_sub in Hsub.
  destruct (andb (datetime_min <=? naive now - days * microseconds_per_day)
                 (naive now - days * microseconds_per_day <=? datetime_max));
    [|discriminate].
  injection Hsub as <-. reflexivity.
Qed.

Lemma is_inactive_earlier (c1 c2 : datetime) (u : IGAUser) :
  naive c2 <= naive c1 ->
  is_inactive fromisoformat c2 u = true ->
  is_inactive fromisoformat c1 u = true.
Proof.
  unfold is_inactive. intros Hc.
  destruct (negb (truthy (last_login u))); [auto|].
  destruct (last_login u); auto.
  destruct (fromisoformat _); auto.
  intros H. apply Z.ltb_lt in H. apply Z.ltb_lt. lia.
Qed.

(** X5. Asking for a longer inactivity returns fewer users: whoever is
    inactive for [days2] days is inactive for any [days1 <= days2], at the
    same moment. *)
Theorem inactive_shrinks_with_days now days1 days2 (r : retriever)
  (out1 out2 : list IGAUser) :
  days1 <= days2 ->
  get_inactive_users fromisoformat now days1 r = Some out1 ->
  get_inactive_users fromisoformat now days2 r = Some out2 ->
  incl out2 out1.
Proof.
  intros Hd H1 H2.
  apply get_inactive_users_Some in H1 as (c1 & Hc1 & ->).
  apply get_inactive_users_Some in H2 as (c2 & Hc2 & ->).
  intros u Hu. apply filter_In in Hu as [Hin Hu]. apply filter_In.
  split; [exact Hin|].
  apply (is_inactive_earlier c1 c2); [|exact Hu].
  rewrite Hc1, Hc2. unfold microseconds_per_day. lia.
Qed.

(** X6. For a user whose last login parses, [get_inactive_users(days)]
    agrees with the whole days the scorer counts: the user is returned
    when more than [days] whole days have passed since the login, and only
    when at least [days] have. *)
Theorem inactive_by_whole_days now days (r : retriever) (out : list IGAUser)
  (u : IGAUser) (s : string) (login_date : datetime) :
  get_inactive_users fromisoformat now days r = Some out ->
  In u (users r) ->
  last_login u = JStr s ->
  s <> EmptyString ->
  fromisoformat (replace_char "Z" "+00:00" s) = Some login_date ->
  (days < days_between now (replace_tzinfo_None login_date) -> In u out)
  /\ (In u out -> days <= days_between now (replace_tzinfo_None login_date)).
Proof.
  intros H Hin Hl Hs Hparse.
  apply get_inactive_users_Some in H as (c & Hc & ->).
  assert (Hu : is_inactive fromisoformat c u
               = (naive (replace_tzinfo_None login_date) <? naive c)).
  { unfold is_inactive. rewrite Hl. cbn [truthy].
    apply String.eqb_neq in Hs. rewrite Hs. cbn [negb]. rewrite Hparse.
    reflexivity. }
  unfold days_between. rewrite Hc in Hu.
  assert (HD : 0 < microseconds_per_day) by (unfold microseconds_per_day; lia).
  split.
  - intros Hdays. apply filter_In. split; [exact Hin|]. rewrite Hu.
    apply Z.ltb_lt.
    assert (days + 1 <= (naive now - naive (replace_tzinfo_None login_date))
                         / microseconds_per_day) by lia.
    pose proof (Z.mul_div_le (naive now - naive (replace_tzinfo_None login_date))
                  microseconds_per_day HD).
    nia.
  - intros Hout. apply filter_In in Hout as [_ Hout]. rewrite Hu in Hout.
    apply Z.ltb_lt in Hout.
    apply Z.div_le_lower_bound; [exact HD | lia].
Qed.

End QueryFacts.

(** X7. The three risk bands of the security report split the users: every
    user is counted in exactly one band, and the high band is what
    [get_high_risk_users(70)] returns. *)
Theorem risk_bands_partition (r : retriever) :
  let '(high, medium, low) := risk_distribution (users r) in
  high + medium + low = Z.of_nat (List.length (users r))
  /\ high = Z.of_nat (List.length (get_high_risk_users 70 r)).
Proof.
  unfold risk_distribution, get_high_risk_users.
  split; [|reflexivity].
  induction (users r) as [|u us IH]; [reflexivity|].
  cbn [filter List.length].
  destruct (Z.geb_spec (risk_score u) 70), (Z.leb_spec 40 (risk_score u)),
    (Z.ltb_spec (risk_score u) 70), (Z.ltb_spec (risk_score u) 40);
    cbn [andb List.length]; lia.
Qed.

(** ** The request URL and the configuration *)

Lemma rstrip_char_snoc (c : ascii) (s : string) :
  rstrip_char c (s ++ String c EmptyString) = rstrip_char c s.
Proof.
  induction s as [|a s IH]; simpl.
  - rewrite Ascii.eqb_refl. reflexivity.
  - rewrite IH. reflexivity.
Qed.

(** X8. The URL a request goes to does not depend on a slash at the end of
    the base URL or at the start of the endpoint. *)
Theorem request_url_ignores_slashes (config config' : IGAConfig)
  (endpoint : string) :
  BASE_URL config' = (BASE_URL config ++ "/")%string ->
  request_url config' endpoint = request_url config endpoint
  /\ request_url config (String "/" endpoint) = request_url config endpoint.
Proof.
  intros H. unfold request_url. rewrite H, rstrip_char_snoc.
  split; reflexivity.
Qed.

(** X9. The constructor either returns a configuration with an API key,
    the one of the environment, and a base URL, neither of them empty, or
    raises [ValueError]: nothing else comes out of it. *)
Theorem config_has_credentials (int_ : string -> option Z)
  (float_ : string -> option Q) (environ : string -> option string) :
  match IGAConfig_init int_ float_ environ with
  | Ok config =>
      environ "IGA_API_KEY" = Some (API_KEY config)
      /\ API_KEY config <> EmptyString
      /\ BASE_URL config <> EmptyString
  | Raise e => e = ValueError
  end.
Proof.
  unfold IGAConfig_init, of_option. cbv zeta.
  repeat match goal with
         | |- context [rbind (match ?x with _ => _ end) _] =>
             destruct x; cbn [rbind]; [|reflexivity]
         end.
  destruct (getenv environ "IGA_API_KEY" "" =? "")%string eqn:Hkey;
    [reflexivity|].
  destruct (getenv environ "IGA_API_URL" _ =? "")%string eqn:Hurl;
    [reflexivity|].
  cbn [API_KEY BASE_URL].
  apply String.eqb_neq in Hkey, Hurl.
  split; [|split; assumption].
  unfold getenv in *. destruct (environ "IGA_API_KEY"); [reflexivity|].
  congruence.
Qed.

(** ** Further properties of the transport client *)

Section TransportMore.

Variable config : IGAConfig.
Variable server : nat -> option json -> get_outcome.

Ltac keeps_more :=
  repeat first
    [ apply keeps_ret | apply keeps_raise | apply keeps_lift
    | apply keeps_bind; [|intros ?]
    | apply keeps_catch; [|intros ?]
    | apply keeps_modify; intros ?; reflexivity
    | apply keeps_sleep; intros ?; reflexivity
    | match goal with
      | |- keeps _ (if ?c then _ else _) => destruct c
      | |- keeps _ (match ?x with _ => _ end) => destruct x
      end ].

(** The [try] body of a turn sends one request and counts one API call,
    and no error, however it ends. *)
Lemma attempt_body_accounting (cursor : option json) (r : retriever) :
  accounts (snd (attempt_body config server cursor r))
  = (S (requests_sent r), api_calls (sync_stats r) + 1, errors (sync_stats r)).
Proof.
  unfold attempt_body.
  unfold bind at 1, update_stats at 1, modify at 1.
  unfold bind at 1, session_get. cbn [requests_sent with_stats].
  destruct (server (requests_sent r) cursor) as [e|resp]; [reflexivity|].
  match goal with
  | |- accounts (snd (?k ?r2)) = _ =>
      assert (Hk : keeps accounts k)
        by (unfold update_stats, logger, raise_for_status; keeps_more);
      rewrite (Hk r2)
  end.
  reflexivity.
Qed.

(** The [except] clauses send nothing and count no API call; they count
    one error exactly when they re-raise an exception of the [requests]
    hierarchy on the last attempt. *)
Lemma attempt_handlers_accounting (attempt : Z) (e : exn) (r : retriever) :
  let out := attempt_handlers config attempt e r in
  requests_sent (snd out) = requests_sent r
  /\ api_calls (sync_stats (snd out)) = api_calls (sync_stats r)
  /\ (errors (sync_stats (snd out)) = errors (sync_stats r)
      \/ (errors (sync_stats (snd out)) = errors (sync_stats r) + 1
          /\ fst out = Raise e /\ is_RequestException e = true
          /\ attempt = MAX_RETRIES config - 1)).
Proof.
  cbv zeta. unfold attempt_handlers.
  destruct (is_Timeout e) eqn:Ht;
    [assert (He : is_RequestException e = true)
       by (destruct e; try discriminate; reflexivity)
    |destruct (is_RequestException e) eqn:He];
    try (unfold raise; simpl; auto; fail);
    unfold bind, logger, modify, update_stats, modify, raise, ret, sleep;
    (destruct (Z.eqb_spec attempt (MAX_RETRIES config - 1));
     [simpl; auto 10
     |destruct (Qle_bool 0 (inject_Z (RETRY_DELAY config * (attempt + 1))));
      simpl; auto]).
Qed.

(** Every turn of the attempt loop sends one request and counts one API
    call; it counts at most one error, and only when it raises an exception
    of the [requests] hierarchy on the last attempt. *)
Lemma turn_accounting (cursor : option json) (attempt : Z) (r : retriever) :
  let out := catch (attempt_body config server cursor)
                   (attempt_handlers config attempt) r in
  requests_sent (snd out) = S (requests_sent r)
  /\ api_calls (sync_stats (snd out)) = api_calls (sync_stats r) + 1
  /\ (errors (sync_stats (snd out)) = errors (sync_stats r)
      \/ (errors (sync_stats (snd out)) = errors (sync_stats r) + 1
          /\ (exists e, fst out = Raise e /\ is_RequestException e = true)
          /\ attempt = MAX_RETRIES config - 1)).
Proof.
  cbv zeta. unfold catch.
  pose proof (attempt_body_accounting cursor r) as Hbody.
  destruct (attempt_body config server cursor r) as [[turn|e] r1].
  - unfold accounts in Hbody. cbn [snd fst] in *.
    injection Hbody as -> -> ->. auto.
  - unfold accounts in Hbody. cbn [snd] in Hbody.
    injection Hbody as Hs Ha He.
    destruct (attempt_handlers_accounting attempt e r1) as (Hs' & Ha' & He').
    rewrite Hs', Ha', Hs, Ha. split; [reflexivity|]. split; [reflexivity|].
    destruct He' as [He'|(He' & Hres & Hreq & Hlast)]; rewrite He', He;
      [left; reflexivity|right].
    split; [reflexivity|]. split; [eauto | exact Hlast].
Qed.

(** The accounts of a whole request. *)
Lemma _make_request_accounting (cursor : option json) (r : retriever) :
  let out := _make_request config server cursor r in
  (requests_sent r <= requests_sent (snd out)
   <= requests_sent r + Z.to_nat (MAX_RETRIES config))%nat
  /\ uncounted_calls (snd out) = uncounted_calls r
  /\ (errors (sync_stats (snd out)) = errors (sync_stats r)
      \/ (errors (sync_stats (snd out)) = errors (sync_stats r) + 1
          /\ exists e, fst out = Raise e /\ is_RequestException e = true)).
Proof.
  cbv zeta. unfold _make_request.
  generalize (Z.to_nat (MAX_RETRIES config)) as n.
  generalize 0 as attempt. intros attempt n. revert attempt r.
  induction n as [|n IH]; intros attempt r.
  - simpl. repeat split; auto; lia.
  - cbn [attempts]. unfold bind.
    destruct (turn_accounting cursor attempt r) as (Hs & Ha & He).
    cbv zeta in Hs, Ha, He.
    destruct (catch _ _ r) as [[[data|]|e] r1]; cbn [fst snd] in *.
    + unfold ret. cbn [fst snd]. unfold uncounted_calls.
      rewrite Hs, Ha. split; [lia|]. split; [lia|].
      destruct He as [He|(He & (e & Hr & _) & _)]; [auto | discriminate].
    + specialize (IH (attempt + 1) r1).
      destruct (attempts config server cursor n (attempt + 1) r1)
        as [res r2]; cbn [fst snd] in *.
      destruct IH as (Hs2 & Hu2 & He2).
      unfold uncounted_calls in *. rewrite Hs in Hs2.
      split; [lia|]. split; [rewrite Hu2, Hs, Ha; lia|].
      destruct He as [He|(He & (e & Hr & _) & _)]; [|discriminate].
      rewrite <- He. exact He2.
    + unfold uncounted_calls. rewrite Hs, Ha.
      split; [lia|]. split; [lia|].
      destruct He as [He|(He & (e' & Hr & Hreq) & _)]; [auto|].
      right. split; [exact He|]. exists e'. injection Hr as ->.
      split; [reflexivity | exact Hreq].
Qed.

(** X10. Whatever the server does, one call of [_make_request] sends at
    most [MAX_RETRIES] requests, counts one API call per request sent, and
    counts at most one error -- none unless it raises an exception of the
    [requests] hierarchy. *)
Theorem request_is_bounded (cursor : option json) (r : retriever) :
  let out := _make_request config server cursor r in
  (requests_sent r <= requests_sent (snd out)
   <= requests_sent r + Z.to_nat (MAX_RETRIES config))%nat
  /\ uncounted_calls (snd out) = uncounted_calls r
  /\ (errors (sync_stats (snd out)) = errors (sync_stats r)
      \/ (errors (sync_stats (snd out)) = errors (sync_stats r) + 1
          /\ exists e, fst out = Raise e /\ is_RequestException e = true)).
Proof. apply _make_request_accounting. Qed.

(** X11. With [MAX_RETRIES] zero or negative no request is made at all:
    the call raises [RequestException] and leaves the retriever as it
    was. *)
Theorem no_retries_no_request (cursor : option json) (r : retriever) :
  MAX_RETRIES config <= 0 ->
  _make_request config server cursor r = (Raise RequestException, r).
Proof.
  intros H. unfold _make_request.
  replace (Z.to_nat (MAX_RETRIES config)) with 0%nat by lia.
  reflexivity.
Qed.

Lemma rate_limit_pause_slept (r : retriever) :
  exists r',
    (if negb (Qle_bool (RATE_LIMIT_DELAY config) 0)
     then sleep (RATE_LIMIT_DELAY config) else ret tt) r = (Ok tt, r')
    /\ sync_stats r' = sync_stats r
    /\ (forall q, In q (slept r) -> In q (slept r')).
Proof.
  destruct (Qle_bool (RATE_LIMIT_DELAY config) 0) eqn:Hd; simpl.
  - exists r. repeat split; auto.
  - unfold sleep.
    assert (Hpos : Qle_bool 0 (RATE_LIMIT_DELAY config) = true).
    { apply Qle_bool_iff. apply Qlt_le_weak. apply Qnot_le_lt.
      intros Hle. apply Qle_bool_iff in Hle. congruence. }
    rewrite Hpos. eexists. split; [reflexivity|]. split; [reflexivity|].
    intros q Hq. right. exact Hq.
Qed.

(** A turn answered 200 with a JSON body returns it, whatever the number
    of the attempt. *)
Lemma attempts_served (cursor : option json) (page : json) (n : nat)
  (attempt : Z) (r : retriever) :
  server (requests_sent r) cursor = GetReturns (ok_response page) ->
  exists r',
    attempts config server cursor (S n) attempt r = (Ok page, r')
    /\ api_calls (sync_stats r') = api_calls (sync_stats r) + 1
    /\ errors (sync_stats r') = errors (sync_stats r)
    /\ rate_limited (sync_stats r') = rate_limited (sync_stats r)
    /\ (forall q, In q (slept r) -> In q (slept r')).
Proof.
  intros Hs. cbn [attempts].
  unfold bind at 1, catch, attempt_body.
  unfold bind at 1, update_stats, modify.
  unfold bind at 1, session_get. cbn [requests_sent with_stats].
  rewrite Hs. cbn [ok_response status_code Z.eqb Pos.eqb].
  unfold bind at 1, raise_for_status. cbn [status_code]. simpl (andb _ _).
  unfold ret at 1. unfold bind at 1.
  destruct (rate_limit_pause_slept
              (with_requests_sent S (with_stats incr_api_calls r)))
    as (r' & Hpause & Hstats & Hslept).
  rewrite Hpause. unfold bind, lift, ret. cbn [json_body].
  exists r'. split; [reflexivity|]. rewrite Hstats. simpl.
  repeat split; auto.
Qed.

(** X12. 429 answers followed by a 200 within the [MAX_RETRIES] attempts:
    the call returns the body, having counted one rate-limited request per
    429, one API call per attempt and no error. *)
Theorem rate_limited_then_served (cursor : option json) (page : json)
  (k : nat) (r : retriever) :
  (k < Z.to_nat (MAX_RETRIES config))%nat ->
  (forall i, (i < k)%nat ->
     is_rate_limit config (server (requests_sent r + i) cursor) = true) ->
  server (requests_sent r + k) cursor = GetReturns (ok_response page) ->
  exists r',
    _make_request config server cursor r = (Ok page, r')
    /\ rate_limited (sync_stats r') = rate_limited (sync_stats r) + Z.of_nat k
    /\ api_calls (sync_stats r') = api_calls (sync_stats r) + Z.of_nat k + 1
    /\ errors (sync_stats r') = errors (sync_stats r).
Proof.
  intros Hk Hlim Hok. unfold _make_request.
  destruct (attempts_rate_limited config server cursor k
              (Z.to_nat (MAX_RETRIES config) - k) 0 r Hlim)
    as (r1 & Hrun & Hsent & Hapi & Herr & Hrl & _).
  replace (k + (Z.to_nat (MAX_RETRIES config) - k))%nat
    with (Z.to_nat (MAX_RETRIES config)) in Hrun by lia.
  rewrite Hrun.
  destruct (Z.to_nat (MAX_RETRIES config) - k)%nat as [|n] eqn:Hn; [lia|].
  rewrite <- Hsent in Hok.
  destruct (attempts_served cursor page n (0 + Z.of_nat k) r1 Hok)
    as (r' & Hserved & Hapi' & Herr' & Hrl' & _).
  exists r'. split; [exact Hserved|]. repeat split; lia.
Qed.

(** A turn answered with an HTTP error status before the last attempt:
    logged, slept on, and the loop goes on. *)
Lemma turn_http_error (cursor : option json) (attempt : Z) (resp : response)
  (r : retriever) :
  server (requests_sent r) cursor = GetReturns resp ->
  is_http_error resp = true ->
  (attempt =? MAX_RETRIES config - 1) = false ->
  0 <= RETRY_DELAY config * (attempt + 1) ->
  exists r',
    catch (attempt_body config server cursor)
          (attempt_handlers config attempt) r = (Ok None, r')
    /\ requests_sent r' = S (requests_sent r)
    /\ api_calls (sync_stats r') = api_calls (sync_stats r) + 1
    /\ errors (sync_stats r') = errors (sync_stats r)
    /\ In (inject_Z (RETRY_DELAY config * (attempt + 1))) (slept r').
Proof.
  intros Hs Herr Hlast Hdelay.
  unfold is_http_error in Herr.
  apply andb_prop in Herr as [H429 Hstatus].
  apply negb_true_iff in H429.
  unfold catch, attempt_body, bind, update_stats, modify, session_get. simpl.
  rewrite Hs, H429. unfold raise_for_status. rewrite Hstatus.
  unfold raise at 1. unfold attempt_handlers.
  cbn [is_Timeout is_RequestException].
  unfold bind, logger, modify. rewrite Hlast.
  rewrite sleep_inject_Z by assumption. simpl.
  eexists. split; [reflexivity|]. simpl. auto.
Qed.

(** X13. An HTTP error status is not raised at once: before the last
    attempt it is slept on for [RETRY_DELAY * attempt number] seconds and
    the request is sent again, so an error answer followed by a 200 returns
    the body after two API calls, with no error counted. *)
Theorem http_error_is_retried (cursor : option json) (resp : response)
  (page : json) (r : retriever) :
  2 <= MAX_RETRIES config ->
  0 <= RETRY_DELAY config ->
  server (requests_sent r) cursor = GetReturns resp ->
  is_http_error resp = true ->
  server (S (requests_sent r)) cursor = GetReturns (ok_response page) ->
  exists r',
    _make_request config server cursor r = (Ok page, r')
    /\ api_calls (sync_stats r') = api_calls (sync_stats r) + 2
    /\ errors (sync_stats r') = errors (sync_stats r)
    /\ In (inject_Z (RETRY_DELAY config * 1)) (slept r').
Proof.
  intros Hmax Hdelay Hs Herr Hok. unfold _make_request.
  destruct (Z.to_nat (MAX_RETRIES config)) as [|[|n]] eqn:Hn; try lia.
  destruct (turn_http_error cursor 0 resp r Hs Herr)
    as (r1 & Hturn & Hsent & Hapi & Herrs & Hslept).
  { apply Z.eqb_neq. lia. }
  { lia. }
  rewrite <- Hsent in Hok.
  destruct (attempts_served cursor page n (0 + 1) r1 Hok)
    as (r' & Hserved & Hapi' & Herrs' & _ & Hslept').
  exists r'.
  change (attempts config server cursor (S (S n)) 0 r)
    with (bind (catch (attempt_body config server cursor)
                      (attempt_handlers config 0))
               (fun turn => match turn with
                            | Some data => ret data
                            | None => attempts config server cursor (S n)
                                        (0 + 1)
                            end) r).
  unfold bind at 1. rewrite Hturn, Hserved.
  split; [reflexivity|]. repeat split; try lia.
  apply Hslept'. exact Hslept.
Qed.

(** X14. A 429 answer whose [Retry-After] is not an integer, or is
    negative, ends the call at once with [ValueError]: no further attempt
    is made and no error is counted, though the rate-limited and
    API-call counters have already gone up by one. *)
Theorem bad_retry_after_raises (cursor : option json) (resp : response)
  (r : retriever) :
  1 <= MAX_RETRIES config ->
  server (requests_sent r) cursor = GetReturns resp ->
  status_code resp = 429 ->
  match retry_after_seconds config resp with
  | None => True
  | Some seconds => seconds < 0
  end ->
  exists r',
    _make_request config server cursor r = (Raise ValueError, r')
    /\ requests_sent r' = S (requests_sent r)
    /\ api_calls (sync_stats r') = api_calls (sync_stats r) + 1
    /\ rate_limited (sync_stats r') = rate_limited (sync_stats r) + 1
    /\ errors (sync_stats r') = errors (sync_stats r).
Proof.
  intros Hmax Hs H429 Hbad. unfold _make_request.
  destruct (Z.to_nat (MAX_RETRIES config)) as [|n] eqn:Hn; [lia|].
  cbn [attempts].
  unfold bind at 1, catch, attempt_body.
  unfold bind at 1, update_stats at 1, modify at 1.
  unfold bind at 1, session_get. cbn [requests_sent with_stats].
  rewrite Hs, H429. cbn [Z.eqb Pos.eqb].
  unfold bind at 1, update_stats at 1, modify at 1.
  unfold retry_after_seconds in Hbad.
  assert (Hneg : forall z, z < 0 -> Qle_bool 0 (inject_Z z) = false).
  { intros z Hz. rewrite Qle_bool_inject_Z. apply Z.leb_gt. exact Hz. }
  destruct (retry_after_header resp) as [| |seconds];
    unfold bind, ret, raise, logger, modify, sleep;
    rewrite ?Hneg by assumption;
    unfold attempt_handlers; cbn [is_Timeout is_RequestException];
    unfold raise; (eexists; split; [reflexivity|]); simpl; auto.
Qed.

End TransportMore.

(** ** Invariants of a whole run *)

Section Steps.

Variable R : retriever -> retriever -> Prop.
Hypothesis R_refl : forall r, R r r.
Hypothesis R_trans : forall r1 r2 r3, R r1 r2 -> R r2 r3 -> R r1 r3.

Lemma steps_ret {A : Type} (a : A) : steps R (ret a).
Proof. intros r. apply R_refl. Qed.

Lemma steps_raise {A : Type} (e : exn) : steps R (@raise A e).
Proof. intros r. apply R_refl. Qed.

Lemma steps_lift {A : Type} (x : result A) : steps R (lift x).
Proof. intros r. apply R_refl. Qed.

Lemma steps_bind {A B : Type} (m : M A) (k : A -> M B) :
  steps R m -> (forall a, steps R (k a)) -> steps R (bind m k).
Proof.
  intros Hm Hk r. unfold bind. specialize (Hm r).
  destruct (m r) as [[a|e] r1]; cbn [snd] in *; [|exact Hm].
  eapply R_trans; [exact Hm | apply Hk].
Qed.

Lemma steps_catch {A : Type} (m : M A) (h : exn -> M A) :
  steps R m -> (forall e, steps R (h e)) -> steps R (catch m h).
Proof.
  intros Hm Hh r. unfold catch. specialize (Hm r).
  destruct (m r) as [[a|e] r1]; cbn [snd] in *; [exact Hm|].
  eapply R_trans; [exact Hm | apply Hh].
Qed.

Lemma steps_finally {A : Type} (m : M A) (f : M unit) :
  steps R m -> steps R f -> steps R (finally m f).
Proof.
  intros Hm Hf r. unfold finally. specialize (Hm r).
  destruct (m r) as [res r1]. specialize (Hf r1).
  destruct (f r1) as [[u|e] r2]; cbn [snd] in *;
    eapply R_trans; eassumption.
Qed.

Lemma steps_modify (g : retriever -> retriever) :
  (forall r, R r (g r)) -> steps R (modify g).
Proof. intros Hg r. apply Hg. Qed.

Lemma steps_sleep (seconds : Q) :
  (forall r, R r (with_slept (cons seconds) r)) -> steps R (sleep seconds).
Proof.
  intros Hs r. unfold sleep. destruct (Qle_bool 0 seconds); cbn [snd]; auto.
Qed.

Lemma steps_session_get (server : nat -> option json -> get_outcome)
  (cursor : option json) :
  (forall r, R r (with_requests_sent S r)) ->
  steps R (session_get server cursor).
Proof.
  intros Hs r. unfold session_get.
  destruct (server (requests_sent r) cursor); cbn [snd]; apply Hs.
Qed.

Lemma steps_datetime_now (clock : nat -> datetime) :
  (forall r, R r (with_clock_reads S r)) -> steps R (datetime_now clock).
Proof. intros Hc r. apply Hc. Qed.

Ltac steps_basic :=
  repeat first
    [ apply steps_ret | apply steps_raise | apply steps_lift
    | apply steps_bind; [|intros ?]
    | apply steps_catch; [|intros ?]
    | apply steps_modify; intros ?; solve [auto]
    | apply steps_sleep; intros ?; solve [auto]
    | apply steps_session_get; intros ?; solve [auto]
    | apply steps_datetime_now; intros ?; solve [auto]
    | match goal with
      | |- steps _ (if ?c then _ else _) => destruct c
      | |- steps _ (match ?x with _ => _ end) => destruct x
      end ].

(** [R] is not disturbed by what the run does besides handling users:
    logging, sleeping, reading the clock, stamping the times and the
    total. *)
Hypothesis R_log : forall l r, R r (with_log (cons l) r).
Hypothesis R_slept : forall q r, R r (with_slept (cons q) r).
Hypothesis R_clock : forall r, R r (with_clock_reads S r).
Hypothesis R_start : forall t r, R r (with_stats (set_start_time t) r).
Hypothesis R_end : forall t r, R r (with_stats (set_end_time t) r).
Hypothesis R_total : forall n r, R r (with_stats (set_total_users n) r).

Variable config : IGAConfig.
Variable fromisoformat : string -> option datetime.
Variable repr : json -> string.
Variable server : nat -> option json -> get_outcome.
Variable clock : nat -> datetime.

(** The transport, when [R] is not disturbed by its counters either. *)
Lemma _make_request_steps (cursor : option json) :
  (forall r, R r (with_requests_sent S r)) ->
  (forall r, R r (with_stats incr_api_calls r)) ->
  (forall r, R r (with_stats incr_rate_limited r)) ->
  (forall r, R r (with_stats incr_errors r)) ->
  steps R (_make_request config server cursor).
Proof.
  intros Hsent Hapi Hrl Herr. unfold _make_request.
  generalize 0 as attempt.
  induction (Z.to_nat (MAX_RETRIES config)) as [|n IH]; intros attempt;
    cbn [attempts].
  - apply steps_raise.
  - apply steps_bind.
    + unfold attempt_body, attempt_handlers, update_stats, logger,
        raise_for_status.
      steps_basic.
    + intros [data|]; [apply steps_ret | apply IH].
Qed.

Hypothesis request_steps :
  forall cursor, steps R (_make_request config server cursor).
Hypothesis users_steps :
  forall records n,
    steps R (process_users fromisoformat repr clock records n).

Lemma fetch_page_steps (next_cursor : json) (page_count : Z) :
  steps R (fetch_page config fromisoformat repr server clock next_cursor
             page_count).
Proof.
  unfold fetch_page, logger.
  repeat first [ apply request_steps | apply users_steps
               | match goal with
                 | |- steps _ (let '(_, _) := ?p in _) => destruct p
                 end
               | apply steps_ret | apply steps_lift
               | apply steps_bind; [|intros ?]
               | apply steps_modify; intros ?; solve [auto]
               | match goal with
                 | |- steps _ (if ?c then _ else _) => destruct c
                 end ].
Qed.

Lemma retrieve_loop_steps (fuel : nat) :
  forall (next_cursor : json) (page_count : Z) (r r' : retriever)
         (res : result Z),
    retrieve_loop config fromisoformat repr server clock fuel next_cursor
      page_count r = Some (res, r') ->
    R r r'.
Proof.
  induction fuel as [|fuel IH]; intros next_cursor page_count r r' res H;
    [discriminate|].
  cbn [retrieve_loop] in H.
  pose proof (fetch_page_steps next_cursor (page_count + 1) r) as Hpage.
  destruct (fetch_page _ _ _ _ _ _ _ _) as [[[next|]|e] r1]; cbn [snd] in Hpage.
  - apply IH in H. eapply R_trans; eassumption.
  - inversion H; subst. assumption.
  - inversion H; subst. assumption.
Qed.

Lemma _log_sync_summary_steps : steps R _log_sync_summary.
Proof.
  intros r. unfold _log_sync_summary.
  destruct (end_time (sync_stats r)) as [e|]; [|apply R_refl].
  destruct (start_time (sync_stats r)) as [s|]; [|apply R_refl].
  match goal with
  | |- R r (snd (?m r)) => assert (Hm : steps R m); [|apply Hm]
  end.
  unfold logger. steps_basic.
Qed.

Lemma finalize_steps : steps R (finalize clock).
Proof.
  unfold finalize, update_stats.
  apply steps_bind; [apply steps_datetime_now; auto | intros now].
  apply steps_bind; [apply steps_modify; auto | intros _].
  apply steps_bind; [|intros _; apply _log_sync_summary_steps].
  intros r. unfold modify. cbn [snd]. apply R_total.
Qed.

(** Any such [R] relates the retriever a run leaves to the one it
    found. *)
Lemma run_steps (fuel : nat) (r r' : retriever)
  (res : result (list IGAUser)) :
  retrieve_all_users config fromisoformat repr server clock fuel r
  = Some (res, r') ->
  R r r'.
Proof.
  unfold retrieve_all_users.
  unfold bind at 1 2, datetime_now, update_stats, logger, modify.
  cbv beta iota.
  destruct (retrieve_loop _ _ _ _ _ _ _ _ _) as [[looped r1]|] eqn:Hloop;
    [|discriminate].
  apply retrieve_loop_steps in Hloop.
  intros H. injection H as H.
  assert (Hafter : steps R (after_loop clock looped)).
  { unfold after_loop, logger.
    apply steps_bind; [|intros us r2; apply R_refl].
    apply steps_finally; [|apply finalize_steps].
    steps_basic. }
  specialize (Hafter r1).
  rewrite H in Hafter. cbn [snd] in Hafter.
  eapply R_trans; [|eapply R_trans; [exact Hloop | exact Hafter]].
  eapply R_trans; [apply R_clock|].
  eapply R_trans; [apply R_start|]. apply R_log.
Qed.

End Steps.

Section RunInvariants.

Variable config : IGAConfig.
Variable fromisoformat : string -> option datetime.
Variable repr : json -> string.
Variable server : nat -> option json -> get_outcome.
Variable clock : nat -> datetime.

Lemma process_users_steps (R : retriever -> retriever -> Prop) :
  (forall r, R r r) ->
  (forall r1 r2 r3, R r1 r2 -> R r2 r3 -> R r1 r3) ->
  (forall user_data n,
     steps R (process_user fromisoformat repr clock user_data n)) ->
  forall records n,
    steps R (process_users fromisoformat repr clock records n).
Proof.
  intros Hrefl Htrans Hone records.
  induction records as [|user_data rest IH]; intros n; cbn [process_users].
  - apply (steps_ret R Hrefl).
  - apply (steps_bind R Htrans); [apply Hone | intros n'; apply IH].
Qed.

Lemma grows_refl (P : IGAUser -> Prop) (r : retriever) : grows P r r.
Proof. exists []. rewrite app_nil_r. split; [reflexivity | constructor]. Qed.

Lemma grows_trans (P : IGAUser -> Prop) (r1 r2 r3 : retriever) :
  grows P r1 r2 -> grows P r2 r3 -> grows P r1 r3.
Proof.
  intros (n1 & H1 & P1) (n2 & H2 & P2). exists (n1 ++ n2)%list.
  rewrite H2, H1, app_assoc. split; [reflexivity|].
  apply Forall_app. split; assumption.
Qed.

Lemma grows_same_users (P : IGAUser -> Prop) (r r' : retriever) :
  users r' = users r -> grows P r r'.
Proof.
  intros H. exists []. rewrite app_nil_r. split; [exact H | constructor].
Qed.

Lemma run_grows (fuel : nat) (r r' : retriever)
  (res : result (list IGAUser)) :
  retrieve_all_users config fromisoformat repr server clock fuel r
  = Some (res, r') ->
  exists new,
    users r' = (users r ++ new)%list
    /\ Forall (normalizer_output fromisoformat repr) new.
Proof.
  apply (run_steps (grows (normalizer_output fromisoformat repr))).
  - apply grows_refl.
  - apply grows_trans.
  - intros; apply grows_same_users; reflexivity.
  - intros; apply grows_same_users; reflexivity.
  - intros; apply grows_same_users; reflexivity.
  - intros; apply grows_same_users; reflexivity.
  - intros; apply grows_same_users; reflexivity.
  - intros cursor.
    apply _make_request_steps;
      try (intros; apply grows_same_users; reflexivity).
    apply grows_trans.
  - apply process_users_steps; [apply grows_refl | apply grows_trans|].
    intros user_data n r0. rewrite process_user_unfold.
    destruct (read_clock_for_spec fromisoformat user_data r0) as (Hu0 & _).
    destruct (parse_body fromisoformat repr (clock (clock_reads r0)) user_data)
      as [u|e] eqn:Hparse; cbn [snd].
    + exists [u]. split.
      * destruct (status u =? value ACTIVE)%string;
          [|destruct (orb _ _)]; cbn [users with_stats with_users];
          rewrite Hu0; reflexivity.
      * constructor; [|constructor]. eexists; eexists; exact Hparse.
    + apply grows_same_users. exact Hu0.
Qed.

(** X15. A run never drops or changes a user it had: the list it leaves is
    the list it found followed by new entities, each one an output of the
    normalizer -- whether the run returns or raises. *)
Theorem run_only_appends (fuel : nat) (r r' : retriever)
  (res : result (list IGAUser)) :
  retrieve_all_users config fromisoformat repr server clock fuel r
  = Some (res, r') ->
  exists new,
    users r' = (users r ++ new)%list
    /\ Forall (normalizer_output fromisoformat repr) new.
Proof. apply run_grows. Qed.

Lemma normalizer_output_range (u : IGAUser) :
  normalizer_output fromisoformat repr u -> 0 <= risk_score u <= 100.
Proof.
  intros (now & user_data & H).
  apply parse_body_Ok in H as (d & _ & _ & _ & _ & _ & Hscore).
  eapply _calculate_risk_score_range; eassumption.
Qed.

Lemma normalizer_output_groups (u : IGAUser) :
  normalizer_output fromisoformat repr u ->
  Forall (fun g => is_str g = true) (groups u).
Proof.
  intros (now & user_data & H).
  apply parse_body_Ok in H as (d & _ & _ & _ & Hg & _ & Hscore).
  rewrite Hg. eapply _calculate_risk_score_Ok; eassumption.
Qed.

Lemma users_after_run (fuel : nat) (r r' : retriever)
  (res : result (list IGAUser)) :
  Forall (normalizer_output fromisoformat repr) (users r) ->
  retrieve_all_users config fromisoformat repr server clock fuel r
  = Some (res, r') ->
  Forall (normalizer_output fromisoformat repr) (users r').
Proof.
  intros Hold H. apply run_grows in H as (new & -> & Hnew).
  apply Forall_app. split; assumption.
Qed.

(** X16. After a run, [get_privileged_users] returns: the groups it calls
    [lower] on are all strings, because the run stores only what the
    normalizer returned. *)
Theorem privileged_query_returns (fuel : nat) (r r' : retriever)
  (res : result (list IGAUser)) :
  Forall (normalizer_output fromisoformat repr) (users r) ->
  retrieve_all_users config fromisoformat repr server clock fuel r
  = Some (res, r') ->
  get_privileged_users r' = Ok (filter is_privileged (users r')).
Proof.
  intros Hold H. pose proof (users_after_run fuel r r' res Hold H) as Hall.
  destruct (get_privileged_users_total r') as (out & Hout).
  - eapply Forall_impl; [|exact Hall]. apply normalizer_output_groups.
  - rewrite Hout. f_equal.
    apply privileged_loop_Ok in Hout. exact Hout.
Qed.

(** X17. After a run every score lies in the range of the thresholds that
    make sense: [get_high_risk_users] returns nobody for a threshold above
    100 and everybody for a threshold of 0 or less. *)
Theorem high_risk_thresholds (fuel : nat) (r r' : retriever)
  (res : result (list IGAUser)) (risk_threshold : Z) :
  Forall (normalizer_output fromisoformat repr) (users r) ->
  retrieve_all_users config fromisoformat repr server clock fuel r
  = Some (res, r') ->
  (100 < risk_threshold -> get_high_risk_users risk_threshold r' = [])
  /\ (risk_threshold <= 0 -> get_high_risk_users risk_threshold r' = users r').
Proof.
  intros Hold H. pose proof (users_after_run fuel r r' res Hold H) as Hall.
  unfold get_high_risk_users.
  assert (Hrange : Forall (fun u => 0 <= risk_score u <= 100) (users r')).
  { eapply Forall_impl; [|exact Hall]. apply normalizer_output_range. }
  clear -Hrange. split; intros Ht;
    induction Hrange as [|u us Hu _ IH]; cbn [filter]; try reflexivity.
  - destruct (Z.geb_spec (risk_score u) risk_threshold); [lia | exact IH].
  - destruct (Z.geb_spec (risk_score u) risk_threshold); [|lia].
    rewrite IH. reflexivity.
Qed.

Lemma length_filter_snoc (f : IGAUser -> bool) (us : list IGAUser)
  (u : IGAUser) :
  Z.of_nat (List.length (filter f (us ++ [u])))
  = Z.of_nat (List.length (filter f us)) + (if f u then 1 else 0).
Proof.
  rewrite filter_app, length_app. cbn [filter].
  destruct (f u); cbn [List.length]; lia.
Qed.

(** Appending a user and counting its status leaves the tally as it was. *)
Lemma tally_append (u : IGAUser) (r : retriever) :
  tally ((if (status u =? value ACTIVE)%string
          then with_stats incr_active_users
          else if orb (status u =? value SUSPENDED)%string
                      (status u =? value DEPROVISIONED)%string
               then with_stats incr_suspended_users
               else fun r => r)
           (with_users (fun us => (us ++ [u])%list) r))
  = tally r.
Proof.
  unfold tally.
  assert (Hexcl : (status u =? value ACTIVE)%string = true ->
                  orb (status u =? value SUSPENDED)%string
                      (status u =? value DEPROVISIONED)%string = false).
  { intros Ha. apply String.eqb_eq in Ha. rewrite Ha. reflexivity. }
  destruct (status u =? value ACTIVE)%string eqn:Ha;
    [|destruct (orb (status u =? value SUSPENDED)%string
                    (status u =? value DEPROVISIONED)%string) eqn:Hs];
    cbn [users sync_stats with_stats with_users with_clock_reads
         active_users suspended_users incr_active_users
         incr_suspended_users];
    rewrite !length_filter_snoc; unfold has_status;
    rewrite ?Ha, ?Hs, ?(Hexcl eq_refl); f_equal; lia.
Qed.

(** X18. The counters of active and suspended users move with the list:
    over a run, each grows by the number of new users with status ACTIVE,
    respectively SUSPENDED or DEPROVISIONED.  On a retriever whose counters
    matched its list -- a fresh one -- they are the numbers of such users
    in the list the run leaves. *)
Theorem status_counters_match_users (fuel : nat) (r r' : retriever)
  (res : result (list IGAUser)) :
  tally r = (0, 0) ->
  retrieve_all_users config fromisoformat repr server clock fuel r
  = Some (res, r') ->
  active_users (sync_stats r')
  = Z.of_nat (List.length (filter (has_status (value ACTIVE)) (users r')))
  /\ suspended_users (sync_stats r')
     = Z.of_nat (List.length
                   (filter (fun u => orb (has_status (value SUSPENDED) u)
                                         (has_status (value DEPROVISIONED) u))
                           (users r'))).
Proof.
  intros Hfresh H.
  assert (Hsame : same_tally r r').
  { revert H. apply (run_steps same_tally); unfold same_tally;
      try (intros; reflexivity); try congruence.
    - intros cursor. apply _make_request_steps; unfold same_tally;
        try (intros; reflexivity); congruence.
    - apply process_users_steps; unfold same_tally;
        try (intros; reflexivity); try congruence.
      intros user_data n r0. rewrite process_user_unfold.
      destruct (read_clock_for_spec fromisoformat user_data r0)
        as (Hu0 & Hs0 & _).
      assert (Hread : tally (read_clock_for fromisoformat user_data r0)
                      = tally r0)
        by (unfold tally; rewrite Hu0, Hs0; reflexivity).
      destruct (parse_body fromisoformat repr (clock (clock_reads r0))
                  user_data) as [u|e]; cbn [snd].
      + rewrite tally_append. exact Hread.
      + rewrite <- Hread. reflexivity. }
  unfold same_tally in Hsame. rewrite Hfresh in Hsame.
  pose proof (f_equal fst Hsame) as Ha.
  pose proof (f_equal snd Hsame) as Hs.
  unfold tally in Ha, Hs. cbn [fst snd] in Ha, Hs. split; lia.
Qed.

(** X19. Over a whole run the API-call counter moves with the requests
    sent: every attempt is counted once, whatever its outcome. *)
Theorem api_calls_match_requests (fuel : nat) (r r' : retriever)
  (res : result (list IGAUser)) :
  retrieve_all_users config fromisoformat repr server clock fuel r
  = Some (res, r') ->
  api_calls (sync_stats r') - api_calls (sync_stats r)
  = Z.of_nat (requests_sent r') - Z.of_nat (requests_sent r).
Proof.
  intros H.
  assert (Hsame : same_uncounted r r').
  { revert H. apply (run_steps same_uncounted); unfold same_uncounted;
      try (intros; reflexivity); try congruence.
    - intros cursor r0.
      apply (_make_request_accounting config server cursor r0).
    - apply process_users_steps; unfold same_uncounted;
        try (intros; reflexivity); try congruence.
      intros user_data n r0. rewrite process_user_unfold.
      destruct (read_clock_for_spec fromisoformat user_data r0)
        as (_ & Hs0 & _ & _ & Hq0 & _).
      assert (Hread : uncounted_calls
                        (read_clock_for fromisoformat user_data r0)
                      = uncounted_calls r0)
        by (unfold uncounted_calls; rewrite Hs0, Hq0; reflexivity).
      destruct (parse_body fromisoformat repr (clock (clock_reads r0))
                  user_data) as [u|e]; cbn [snd];
        rewrite <- Hread; [|reflexivity].
      destruct (status u =? value ACTIVE)%string;
        [|destruct (orb _ _)]; reflexivity. }
  unfold same_uncounted, uncounted_calls in Hsame. lia.
Qed.


End RunInvariants.

(** X20. A bare-array response ends the pagination with its page.  If one
    of its elements is the string ["results"] or ["data"], the membership
    test takes the array for a wrapped page and the subscript that follows
    raises [TypeError]; otherwise the array is the page and there is no
    cursor. *)
Theorem bare_array_is_last_page (l : list json) :
  goes_on (JList l) = false
  /\ (In (JStr "results") l \/ In (JStr "data") l ->
      extract_page (JList l) = Raise TypeError)
  /\ (~ In (JStr "results") l -> ~ In (JStr "data") l ->
      extract_page (JList l) = Ok (JList l, JNull)).
Proof.
  assert (Hin : forall k,
            existsb (fun x => match x with
                              | JStr s => (s =? k)%string
                              | _ => false
                              end) l = true <-> In (JStr k) l).
  { intros k. rewrite existsb_exists. split.
    - intros (x & Hx & Hk). destruct x; try discriminate.
      apply String.eqb_eq in Hk. subst. exact Hx.
    - intros H. exists (JStr k). split; [exact H | apply String.eqb_refl]. }
  assert (Hcases : extract_page (JList l) = Raise TypeError
                   \/ extract_page (JList l) = Ok (JList l, JNull)).
  { unfold extract_page, in_. cbn [rbind].
    destruct (existsb _ l); [left; reflexivity|].
    destruct (existsb _ l); [left; reflexivity | right; reflexivity]. }
  split; [|split].
  - unfold goes_on, has_cursor.
    destruct Hcases as [-> | ->]; reflexivity.
  - intros H. unfold extract_page, in_. cbn [rbind].
    destruct (existsb _ l) eqn:Hr; [reflexivity|].
    destruct (existsb _ l) eqn:Hd in |- *; [reflexivity|].
    destruct H as [H|H]; apply Hin in H; congruence.
  - intros Hr Hd. unfold extract_page, in_. cbn [rbind].
    destruct (existsb _ l) eqn:Er; [apply Hin in Er; contradiction|].
    destruct (existsb _ l) eqn:Ed in |- *; [apply Hin in Ed; contradiction|].
    reflexivity.
Qed.

(** X21. The normalizer returns an entity exactly for a raw record that
    is a dict and whose groups, once mapped to names, are all strings; any
    other record makes it raise. *)
Theorem normalizer_accepts_iff (fromisoformat : string -> option datetime)
  (repr : json -> string) (now : datetime) (user_data : json) :
  (exists u, parse_body fromisoformat repr now user_data = Ok u)
  <-> (exists d, user_data = JDict d
                 /\ Forall (fun g => is_str g = true) (raw_groups repr d)).
Proof.
  split.
  - intros (u & H).
    apply parse_body_Ok in H as (d & Hd & _ & _ & _ & _ & Hscore).
    exists d. split; [exact Hd|].
    eapply _calculate_risk_score_Ok. exact Hscore.
  - intros (d & -> & Hg). apply parse_body_of_strings. exact Hg.
Qed.

(** *** The further theorems at concrete inputs *)

Lemma score_decomposition_witness :
  _calculate_risk_score Sample.fromisoformat scenario_B_now JNull
    "DEPROVISIONED" (JStr "2024-01-01T00:00:00Z")
    [JStr "Org-Admins"; JStr "staff"] = Ok 90
  /\ exists base,
       _calculate_risk_score Sample.fromisoformat scenario_B_now JNull
         "DEPROVISIONED" (JStr "2024-01-01T00:00:00Z") [] = Ok base
       /\ 0 <= base <= 80
       /\ 90 = Z.min (base + 10 * Z.of_nat
                                   (List.length
                                      (filter is_risk_admin_name
                                         [JStr "Org-Admins"; JStr "staff"])))
                     100.
Proof.
  assert (H : _calculate_risk_score Sample.fromisoformat scenario_B_now JNull
                "DEPROVISIONED" (JStr "2024-01-01T00:00:00Z")
                [JStr "Org-Admins"; JStr "staff"] = Ok 90)
    by (vm_compute; reflexivity).
  split; [exact H|].
  exact (score_decomposition Sample.fromisoformat scenario_B_now JNull
           "DEPROVISIONED" (JStr "2024-01-01T00:00:00Z")
           [JStr "Org-Admins"; JStr "staff"] 90 H).
Defined.

Lemma high_score_is_privileged_witness :
  parse_body Sample.fromisoformat Sample.repr scenario_B_now risky_record
  = Ok risky_user
  /\ 80 < risk_score risky_user
  /\ is_privileged risky_user = true.
Proof.
  assert (H : parse_body Sample.fromisoformat Sample.repr scenario_B_now
                risky_record = Ok risky_user) by (vm_compute; reflexivity).
  assert (Hhigh : 80 < risk_score risky_user) by (simpl; lia).
  split; [exact H|]. split; [exact Hhigh|].
  exact (high_score_is_privileged Sample.fromisoformat Sample.repr risky_user
           (ex_intro _ scenario_B_now (ex_intro _ risky_record H)) Hhigh).
Defined.

Lemma activated_decides_status_witness :
  lookup "activated" mixed_groups_fields = Some (JBool true)
  /\ status mixed_groups_user = value ACTIVE.
Proof.
  split; [reflexivity|].
  apply (activated_decides_status Sample.fromisoformat Sample.repr
           scenario_B_now mixed_groups_fields true mixed_groups_user);
    vm_compute; reflexivity.
Defined.

Lemma display_name_known_witness :
  has_visible (str Sample.repr (first_name spaced_names_user)) = false
  /\ has_visible (str Sample.repr (last_name spaced_names_user)) = true
  /\ display_name spaced_names_user = JStr (utf8 [230; 157; 142]%nat)
  /\ truthy (display_name spaced_names_user) = true.
Proof.
  split; [reflexivity|]. split; [reflexivity|]. split; [reflexivity|].
  apply (display_name_known Sample.fromisoformat Sample.repr scenario_B_now
           spaced_names spaced_names_user).
  - vm_compute. reflexivity.
  - right. reflexivity.
Defined.


Lemma inactive_shrinks_with_days_witness :
  get_inactive_users Sample.fromisoformat scenario_B_now 30 seen_and_unseen
  = Some [scenario_B_user; plain_user]
  /\ get_inactive_users Sample.fromisoformat scenario_B_now 100 seen_and_unseen
     = Some [plain_user]
  /\ incl [plain_user] [scenario_B_user; plain_user].
Proof.
  assert (H1 : get_inactive_users Sample.fromisoformat scenario_B_now 30
                 seen_and_unseen = Some [scenario_B_user; plain_user])
    by (vm_compute; reflexivity).
  assert (H2 : get_inactive_users Sample.fromisoformat scenario_B_now 100
                 seen_and_unseen = Some [plain_user])
    by (vm_compute; reflexivity).
  split; [exact H1|]. split; [exact H2|].
  apply (inactive_shrinks_with_days Sample.fromisoformat scenario_B_now 30 100
           seen_and_unseen _ _ ltac:(lia) H1 H2).
Defined.

Lemma inactive_by_whole_days_witness :
  days_between scenario_B_now
    (replace_tzinfo_None {| naive := 1704067200000000; tzinfo := Some 0 |})
  = 100
  /\ ((30 < days_between scenario_B_now
              (replace_tzinfo_None
                 {| naive := 1704067200000000; tzinfo := Some 0 |}) ->
       In scenario_B_user [scenario_B_user; plain_user])
      /\ (In scenario_B_user [scenario_B_user; plain_user] ->
          30 <= days_between scenario_B_now
                  (replace_tzinfo_None
                     {| naive := 1704067200000000; tzinfo := Some 0 |}))).
Proof.
  split; [reflexivity|].
  apply (inactive_by_whole_days Sample.fromisoformat scenario_B_now 30
           seen_and_unseen [scenario_B_user; plain_user] scenario_B_user
           "2024-01-01T00:00:00Z"
           {| naive := 1704067200000000; tzinfo := Some 0 |}).
  - vm_compute. reflexivity.
  - left. reflexivity.
  - reflexivity.
  - discriminate.
  - vm_compute. reflexivity.
Defined.

Lemma request_url_ignores_slashes_witness :
  BASE_URL slash_config = (BASE_URL default_config ++ "/")%string
  /\ request_url slash_config "systemusers"
     = request_url default_config "systemusers"
  /\ request_url default_config "/systemusers"
     = request_url default_config "systemusers".
Proof.
  split; [reflexivity|].
  apply (request_url_ignores_slashes default_config slash_config
           "systemusers").
  reflexivity.
Defined.

Lemma config_has_credentials_witness :
  IGAConfig_init sample_int sample_float key_only_environ = Ok key_only_config
  /\ IGAConfig_init sample_int sample_float no_environ = Raise ValueError
  /\ key_only_environ "IGA_API_KEY" = Some (API_KEY key_only_config)
  /\ API_KEY key_only_config <> EmptyString
  /\ BASE_URL key_only_config <> EmptyString.
Proof.
  split; [vm_compute; reflexivity|]. split; [vm_compute; reflexivity|].
  exact (config_has_credentials sample_int sample_float key_only_environ).
Defined.

Lemma no_retries_no_request_witness :
  MAX_RETRIES no_retry_config <= 0
  /\ _make_request no_retry_config always_timeout None initial_retriever
     = (Raise RequestException, initial_retriever).
Proof.
  assert (H : MAX_RETRIES no_retry_config <= 0) by (simpl; lia).
  split; [exact H|].
  exact (no_retries_no_request no_retry_config always_timeout None
           initial_retriever H).
Defined.

Lemma rate_limited_then_served_witness :
  is_rate_limit default_config (rate_limited_once first_page 0%nat None) = true
  /\ exists r',
       _make_request default_config (rate_limited_once first_page) None
         initial_retriever = (Ok first_page, r')
       /\ rate_limited (sync_stats r')
          = rate_limited (sync_stats initial_retriever) + Z.of_nat 1
       /\ api_calls (sync_stats r')
          = api_calls (sync_stats initial_retriever) + Z.of_nat 1 + 1
       /\ errors (sync_stats r') = errors (sync_stats initial_retriever).
Proof.
  split; [reflexivity|].
  apply (rate_limited_then_served default_config
           (rate_limited_once first_page) None first_page 1
           initial_retriever).
  - simpl. lia.
  - intros i Hi. assert (i = 0%nat) as -> by lia. reflexivity.
  - reflexivity.
Defined.

Lemma http_error_is_retried_witness :
  is_http_error {| status_code := 503; retry_after_header := Absent;
                   json_body := Raise RequestException |} = true
  /\ exists r',
       _make_request default_config (failing_once first_page) None
         initial_retriever = (Ok first_page, r')
       /\ api_calls (sync_stats r')
          = api_calls (sync_stats initial_retriever) + 2
       /\ errors (sync_stats r') = errors (sync_stats initial_retriever)
       /\ In (inject_Z (RETRY_DELAY default_config * 1)) (slept r').
Proof.
  split; [reflexivity|].
  apply (http_error_is_retried default_config (failing_once first_page) None
           {| status_code := 503; retry_after_header := Absent;
              json_body := Raise RequestException |}
           first_page initial_retriever).
  - simpl. lia.
  - simpl. lia.
  - reflexivity.
  - reflexivity.
  - reflexivity.
Defined.

Lemma bad_retry_after_raises_witness :
  retry_after_seconds default_config
    {| status_code := 429; retry_after_header := NotAnInt;
       json_body := Raise ValueError |} = None
  /\ exists r',
       _make_request default_config always_retry_after_date None
         initial_retriever = (Raise ValueError, r')
       /\ requests_sent r' = S (requests_sent initial_retriever)
       /\ api_calls (sync_stats r')
          = api_calls (sync_stats initial_retriever) + 1
       /\ rate_limited (sync_stats r')
          = rate_limited (sync_stats initial_retriever) + 1
       /\ errors (sync_stats r') = errors (sync_stats initial_retriever).
Proof.
  split; [reflexivity|].
  apply (bad_retry_after_raises default_config always_retry_after_date None
           {| status_code := 429; retry_after_header := NotAnInt;
              json_body := Raise ValueError |}
           initial_retriever).
  - simpl. lia.
  - reflexivity.
  - reflexivity.
  - exact I.
Defined.

Lemma run_only_appends_witness :
  retrieve_all_users default_config Sample.fromisoformat Sample.repr
    (serve_pages [page_with_bad_records]) ticking_clock 1 initial_retriever
  = Some (bad_page_result, bad_page_retriever)
  /\ exists new,
       users bad_page_retriever = (users initial_retriever ++ new)%list
       /\ Forall (normalizer_output Sample.fromisoformat Sample.repr) new.
Proof.
  assert (H : retrieve_all_users default_config Sample.fromisoformat
                Sample.repr (serve_pages [page_with_bad_records])
                ticking_clock 1 initial_retriever
              = Some (bad_page_result, bad_page_retriever))
    by (vm_compute; reflexivity).
  split; [exact H|].
  exact (run_only_appends default_config Sample.fromisoformat Sample.repr
           (serve_pages [page_with_bad_records]) ticking_clock 1
           initial_retriever bad_page_retriever bad_page_result H).
Defined.

Lemma privileged_query_returns_witness :
  retrieve_all_users default_config Sample.fromisoformat Sample.repr
    (serve_pages [page_with_bad_records]) ticking_clock 1 initial_retriever
  = Some (bad_page_result, bad_page_retriever)
  /\ get_privileged_users bad_page_retriever
     = Ok (filter is_privileged (users bad_page_retriever)).
Proof.
  assert (H : retrieve_all_users default_config Sample.fromisoformat
                Sample.repr (serve_pages [page_with_bad_records])
                ticking_clock 1 initial_retriever
              = Some (bad_page_result, bad_page_retriever))
    by (vm_compute; reflexivity).
  split; [exact H|].
  exact (privileged_query_returns default_config Sample.fromisoformat
           Sample.repr (serve_pages [page_with_bad_records]) ticking_clock 1
           initial_retriever bad_page_retriever bad_page_result
           (Forall_nil _) H).
Defined.

Lemma high_risk_thresholds_witness :
  retrieve_all_users default_config Sample.fromisoformat Sample.repr
    (serve_pages [page_with_bad_records]) ticking_clock 1 initial_retriever
  = Some (bad_page_result, bad_page_retriever)
  /\ (100 < 101 -> get_high_risk_users 101 bad_page_retriever = [])
  /\ (101 <= 0 ->
      get_high_risk_users 101 bad_page_retriever = users bad_page_retriever).
Proof.
  assert (H : retrieve_all_users default_config Sample.fromisoformat
                Sample.repr (serve_pages [page_with_bad_records])
                ticking_clock 1 initial_retriever
              = Some (bad_page_result, bad_page_retriever))
    by (vm_compute; reflexivity).
  split; [exact H|].
  exact (high_risk_thresholds default_config Sample.fromisoformat
           Sample.repr (serve_pages [page_with_bad_records]) ticking_clock 1
           initial_retriever bad_page_retriever bad_page_result 101
           (Forall_nil _) H).
Defined.

Lemma status_counters_match_users_witness :
  tally initial_retriever = (0, 0)
  /\ active_users (sync_stats bad_page_retriever)
     = Z.of_nat (List.length (filter (has_status (value ACTIVE))
                                (users bad_page_retriever)))
  /\ suspended_users (sync_stats bad_page_retriever)
     = Z.of_nat (List.length
                   (filter (fun u => orb (has_status (value SUSPENDED) u)
                                         (has_status (value DEPROVISIONED) u))
                           (users bad_page_retriever))).
Proof.
  split; [reflexivity|].
  apply (status_counters_match_users default_config Sample.fromisoformat
           Sample.repr (serve_pages [page_with_bad_records]) ticking_clock 1
           initial_retriever bad_page_retriever bad_page_result).
  - reflexivity.
  - vm_compute. reflexivity.
Defined.

Lemma api_calls_match_requests_witness :
  retrieve_all_users default_config Sample.fromisoformat Sample.repr
    (serve_pages [page_with_bad_records]) ticking_clock 1 initial_retriever
  = Some (bad_page_result, bad_page_retriever)
  /\ api_calls (sync_stats bad_page_retriever)
     - api_calls (sync_stats initial_retriever)
     = Z.of_nat (requests_sent bad_page_retriever)
       - Z.of_nat (requests_sent initial_retriever).
Proof.
  assert (H : retrieve_all_users default_config Sample.fromisoformat
                Sample.repr (serve_pages [page_with_bad_records])
                ticking_clock 1 initial_retriever
              = Some (bad_page_result, bad_page_retriever))
    by (vm_compute; reflexivity).
  split; [exact H|].
  exact (api_calls_match_requests default_config Sample.fromisoformat
           Sample.repr (serve_pages [page_with_bad_records]) ticking_clock 1
           initial_retriever bad_page_retriever bad_page_result H).
Defined.
